(** * Budget analytics of the travel-expense tracker

    A shallow embedding of the data-preparation code of the React components
    (the bodies of their [useMemo] hooks) and the properties the specification
    states about them.

    Conventions of the embedding.
    - A JavaScript [Date] is its time value: milliseconds since the epoch, in
      [Z].  The local time zone is a fixed offset [tz] (local = UTC + tz, in
      milliseconds); daylight-saving transitions are outside the model.
    - A JavaScript number that holds money is an exact rational ([Q]); the
      rounding of IEEE doubles is outside the model.  Counters and day
      ordinals are integers.
    - A JavaScript object used as a dictionary, and a [Map], is an association
      list in insertion order, which is the order [Object.entries] yields for
      keys that are not canonical array indices (category names, country
      names and ISO dates are not).  Keys that collide with a property of
      [Object.prototype] are outside the model.
    - [Array.prototype.sort] is a stable sort; it is embedded as a stable
      insertion sort driven by the comparator of the call site. *)

From Stdlib Require Import ZArith QArith Qround Qminmax Qabs.
From Stdlib Require Import List String Bool Lia Permutation Sorted.
From Stdlib Require Import Reals Qreals Lra.
Import ListNotations.

(* ================================================================== *)
(** * The [Date] object *)

Module JSDate.

Local Open Scope Z_scope.

(** [1000 * 3600 * 24], the divisor the components use. *)
Definition msPerDay : Z := 1000 * 3600 * 24.

(** ECMAScript [Day(t)] and [TimeWithinDay(t)]. *)
Definition Day (t : Z) : Z := t / msPerDay.
Definition TimeWithinDay (t : Z) : Z := t mod msPerDay.

(** Civil date of a day number (days since 1970-01-01), proleptic Gregorian
    calendar: (year, month 1..12, day of month 1..31).  This is what
    ECMAScript's [YearFromTime], [MonthFromTime] and [DateFromTime] compute. *)
Definition civil (days : Z) : Z * Z * Z :=
  let z := days + 719468 in
  let era := z / 146097 in
  let doe := z - era * 146097 in
  let yoe := (doe - doe / 1460 + doe / 36524 - doe / 146096) / 365 in
  let doy := doe - (365 * yoe + yoe / 4 - yoe / 100) in
  let mp := (5 * doy + 2) / 153 in
  let d := doy - (153 * mp + 2) / 5 + 1 in
  let m := if mp <? 10 then mp + 3 else mp - 9 in
  let y := yoe + era * 400 + (if m <=? 2 then 1 else 0) in
  (y, m, d).

Section Zone.

(** The offset of the local zone: local time = UTC + [tz] milliseconds. *)
Variable tz : Z.

Definition LocalTime (t : Z) : Z := t + tz.
Definition UTC (t : Z) : Z := t - tz.

(** [d.getDay()]: 0 is Sunday; 1970-01-01 was a Thursday. *)
Definition getDay (t : Z) : Z := (Day (LocalTime t) + 4) mod 7.

(** [d.getFullYear()], [d.getMonth()] (0-based), [d.getDate()]. *)
Definition getFullYear (t : Z) : Z :=
  let '(y, _, _) := civil (Day (LocalTime t)) in y.
Definition getMonth (t : Z) : Z :=
  let '(_, m, _) := civil (Day (LocalTime t)) in m - 1.
Definition getDate (t : Z) : Z :=
  let '(_, _, d) := civil (Day (LocalTime t)) in d.

(** [d.setHours(h, m, s, ms)]: same local day, the given time of day. *)
Definition setHours (t h m s ms : Z) : Z :=
  UTC (Day (LocalTime t) * msPerDay + (h * 3600000 + m * 60000 + s * 1000 + ms)).

(** [d.setDate(dt)]: [MakeDay(year, month, dt)] is the day of the first of
    the month plus [dt - 1], for any integer [dt]; the time within the day
    is kept. *)
Definition setDate (t dt : Z) : Z :=
  let firstOfMonth := Day (LocalTime t) - (getDate t - 1) in
  UTC ((firstOfMonth + (dt - 1)) * msPerDay + TimeWithinDay (LocalTime t)).

End Zone.

(** [new Date(s)] for a date-only string [YYYY-MM-DD], given as its day
    number: midnight UTC of that day. *)
Definition ofDateString (day : Z) : Z := day * msPerDay.

(** [d.toISOString().split('T')[0]]: the UTC calendar day.  The string
    [YYYY-MM-DD] is represented by the day number it denotes. *)
Definition isoDate (t : Z) : Z := Day t.

End JSDate.

(* ================================================================== *)
(** * JavaScript values and containers *)

Module JS.

Local Open Scope Q_scope.

(** [a < b] on numbers, as a boolean. *)
Definition Qlt_bool (a b : Q) : bool := negb (Qle_bool b a).

(** [x || 0] for [x] a number or [undefined]: a missing value and the falsy
    number 0 both give 0, any other number is itself. *)
Definition orZero (x : option Q) : Q :=
  match x with
  | Some v => v
  | None => 0
  end.

(** A string is truthy unless it is empty. *)
Definition truthy (s : string) : bool :=
  match s with
  | EmptyString => false
  | _ => true
  end.

Section Dict.

Context {K : Type}.
Variable eqb : K -> K -> bool.

(** [m[k]] / [m.get(k)]: [None] is [undefined]. *)
Fixpoint get (m : list (K * Q)) (k : K) : option Q :=
  match m with
  | [] => None
  | (k', v) :: m' => if eqb k k' then Some v else get m' k
  end.

(** [m[k] = v] / [m.set(k, v)]: an existing key keeps its position, a new
    key goes last. *)
Fixpoint set (m : list (K * Q)) (k : K) (v : Q) : list (K * Q) :=
  match m with
  | [] => [(k, v)]
  | (k', v') :: m' => if eqb k k' then (k', v) :: m' else (k', v') :: set m' k v
  end.

(** [m.hasOwnProperty(k)]. *)
Definition hasOwnProperty (m : list (K * Q)) (k : K) : bool :=
  match get m k with
  | Some _ => true
  | None => false
  end.

(** [m[k] = (m[k] || 0) + a], the accumulation step of every grouping. *)
Definition addTo (m : list (K * Q)) (k : K) (a : Q) : list (K * Q) :=
  set m k (orZero (get m k) + a).

End Dict.

(** [xs.reduce((sum, x) => sum + x, 0)]. *)
Definition sum (xs : list Q) : Q := fold_left Qplus xs 0.

Section Sort.

Context {A : Type}.

(** The comparator of the call site: a result [<= 0] keeps [a] before [b]. *)
Variable cmp : A -> A -> Q.

Fixpoint insert (x : A) (l : list A) : list A :=
  match l with
  | [] => [x]
  | y :: l' => if Qle_bool (cmp x y) 0 then x :: y :: l' else y :: insert x l'
  end.

(** [xs.sort(cmp)], stable: an element stays before the later elements it
    compares equal to. *)
Definition sort (l : list A) : list A := fold_right insert [] l.

End Sort.

End JS.

(* ================================================================== *)
(** * Data model *)

Module Types.

(** Modelled from the spec: the [Expense] and [Trip] types ([types.ts] is
    not among the sources).  An expense [date] is a full timestamp, written
    by the form as [new Date().toISOString()]; it is represented by its time
    value.  A trip's [startDate] and [endDate] are calendar dates
    ([YYYY-MM-DD]), represented by their day numbers; [new Date] reads such
    a string as midnight UTC. *)
Record Expense : Type := mkExpense {
  id : string;
  amount : Q;
  currency : string;
  category : string;
  description : string;
  date : Z;
  country : option string
}.

Record Trip : Type := mkTrip {
  startDate : Z;
  endDate : Z;
  mainCurrency : string;
  totalBudget : Q;
  countries : list string
}.

(** The category registry of [useData()]: names with their icons. *)
Record Category : Type := mkCategory {
  name : string;
  icon : string
}.

(** The type of [convert(amount, from, to)] of [useCurrencyConverter()]. *)
Definition Converter : Type := Q -> string -> string -> Q.

End Types.

Import Types.

(* ================================================================== *)
(** * AdvancedBudgetChart: the day buckets of the burn chart *)

Module AdvancedBudgetChart.

Import JSDate.

(** One element of [dataPoints].  The display label [date] is a rendering
    of [fullDate] and is left out. *)
Record DataPoint : Type := mkDataPoint {
  fullDate : Z;
  SpesaGiornaliera : option Q;
  SpesaCumulativa : Q;
  BudgetCumulativoIdeale : Q
}.

Section Chart.

Variable convert : Converter.
Variable tz : Z.
(** [new Date()] at the time of the call. *)
Variable now : Z.

Definition totalTripDuration (trip : Trip) : Q :=
  let tripStart := ofDateString (startDate trip) in
  let tripEnd := ofDateString (endDate trip) in
  Qmax 1 (inject_Z (tripEnd - tripStart) / inject_Z (1000 * 3600 * 24) + 1).

Definition idealDailyBurn (trip : Trip) : Q :=
  if JS.Qlt_bool 0 (totalBudget trip)
  then totalBudget trip / totalTripDuration trip
  else 0.

Definition dailySpending (expenses : list Expense) (trip : Trip) : list (Z * Q) :=
  fold_left
    (fun m expense =>
       let date := isoDate (date expense) in
       let amountInMain :=
         convert (amount expense) (currency expense) (mainCurrency trip) in
       JS.set Z.eqb m date (JS.orZero (JS.get Z.eqb m date) + amountInMain))
    expenses [].

(** The [while (currentDate <= lastDate)] loop; [fuel] bounds the number
    of iterations.  The points are produced in the order they are pushed. *)
Fixpoint loop (fuel : nat) (burn : Q) (spending : list (Z * Q)) (lastDate : Z)
  (currentDate : Z) (daysElapsed : Z) (cumulativeSpent : Q) : list DataPoint :=
  match fuel with
  | O => []
  | S fuel' =>
      if (currentDate <=? lastDate)%Z then
        let daysElapsed := (daysElapsed + 1)%Z in
        let dateStr := isoDate currentDate in
        let spentToday := JS.orZero (JS.get Z.eqb spending dateStr) in
        let cumulativeSpent := cumulativeSpent + spentToday in
        mkDataPoint currentDate
          (if JS.Qlt_bool 0 spentToday then Some spentToday else None)
          cumulativeSpent
          (burn * inject_Z daysElapsed)
        :: loop fuel' burn spending lastDate
             (setDate tz currentDate (getDate tz currentDate + 1))
             daysElapsed cumulativeSpent
      else []
  end.

(** Every iteration moves [currentDate] one day on, so the body runs at most
    once per day between [currentDate] and [lastDate]. *)
Definition fuelFor (lastDate currentDate : Z) : nat :=
  S (Z.to_nat ((lastDate - currentDate) / msPerDay)).

Definition chartData (expenses : list Expense) (trip : Trip) : list DataPoint :=
  let tripStart := ofDateString (startDate trip) in
  let tripEnd := ofDateString (endDate trip) in
  let today := setHours tz now 23 59 59 999 in
  let lastDate := if (today <? tripEnd)%Z then today else tripEnd in
  if (lastDate <? tripStart)%Z then []
  else
    loop (fuelFor lastDate tripStart) (idealDailyBurn trip)
      (dailySpending expenses trip) lastDate tripStart 0 0.

End Chart.

End AdvancedBudgetChart.

(* ================================================================== *)
(** * Dashboard: the filter in front of every view *)

Module Dashboard.

Import JSDate.

Local Open Scope Z_scope.

(** The values the filter buttons give the [dateFilter] state. *)
Inductive DateFilter : Type := all | today | week | month.

(** [selectedCategories.includes(c)]. *)
Definition includes (l : list string) (c : string) : bool :=
  existsb (String.eqb c) l.

(** [[...activeTrip.expenses].sort(...)]: newest first. *)
Definition sortedExpenses (expenses : list Expense) : list Expense :=
  JS.sort (fun a b => inject_Z (date b - date a)) expenses.

Section Filter.

Variable tz : Z.
Variable now : Z.

(** [firstDayOfWeek] of the [week] branch, after [setDate] and [setHours]. *)
Definition firstDayOfWeek : Z :=
  let dayOfWeek := getDay tz now in
  let diff := getDate tz now - dayOfWeek + (if dayOfWeek =? 0 then -6 else 1) in
  setHours tz (setDate tz now diff) 0 0 0 0.

(** The filter as a function of the list it starts from.  An expense date
    is an ISO string in UTC, so [e.date.startsWith(todayStr)] compares UTC
    calendar days. *)
Definition filterExpenses (dateFilter : DateFilter)
  (selectedCategories : list string) (sortedExpenses : list Expense)
  : list Expense :=
  let expenses := sortedExpenses in
  let expenses :=
    match dateFilter with
    | today =>
        let todayStr := isoDate now in
        filter (fun e => isoDate (date e) =? todayStr) expenses
    | week =>
        filter (fun e => firstDayOfWeek <=? date e) expenses
    | month =>
        filter (fun e =>
                  let expenseDate := date e in
                  (getMonth tz expenseDate =? getMonth tz now)
                  && (getFullYear tz expenseDate =? getFullYear tz now))
               expenses
    | all => expenses
    end in
  if (0 <? List.length selectedCategories)%nat
  then filter (fun e => includes selectedCategories (category e)) expenses
  else expenses.

(** [filteredExpenses] of the component: the filter over the sorted list. *)
Definition filteredExpenses (dateFilter : DateFilter)
  (selectedCategories : list string) (tripExpenses : list Expense)
  : list Expense :=
  filterExpenses dateFilter selectedCategories (sortedExpenses tripExpenses).

End Filter.

End Dashboard.

(* ================================================================== *)
(** * CategoryChart: spending per category *)

Module CategoryChart.

Local Open Scope Q_scope.

Record Slice : Type := mkSlice {
  name : string;
  amount : Q;
  percentage : Q;
  icon : string
}.

(** The fallback glyph (U+1F4B8), as its UTF-8 bytes. *)
Definition defaultIcon : string :=
  String (Ascii.ascii_of_nat 240) (String (Ascii.ascii_of_nat 159)
    (String (Ascii.ascii_of_nat 146) (String (Ascii.ascii_of_nat 184) EmptyString))).

(** [categories.find(c => c.name === categoryName)?.icon || fallback]. *)
Definition iconOf (categories : list Category) (categoryName : string) : string :=
  match find (fun c => String.eqb (Types.name c) categoryName) categories with
  | Some c => if JS.truthy (Types.icon c) then Types.icon c else defaultIcon
  | None => defaultIcon
  end.

Section Chart.

Variable convert : Converter.
Variable categories : list Category.

Definition spending (expenses : list Expense) (trip : Trip) : list (string * Q) :=
  fold_left
    (fun m exp =>
       let amountInMain :=
         convert (Types.amount exp) (currency exp) (mainCurrency trip) in
       JS.set String.eqb m (category exp)
         (JS.orZero (JS.get String.eqb m (category exp)) + amountInMain))
    expenses [].

Definition totalSpent (expenses : list Expense) (trip : Trip) : Q :=
  JS.sum (map snd (spending expenses trip)).

Definition dataByCategory (expenses : list Expense) (trip : Trip) : list Slice :=
  let totalSpent := totalSpent expenses trip in
  JS.sort (fun a b => amount b - amount a)
    (map (fun '(categoryName, amount) =>
            mkSlice categoryName amount
              (if JS.Qlt_bool 0 totalSpent then (amount / totalSpent) * 100 else 0)
              (iconOf categories categoryName))
         (spending expenses trip)).

End Chart.

End CategoryChart.

(* ================================================================== *)
(** * StatsSummary: the statistical highlights *)

Module StatsSummary.

Local Open Scope Q_scope.

(** [{ ...e, mainAmount }]. *)
Record ExpenseInMain : Type := mkExpenseInMain {
  expense : Expense;
  mainAmount : Q
}.

Record Day : Type := mkDay {
  dayDate : Z;
  dayAmount : Q
}.

Record Frequent : Type := mkFrequent {
  name : string;
  count : Q;
  icon : option string
}.

(** The object [summary].  A field that can hold [null] is an [option];
    [avgTransaction] is a number or [null] for the sake of stating what the
    views see, the code only ever stores a number in it. *)
Record Summary : Type := mkSummary {
  largestExpense : option ExpenseInMain;
  highestSpendingDay : option Day;
  mostFrequentCategory : option Frequent;
  avgTransaction : option Q
}.

Section Stats.

Variable convert : Converter.
Variable categories : list Category.

Definition expensesInMainCurrency (expenses : list Expense) (trip : Trip)
  : list ExpenseInMain :=
  map (fun e => mkExpenseInMain e
                  (convert (amount e) (currency e) (mainCurrency trip)))
      expenses.

Definition spendingByDay (expenses : list Expense) (trip : Trip) : list (Z * Q) :=
  fold_left
    (fun m e =>
       let date := JSDate.isoDate (date (expense e)) in
       JS.set Z.eqb m date (JS.orZero (JS.get Z.eqb m date) + mainAmount e))
    (expensesInMainCurrency expenses trip) [].

Definition categoryCounts (expenses : list Expense) : list (string * Q) :=
  fold_left
    (fun m e =>
       JS.set String.eqb m (category e)
         (JS.orZero (JS.get String.eqb m (category e)) + 1))
    expenses [].

(** The non-empty branch reads element [0] of three sorted arrays; each is
    non-empty there ([summary_nonempty] below), so the [None] cases of
    [hd_error] are not reached. *)
Definition summary (expenses : list Expense) (trip : Trip) : Summary :=
  if (List.length expenses =? 0)%nat then
    mkSummary None None None (Some 0)
  else
    let inMain := expensesInMainCurrency expenses trip in
    let largestExpense :=
      hd_error (JS.sort (fun a b => mainAmount b - mainAmount a) inMain) in
    let highestSpendingDayEntry :=
      hd_error (JS.sort (fun a b => snd b - snd a) (spendingByDay expenses trip)) in
    let mostFrequentCategoryEntry :=
      hd_error (JS.sort (fun a b => snd b - snd a) (categoryCounts expenses)) in
    let totalSpent := fold_left (fun sum e => sum + mainAmount e) inMain 0 in
    let avgTransaction := totalSpent / inject_Z (Z.of_nat (List.length expenses)) in
    mkSummary
      largestExpense
      (option_map (fun e => mkDay (fst e) (snd e)) highestSpendingDayEntry)
      (option_map
         (fun e =>
            mkFrequent (fst e) (snd e)
              (option_map Types.icon
                 (find (fun c => String.eqb (Types.name c) (fst e)) categories)))
         mostFrequentCategoryEntry)
      (Some avgTransaction).



End Stats.

End StatsSummary.

(* ================================================================== *)
(** * ExpenseCalendarHeatmap: colour bands of the calendar *)

Module ExpenseCalendarHeatmap.

(** The five class names [getColor] returns. *)
Inductive Color : Type :=
  | bg_surface_variant_50
  | bg_primary_container_40
  | bg_primary_container_70
  | bg_primary_container
  | bg_primary.

Section Heatmap.

Variable convert : Converter.

(** The [forEach] that fills [data] and tracks [max]. *)
Definition dailyStep (trip : Trip) (st : list (Z * Q) * Q) (expense : Expense)
  : list (Z * Q) * Q :=
  let '(data, max) := st in
  let date := JSDate.isoDate (date expense) in
  let amount := convert (amount expense) (currency expense) (mainCurrency trip) in
  let currentTotal := JS.orZero (JS.get Z.eqb data date) in
  let newTotal := (currentTotal + amount)%Q in
  let data := JS.set Z.eqb data date newTotal in
  (data, if JS.Qlt_bool max newTotal then newTotal else max).

Definition dailyData_maxSpend (expenses : list Expense) (trip : Trip)
  : list (Z * Q) * Q :=
  fold_left (dailyStep trip) expenses ([], 0%Q).

Definition dailyData (expenses : list Expense) (trip : Trip) : list (Z * Q) :=
  fst (dailyData_maxSpend expenses trip).

Definition maxSpend (expenses : list Expense) (trip : Trip) : Q :=
  snd (dailyData_maxSpend expenses trip).

(** [dailyData.get(dateStr) || 0], the amount of a day cell. *)
Definition amountOn (expenses : list Expense) (trip : Trip) (dateStr : Z) : Q :=
  JS.orZero (JS.get Z.eqb (dailyData expenses trip) dateStr).

End Heatmap.

Local Open Scope R_scope.

(** [Math.sqrt(amount / maxSpend)] for a positive [maxSpend]. *)
Definition intensity (maxSpend amount : Q) : R :=
  sqrt (Q2R amount / Q2R maxSpend).

(** [getColor], with [maxSpend] of the enclosing component as a parameter.
    For a positive [amount] and a [maxSpend] that is not positive the
    quotient is [Infinity] or negative, its square root [Infinity] or [NaN],
    and no [<] test holds: the last [return] is taken. *)
Definition getColor (maxSpend amount : Q) : Color :=
  if Qle_bool amount 0 then bg_surface_variant_50
  else if Qle_bool maxSpend 0 then bg_primary
  else
    let intensity := intensity maxSpend amount in
    if Rlt_dec intensity (25 / 100) then bg_primary_container_40
    else if Rlt_dec intensity (5 / 10) then bg_primary_container_70
    else if Rlt_dec intensity (75 / 100) then bg_primary_container
    else bg_primary.

End ExpenseCalendarHeatmap.

(* ================================================================== *)
(** * CountrySpendChart: spending per country *)

Module CountrySpendChart.

Local Open Scope Q_scope.

Record Bar : Type := mkBar {
  country : string;
  amount : Q
}.

Section Chart.

Variable convert : Converter.

(** Modelled from the spec: the table [CURRENCY_TO_COUNTRY] of
    [constants.ts], which is not among the sources; a lookup that may give
    [undefined]. *)
Variable CURRENCY_TO_COUNTRY : string -> option string.

(** [e.country || CURRENCY_TO_COUNTRY[e.currency]]: an absent or empty
    [country] falls through to the table. *)
Definition countryOf (e : Expense) : option string :=
  match Types.country e with
  | Some c => if JS.truthy c then Some c else CURRENCY_TO_COUNTRY (currency e)
  | None => CURRENCY_TO_COUNTRY (currency e)
  end.

(** [trip.countries.forEach(country => { spendingByCountry[country] = 0 })]. *)
Definition initial (trip : Trip) : list (string * Q) :=
  fold_left (fun m country => JS.set String.eqb m country 0) (countries trip) [].

Definition spendStep (trip : Trip) (m : list (string * Q)) (e : Expense)
  : list (string * Q) :=
  match countryOf e with
  | Some country =>
      if JS.truthy country && JS.hasOwnProperty String.eqb m country then
        let mainAmount :=
          convert (Types.amount e) (currency e) (mainCurrency trip) in
        JS.set String.eqb m country
          (JS.orZero (JS.get String.eqb m country) + mainAmount)
      else m
  | None => m
  end.

Definition spendingByCountry (expenses : list Expense) (trip : Trip)
  : list (string * Q) :=
  fold_left (spendStep trip) expenses (initial trip).

Definition chartData (expenses : list Expense) (trip : Trip) : list Bar :=
  if (List.length (countries trip) <=? 1)%nat then []
  else
    JS.sort (fun a b => amount b - amount a)
      (filter (fun item => JS.Qlt_bool 0 (amount item))
         (map (fun '(country, amount) => mkBar country amount)
            (spendingByCountry expenses trip))).

End Chart.

End CountrySpendChart.

(* ================================================================== *)
(** * The payloads handed to the narrative service *)

Module Payload.

Local Open Scope Q_scope.

(** [Math.round(x)]: the nearest integer, a tie going up. *)
Definition Math_round (x : Q) : Z := Qfloor (x + (1 # 2)).

(** [parseFloat(x.toFixed(2))]: [x] to two decimals, a tie going away from
    zero ([toFixed] rounds the magnitude and puts the sign back). *)
Definition toFixed2 (x : Q) : Q :=
  let r := fun y : Q => inject_Z (Qfloor (y * 100 + (1 # 2))) / 100 in
  if JS.Qlt_bool x 0 then - r (- x) else r x.

End Payload.

Module AIInsights.

Local Open Scope Q_scope.

Record DataSummary : Type := mkDataSummary {
  totalSpent : Q;
  numberOfExpenses : Z;
  durationDays : Z;
  spendingByCategory : list (string * Q)
}.

Section Insights.

Variable convert : Converter.

(** [dataSummary]; [None] is the [null] of the early return.  Past the
    early return the list has an element [0], so the empty case of the
    [match] is not reached. *)
Definition dataSummary (expenses : list Expense) (trip : Trip) : option DataSummary :=
  if (List.length expenses <? 3)%nat then None
  else
    match expenses with
    | [] => None
    | first :: _ =>
        let totalSpent :=
          fold_left
            (fun sum exp =>
               sum + convert (amount exp) (currency exp) (mainCurrency trip))
            expenses 0 in
        let spendingByCategory :=
          fold_left
            (fun acc exp =>
               let amount :=
                 convert (amount exp) (currency exp) (mainCurrency trip) in
               JS.set String.eqb acc (category exp)
                 (JS.orZero (JS.get String.eqb acc (category exp)) + amount))
            expenses [] in
        let firstDate := date (last expenses first) in
        let lastDate := date first in
        let durationDays :=
          (Payload.Math_round
             (inject_Z (lastDate - firstDate) / inject_Z (1000 * 3600 * 24)) + 1)%Z in
        Some
          (mkDataSummary
             (Payload.toFixed2 totalSpent)
             (Z.of_nat (List.length expenses))
             durationDays
             (map (fun '(key, value) => (key, Payload.toFixed2 value))
                spendingByCategory))
    end.

End Insights.

End AIInsights.

Module AIForecast.

Local Open Scope Q_scope.

Record Recent : Type := mkRecent {
  description : string;
  category : string;
  amount : Q
}.

Record AnalysisData : Type := mkAnalysisData {
  totalBudget : Q;
  mainCurrency : string;
  totalDays : Q;
  daysElapsed : Z;
  daysRemaining : Q;
  totalSpent : Q;
  currentDailyAvg : Q;
  recentExpenses : list Recent
}.

Section Forecast.

Variable convert : Converter.
(** [new Date()] at the time of the call. *)
Variable today : Z.

(** [analysisData]; [None] is the [null] of the two early returns. *)
Definition analysisData (expenses : list Expense) (trip : Trip) : option AnalysisData :=
  if (List.length expenses <? 3)%nat then None
  else
    let totalSpent :=
      fold_left
        (fun sum exp =>
           sum + convert (Types.amount exp) (currency exp) (Types.mainCurrency trip))
        expenses 0 in
    let tripStart := JSDate.ofDateString (startDate trip) in
    let tripEnd := JSDate.ofDateString (endDate trip) in
    if (tripEnd <? today)%Z then None
    else
      let totalDays :=
        Qmax 1 (inject_Z (tripEnd - tripStart) / inject_Z (1000 * 3600 * 24) + 1) in
      let daysElapsed :=
        inject_Z (today - tripStart) / inject_Z (1000 * 3600 * 24) + 1 in
      let daysElapsed := Z.max 1 (Qceiling daysElapsed) in
      let daysRemaining := Qmax 0 (totalDays - inject_Z daysElapsed) in
      let currentDailyAvg := totalSpent / inject_Z daysElapsed in
      let recentExpenses :=
        map (fun e =>
               mkRecent (Types.description e) (Types.category e)
                 (Payload.toFixed2
                    (convert (Types.amount e) (currency e) (Types.mainCurrency trip))))
            (firstn 15 expenses) in
      Some
        (mkAnalysisData
           (Types.totalBudget trip)
           (Types.mainCurrency trip)
           totalDays
           daysElapsed
           daysRemaining
           (Payload.toFixed2 totalSpent)
           (Payload.toFixed2 currentDailyAvg)
           recentExpenses).

End Forecast.

End AIForecast.

(* ================================================================== *)
(** * ExpenseTreemap: the category tiles *)

Module ExpenseTreemap.

Local Open Scope Q_scope.

Record Node : Type := mkNode {
  name : string;
  size : Q
}.

Section Treemap.

Variable convert : Converter.

(** The [forEach] that fills [spending] and adds up [total]. *)
Definition step (trip : Trip) (st : list (string * Q) * Q) (exp : Expense)
  : list (string * Q) * Q :=
  let '(spending, total) := st in
  let amountInMain := convert (amount exp) (currency exp) (mainCurrency trip) in
  (JS.set String.eqb spending (category exp)
     (JS.orZero (JS.get String.eqb spending (category exp)) + amountInMain),
   total + amountInMain).

Definition spending_total (expenses : list Expense) (trip : Trip)
  : list (string * Q) * Q :=
  fold_left (step trip) expenses ([], 0).

Definition treemapData (expenses : list Expense) (trip : Trip) : list Node :=
  JS.sort (fun a b => size b - size a)
    (map (fun '(categoryName, amount) => mkNode categoryName amount)
       (fst (spending_total expenses trip))).

Definition totalAmount (expenses : list Expense) (trip : Trip) : Q :=
  snd (spending_total expenses trip).

End Treemap.

End ExpenseTreemap.

(* ================================================================== *)
(** * BudgetTrendChart: cumulative spending against the ideal line *)

Module BudgetTrendChart.

Import JSDate.

Local Open Scope Q_scope.

(** One element of [dataPoints], without the display label. *)
Record DataPoint : Type := mkDataPoint {
  fullDate : Z;
  SpesaReale : Q;
  SpesaIdeale : Q
}.

Section Chart.

Variable convert : Converter.
Variable tz : Z.
Variable now : Z.

Definition totalTripDuration (trip : Trip) : Q :=
  let tripStart := ofDateString (startDate trip) in
  let tripEnd := ofDateString (endDate trip) in
  Qmax 1 (inject_Z (tripEnd - tripStart) / inject_Z (1000 * 3600 * 24) + 1).

Definition idealDailyBurn (trip : Trip) : Q :=
  if JS.Qlt_bool 0 (totalBudget trip)
  then totalBudget trip / totalTripDuration trip
  else 0.

Definition dailySpending (expenses : list Expense) (trip : Trip) : list (Z * Q) :=
  fold_left
    (fun m expense =>
       let date := isoDate (date expense) in
       let amountInMain :=
         convert (amount expense) (currency expense) (mainCurrency trip) in
       JS.set Z.eqb m date (JS.orZero (JS.get Z.eqb m date) + amountInMain))
    expenses [].

(** The [while (currentDate <= lastDate)] loop, on fuel. *)
Fixpoint loop (fuel : nat) (burn : Q) (spending : list (Z * Q)) (lastDate : Z)
  (currentDate : Z) (daysElapsed : Z) (cumulativeSpent : Q) : list DataPoint :=
  match fuel with
  | O => []
  | S fuel' =>
      if (currentDate <=? lastDate)%Z then
        let daysElapsed := (daysElapsed + 1)%Z in
        let dateStr := isoDate currentDate in
        let spentToday := JS.orZero (JS.get Z.eqb spending dateStr) in
        let cumulativeSpent := cumulativeSpent + spentToday in
        mkDataPoint currentDate cumulativeSpent (burn * inject_Z daysElapsed)
        :: loop fuel' burn spending lastDate
             (setDate tz currentDate (getDate tz currentDate + 1))
             daysElapsed cumulativeSpent
      else []
  end.

Definition chartData (expenses : list Expense) (trip : Trip) : list DataPoint :=
  let tripStart := ofDateString (startDate trip) in
  let tripEnd := ofDateString (endDate trip) in
  let today := setHours tz now 23 59 59 999 in
  let lastDate := if (today <? tripEnd)%Z then today else tripEnd in
  if (lastDate <? tripStart)%Z then []
  else
    loop (AdvancedBudgetChart.fuelFor lastDate tripStart) (idealDailyBurn trip)
      (dailySpending expenses trip) lastDate tripStart 0 0.

End Chart.

End BudgetTrendChart.

(* ================================================================== *)
(** * DailySpendChart: one bar per day with spending *)

Module DailySpendChart.

Local Open Scope Q_scope.

(** One bar, without the display label [shortDate].  [date] is the
    [YYYY-MM-DD] key, as its day number. *)
Record Bar : Type := mkBar {
  date : Z;
  amount : Q
}.

Section Chart.

Variable convert : Converter.

Definition spendingByDay (expenses : list Expense) (trip : Trip) : list (Z * Q) :=
  fold_left
    (fun m e =>
       let date := JSDate.isoDate (Types.date e) in
       let mainAmount := convert (Types.amount e) (currency e) (mainCurrency trip) in
       JS.set Z.eqb m date (JS.orZero (JS.get Z.eqb m date) + mainAmount))
    expenses [].

Definition chartData (expenses : list Expense) (trip : Trip) : list Bar :=
  if (List.length expenses =? 0)%nat then []
  else
    JS.sort
      (fun a b =>
         inject_Z (JSDate.ofDateString (date a) - JSDate.ofDateString (date b)))
      (map (fun '(date, amount) => mkBar date amount)
         (spendingByDay expenses trip)).

End Chart.

End DailySpendChart.

(* ================================================================== *)
(** * Dashboard: the summary cards and the budget bar *)

Module DashboardStats.

Import JSDate.

Local Open Scope Q_scope.

Record Stats : Type := mkStats {
  totalSpent : Q;
  budget : Q;
  remaining : Q;
  dailyAvg : Q
}.

(** The class of the progress bar. *)
Inductive BarColor : Type := bg_primary | bg_tertiary | bg_error.

Section Stats.

Variable convert : Converter.
(** [new Date().getTime()] at the time of the call. *)
Variable now : Z.

(** [daysElapsed] after its two overrides, the ceiling and the floor of 1. *)
Definition daysElapsed (trip : Trip) : Z :=
  let tripStart := ofDateString (startDate trip) in
  let tripEnd := ofDateString (endDate trip) in
  let daysElapsed := inject_Z (now - tripStart) / inject_Z (1000 * 3600 * 24) in
  let daysElapsed := if (now <? tripStart)%Z then 0 else daysElapsed in
  let daysElapsed :=
    if (tripEnd <? now)%Z
    then inject_Z (tripEnd - tripStart) / inject_Z (1000 * 3600 * 24)
    else daysElapsed in
  Z.max 1 (Qceiling daysElapsed).

(** [stats]; [None] is the trip that was not found, otherwise the trip with
    its expenses. *)
Definition stats (activeTrip : option (Trip * list Expense)) : Stats :=
  match activeTrip with
  | None => mkStats 0 0 0 0
  | Some (trip, expenses) =>
      let totalSpent :=
        fold_left
          (fun sum exp =>
             sum + convert (amount exp) (currency exp) (mainCurrency trip))
          expenses 0 in
      let budget := totalBudget trip in
      let remaining := budget - totalSpent in
      let dailyAvg := totalSpent / inject_Z (daysElapsed trip) in
      mkStats totalSpent budget remaining dailyAvg
  end.

End Stats.

Definition remainingBudgetPercentage (trip : Trip) (stats : Stats) : Q :=
  if JS.Qlt_bool 0 (totalBudget trip)
  then remaining stats / totalBudget trip * 100
  else 0.

(** The two [if]s that overwrite [progressBarColor], in their order. *)
Definition progressBarColor (remainingBudgetPercentage : Q) : BarColor :=
  let progressBarColor := bg_primary in
  let progressBarColor :=
    if JS.Qlt_bool remainingBudgetPercentage 25 then bg_tertiary
    else progressBarColor in
  if Qle_bool remainingBudgetPercentage 0 then bg_error else progressBarColor.

(** [Math.max(0, Math.min(remainingBudgetPercentage, 100))], the width in
    percent. *)
Definition progressBarWidth (remainingBudgetPercentage : Q) : Q :=
  Qmax 0 (Qmin remainingBudgetPercentage 100).

End DashboardStats.

(* ================================================================== *)
(** * Dashboard: category buttons and the day detail *)

Module DashboardSelection.

Import JSDate.

(** The updater [handleCategoryToggle] passes to [setSelectedCategories]. *)
Definition handleCategoryToggle (prev : list string) (category : string)
  : list string :=
  if Dashboard.includes prev category
  then filter (fun c => negb (String.eqb c category)) prev
  else prev ++ [category].





End DashboardSelection.

(* ================================================================== *)
(** * CategoryChart: the drill-down list *)

Module CategoryDetail.

(** [detailedExpenses]: nothing without a selection (and an empty name is
    no selection), otherwise the expenses of the category, newest first. *)
Definition detailedExpenses (selectedCategory : option string)
  (expenses : list Expense) : list Expense :=
  match selectedCategory with
  | None => []
  | Some c =>
      if JS.truthy c then
        JS.sort (fun a b => inject_Z (date b - date a))
          (filter (fun e => String.eqb (category e) c) expenses)
      else []
  end.

End CategoryDetail.

(* ================================================================== *)
(** * ExpenseCalendarHeatmap: the grid of day cells *)

Module CalendarGrid.

Import JSDate.

Inductive Cell : Type :=
  | empty
  | day (date : Z) (amount : Q).

Section Grid.

Variable tz : Z.

(** The [while (currentDate <= end)] loop, on fuel. *)
Fixpoint loop (fuel : nat) (dailyData : list (Z * Q)) (endDate : Z)
  (currentDate : Z) : list Cell :=
  match fuel with
  | O => []
  | S fuel' =>
      if (currentDate <=? endDate)%Z then
        let dateStr := isoDate currentDate in
        let amount := JS.orZero (JS.get Z.eqb dailyData dateStr) in
        day currentDate amount
        :: loop fuel' dailyData endDate
             (setDate tz currentDate (getDate tz currentDate + 1))
      else []
  end.

(** The offset of the first week: Monday is column 0. *)
Definition firstDayOfWeek (trip : Trip) : Z :=
  (getDay tz (ofDateString (startDate trip)) + 6) mod 7.

Definition calendarGrid (dailyData : list (Z * Q)) (trip : Trip) : list Cell :=
  let start := ofDateString (startDate trip) in
  let endDate := ofDateString (endDate trip) in
  let currentDate := setHours tz start 0 0 0 0 in
  repeat empty (Z.to_nat (firstDayOfWeek trip))
  ++ loop (AdvancedBudgetChart.fuelFor endDate currentDate) dailyData endDate
       currentDate.

End Grid.

End CalendarGrid.

(* ================================================================== *)
(** * ThemeContext: the stored theme *)

Module ThemeContext.

Local Open Scope string_scope.

Inductive Theme : Type := light | dark.

(** The string a theme is stored and used as a class name under. *)
Definition themeName (t : Theme) : string :=
  match t with
  | light => "light"
  | dark => "dark"
  end.

(** [getInitialTheme]: [hasWindow] is [typeof window !== 'undefined'],
    [storedTheme] the value of [localStorage.getItem('vsc_theme')] and
    [prefersDark] the result of the media query. *)
Definition getInitialTheme (hasWindow : bool) (storedTheme : option string)
  (prefersDark : bool) : Theme :=
  if hasWindow then
    match storedTheme with
    | Some s =>
        if String.eqb s "light" then light
        else if String.eqb s "dark" then dark
        else if prefersDark then dark else light
    | None => if prefersDark then dark else light
    end
  else light.

Definition toggleTheme (prevTheme : Theme) : Theme :=
  match prevTheme with
  | light => dark
  | dark => light
  end.

(** What the effect writes to: the class list of the root element (an
    ordered set of tokens) and the stored value. *)
Record Env : Type := mkEnv {
  classList : list string;
  vsc_theme : option string
}.

(** [classList.remove(token)] and [classList.add(token)]. *)
Definition classList_remove (l : list string) (token : string) : list string :=
  filter (fun c => negb (String.eqb c token)) l.

Definition classList_add (l : list string) (token : string) : list string :=
  if existsb (String.eqb token) l then l else l ++ [token].

(** The effect that runs when [theme] changes. *)
Definition applyTheme (theme : Theme) (env : Env) : Env :=
  let other := match theme with dark => "light" | light => "dark" end in
  mkEnv
    (classList_add (classList_remove (classList env) other) (themeName theme))
    (Some (themeName theme)).

End ThemeContext.

(* ================================================================== *)
(** * The reply of the narrative service *)

(** A JavaScript string is its sequence of UTF-16 code units. *)
Module JSString.

Local Open Scope N_scope.

Definition jsstring : Type := list N.

(** [WhiteSpace] and [LineTerminator] of ECMAScript, the code units
    [trim] removes. *)
Definition isWhiteSpace (c : N) : bool :=
  existsb (N.eqb c)
    [9; 10; 11; 12; 13; 32; 160; 5760;
     8192; 8193; 8194; 8195; 8196; 8197; 8198; 8199; 8200; 8201; 8202;
     8232; 8233; 8239; 8287; 12288; 65279].

Fixpoint trimStart (s : jsstring) : jsstring :=
  match s with
  | [] => []
  | c :: s' => if isWhiteSpace c then trimStart s' else s
  end.

Definition trimEnd (s : jsstring) : jsstring := rev (trimStart (rev s)).

(** [s.trim()]. *)
Definition trim (s : jsstring) : jsstring := trimEnd (trimStart s).

(** [s.startsWith(p)]. *)
Fixpoint startsWith (s p : jsstring) : bool :=
  match p, s with
  | [], _ => true
  | _ :: _, [] => false
  | a :: p', b :: s' => N.eqb a b && startsWith s' p'
  end.

(** [s.substring(start, end)]: both bounds are clamped to [0, length] and
    swapped when out of order. *)
Definition substring (s : jsstring) (start finish : Z) : jsstring :=
  let len := Z.of_nat (List.length s) in
  let clamp := fun i : Z => Z.min (Z.max i 0) len in
  let from := Z.min (clamp start) (clamp finish) in
  let to := Z.max (clamp start) (clamp finish) in
  firstn (Z.to_nat (to - from)) (skipn (Z.to_nat from) s).

End JSString.

Module AIResponse.

Import JSString.

Local Open Scope N_scope.

(** The code units of the opening fence (three backquotes, then [json]) and
    of the closing one. *)
Definition fenceOpen : jsstring := [96; 96; 96; 106; 115; 111; 110].
Definition fenceClose : jsstring := [96; 96; 96].

(** The text handed to [JSON.parse], in [generateInsights] and in
    [generateForecast] alike. *)
Definition jsonString (text : jsstring) : jsstring :=
  let jsonString := trim text in
  if startsWith jsonString fenceOpen
  then trim (substring jsonString 7 (Z.of_nat (List.length jsonString) - 3))
  else jsonString.

End AIResponse.

(* ================================================================== *)
(** * Properties *)

(** ** Dates *)

Section DateFacts.

Import JSDate.

Local Open Scope Z_scope.

Variable tz : Z.

Lemma msPerDay_value : msPerDay = 86400000.
Proof. reflexivity. Qed.

Lemma msPerDay_pos : 0 < msPerDay.
Proof. reflexivity. Qed.

(** The time value splits into its day and the time within it. *)
Lemma day_split (t : Z) : t = Day t * msPerDay + TimeWithinDay t.
Proof.
  unfold Day, TimeWithinDay.
  rewrite Z.mul_comm. apply Z.div_mod. discriminate.
Qed.

Lemma timeWithinDay_range (t : Z) : 0 <= TimeWithinDay t < msPerDay.
Proof. unfold TimeWithinDay. apply Z.mod_pos_bound. reflexivity. Qed.

(** [d.setDate(d.getDate() + n)] moves [n] days on, whatever the month. *)
Lemma setDate_shift (t n : Z) :
  setDate tz t (getDate tz t + n) = t + n * msPerDay.
Proof.
  unfold setDate, UTC.
  pose proof (day_split (LocalTime tz t)) as E.
  unfold LocalTime in *. lia.
Qed.

Lemma setDate_next (t : Z) : setDate tz t (getDate tz t + 1) = t + msPerDay.
Proof. rewrite setDate_shift. lia. Qed.

(** [setHours(23, 59, 59, 999)] is the last millisecond of the local day. *)
Lemma setHours_endOfDay (t : Z) :
  setHours tz t 23 59 59 999 = (Day (t + tz) + 1) * msPerDay - 1 - tz.
Proof. unfold setHours, UTC, LocalTime. rewrite msPerDay_value. lia. Qed.

(** [setHours(0, 0, 0, 0)] is the first millisecond of the local day. *)
Lemma setHours_startOfDay (t : Z) :
  setHours tz t 0 0 0 0 = Day (t + tz) * msPerDay - tz.
Proof. unfold setHours, UTC, LocalTime. lia. Qed.

Lemma endOfDay_bounds (t : Z) :
  t <= setHours tz t 23 59 59 999 < t + msPerDay.
Proof.
  rewrite setHours_endOfDay.
  pose proof (day_split (t + tz)). pose proof (timeWithinDay_range (t + tz)).
  lia.
Qed.

Lemma Day_shift (t n : Z) : Day (t + n * msPerDay) = Day t + n.
Proof. unfold Day. apply Z.div_add. discriminate. Qed.


End DateFacts.

(** ** The day buckets of the burn chart *)

Section BudgetChartFacts.

Import JSDate AdvancedBudgetChart.

Local Open Scope Z_scope.

Variable convert : Converter.
Variable tz : Z.

(** The point the loop body pushes at [currentDate]. *)
Definition pointAt (burn : Q) (spending : list (Z * Q)) (currentDate daysElapsed : Z)
  (cumulativeSpent : Q) : DataPoint :=
  let spentToday := JS.orZero (JS.get Z.eqb spending (isoDate currentDate)) in
  mkDataPoint currentDate
    (if JS.Qlt_bool 0 spentToday then Some spentToday else None)
    (cumulativeSpent + spentToday)%Q
    (burn * inject_Z (daysElapsed + 1))%Q.

(** Fuel is enough when it exceeds the number of whole days still to go. *)
Definition enough (fuel : nat) (lastDate currentDate : Z) : Prop :=
  currentDate <= lastDate -> (lastDate - currentDate) / msPerDay < Z.of_nat fuel.

Lemma loop_stop fuel burn sp last cur de cum :
  last < cur -> loop tz fuel burn sp last cur de cum = [].
Proof.
  intros H. destruct fuel as [|fuel]; simpl; [reflexivity|].
  destruct (Z.leb_spec cur last); [lia | reflexivity].
Qed.

Lemma loop_step fuel burn sp last cur de cum :
  cur <= last ->
  loop tz (S fuel) burn sp last cur de cum
  = pointAt burn sp cur de cum
    :: loop tz fuel burn sp last (cur + msPerDay) (de + 1)
         (cum + JS.orZero (JS.get Z.eqb sp (isoDate cur)))%Q.
Proof.
  intros H. simpl.
  destruct (Z.leb_spec cur last); [| lia].
  rewrite setDate_next. reflexivity.
Qed.

Lemma days_left_next (last cur : Z) :
  (last - (cur + msPerDay)) / msPerDay = (last - cur) / msPerDay - 1.
Proof.
  replace (last - (cur + msPerDay)) with ((last - cur) + (-1) * msPerDay) by lia.
  rewrite Z.div_add by discriminate. lia.
Qed.

Lemma enough_next fuel last cur :
  cur <= last -> enough (S fuel) last cur -> enough fuel last (cur + msPerDay).
Proof.
  unfold enough. intros Hc He Hn. rewrite days_left_next.
  specialize (He Hc). lia.
Qed.

Lemma enough_fuelFor (last cur : Z) : enough (fuelFor last cur) last cur.
Proof.
  unfold enough, fuelFor. intros H.
  assert (0 <= (last - cur) / msPerDay) by (apply Z.div_pos; [lia | reflexivity]).
  lia.
Qed.

(** With enough fuel the result does not depend on the fuel. *)
Lemma loop_fuel_irrelevant :
  forall f1 f2 burn sp last cur de cum,
    enough f1 last cur -> enough f2 last cur ->
    loop tz f1 burn sp last cur de cum = loop tz f2 burn sp last cur de cum.
Proof.
  induction f1 as [|f1 IH]; intros f2 burn sp last cur de cum H1 H2.
  - destruct (Z.le_gt_cases cur last) as [Hc|Hc].
    + specialize (H1 Hc).
      assert (0 <= (last - cur) / msPerDay) by (apply Z.div_pos; [lia | reflexivity]).
      simpl in H1. lia.
    + now rewrite !loop_stop.
  - destruct (Z.le_gt_cases cur last) as [Hc|Hc].
    + destruct f2 as [|f2].
      * specialize (H2 Hc).
        assert (0 <= (last - cur) / msPerDay) by (apply Z.div_pos; [lia | reflexivity]).
        simpl in H2. lia.
      * rewrite !loop_step by assumption. f_equal.
        apply IH; now apply enough_next.
    + now rewrite !loop_stop.
Qed.

(** The embedded loop is the [while] loop of the source: it tests
    [currentDate <= lastDate], pushes a point and goes on from the next day. *)
Lemma loop_unfold burn sp last cur de cum :
  loop tz (fuelFor last cur) burn sp last cur de cum
  = if cur <=? last
    then pointAt burn sp cur de cum
         :: loop tz (fuelFor last (cur + msPerDay)) burn sp last (cur + msPerDay)
              (de + 1) (cum + JS.orZero (JS.get Z.eqb sp (isoDate cur)))%Q
    else [].
Proof.
  destruct (Z.leb_spec cur last) as [Hc|Hc].
  - unfold fuelFor at 1. rewrite loop_step by assumption. f_equal.
    apply loop_fuel_irrelevant.
    + apply enough_next; [assumption | apply enough_fuelFor].
    + apply enough_fuelFor.
  - now apply loop_stop.
Qed.

Lemma loop_length :
  forall fuel burn sp last cur de cum,
    enough fuel last cur ->
    Z.of_nat (List.length (loop tz fuel burn sp last cur de cum))
    = if cur <=? last then (last - cur) / msPerDay + 1 else 0.
Proof.
  induction fuel as [|fuel IH]; intros burn sp last cur de cum He.
  - destruct (Z.leb_spec cur last) as [Hc|Hc]; [| reflexivity].
    specialize (He Hc).
    assert (0 <= (last - cur) / msPerDay) by (apply Z.div_pos; [lia | reflexivity]).
    simpl in He. lia.
  - destruct (Z.leb_spec cur last) as [Hc|Hc].
    + rewrite loop_step by assumption.
      cbn [List.length]. rewrite Nat2Z.inj_succ, IH by now apply enough_next.
      destruct (Z.leb_spec (cur + msPerDay) last) as [Hn|Hn].
      * rewrite days_left_next. lia.
      * rewrite (Z.div_small (last - cur)) by lia. reflexivity.
    + now rewrite loop_stop.
Qed.

(** The [k]-th point (from 0) carries the ordinal [daysElapsed + k + 1]. *)
Lemma loop_nth_budget :
  forall fuel burn sp last cur de cum k p,
    nth_error (loop tz fuel burn sp last cur de cum) k = Some p ->
    BudgetCumulativoIdeale p = (burn * inject_Z (de + Z.of_nat k + 1))%Q
    /\ fullDate p = cur + Z.of_nat k * msPerDay.
Proof.
  induction fuel as [|fuel IH]; intros burn sp last cur de cum k p H.
  - destruct k; discriminate.
  - destruct (Z.le_gt_cases cur last) as [Hc|Hc].
    + rewrite loop_step in H by assumption.
      destruct k as [|k].
      * injection H as <-. simpl. split; [do 2 f_equal; lia | lia].
      * cbn [nth_error] in H. apply IH in H. destruct H as [H1 H2].
        rewrite H1, H2. split; [do 2 f_equal; lia | lia].
    + rewrite loop_stop in H by assumption. destruct k; discriminate.
Qed.

End BudgetChartFacts.

(** ** Example data: the scenario of the specification *)

Module Example.

Local Open Scope string_scope.

(** A converter with a fixed rate for every foreign currency: 50 USD are
    46 EUR. *)
Definition convert : Converter :=
  fun a from to => if String.eqb from to then a else (a * (92 # 100))%Q.

Definition expenseAt (a : Q) (cur cat : string) (t : Z) : Expense :=
  mkExpense "" a cur cat "" t None.

(** 2024-01-01 is day 19723; the trip runs to 2024-01-10. *)
Definition jan1 : Z := 19723.

Definition trip : Trip := mkTrip jan1 (jan1 + 9) "EUR" 1000 ["Italy"; "USA"].

(** Noon UTC of a day. *)
Definition noon (day : Z) : Z := (day * JSDate.msPerDay + 12 * 3600000)%Z.

(** Newest first, as the dashboard hands the list on. *)
Definition expenses : list Expense :=
  [ expenseAt 200 "EUR" "Food" (noon (jan1 + 4));
    expenseAt 100 "EUR" "Food" (noon jan1);
    expenseAt 50 "USD" "Taxi" (noon jan1) ].

(** Central European Time, one hour ahead of UTC; US Eastern, five behind. *)
Definition CET : Z := 3600000.

Definition CURRENCY_TO_COUNTRY (c : string) : option string :=
  if String.eqb c "EUR" then Some "Italy"
  else if String.eqb c "USD" then Some "USA"
  else None.

End Example.

(** ** C1: how many buckets *)

Section BucketCount.

Import JSDate AdvancedBudgetChart.

Local Open Scope Z_scope.

(** Whole days from instant [a] to instant [b]. *)
Definition wholeDaysBetween (a b : Z) : Z := (b - a) / msPerDay.

(** The loop runs from the trip start to [lastDate], the earlier of the end
    of today and the trip end: no bucket when [lastDate] is before the
    start, otherwise one per whole day in between, plus one. *)
Lemma chartData_buckets
  (convert : Converter) (tz now : Z) (expenses : list Expense) (trip : Trip) :
  let tripStart := ofDateString (startDate trip) in
  let tripEnd := ofDateString (endDate trip) in
  let lastDate := Z.min (setHours tz now 23 59 59 999) tripEnd in
  (chartData convert tz now expenses trip = [] <-> lastDate < tripStart)
  /\ (tripStart <= lastDate ->
      Z.of_nat (List.length (chartData convert tz now expenses trip))
      = wholeDaysBetween tripStart lastDate + 1).
Proof.
  intros tripStart tripEnd lastDate.
  unfold chartData. fold tripStart tripEnd.
  assert (Hlast : (if setHours tz now 23 59 59 999 <? tripEnd
                   then setHours tz now 23 59 59 999 else tripEnd) = lastDate).
  { unfold lastDate. destruct (Z.ltb_spec (setHours tz now 23 59 59 999) tripEnd); lia. }
  rewrite Hlast.
  assert (Hlen : tripStart <= lastDate ->
                 Z.of_nat (List.length
                   (loop tz (fuelFor lastDate tripStart) (idealDailyBurn trip)
                      (dailySpending convert expenses trip) lastDate tripStart 0 0))
                 = wholeDaysBetween tripStart lastDate + 1).
  { intros H. rewrite loop_length by apply enough_fuelFor.
    destruct (Z.leb_spec tripStart lastDate); [reflexivity | lia]. }
  assert (Hnonneg : tripStart <= lastDate -> 0 <= wholeDaysBetween tripStart lastDate).
  { intros H. apply Z.div_pos; [lia | reflexivity]. }
  destruct (Z.ltb_spec lastDate tripStart) as [Hlt|Hge].
  - split; [split; [intros _; exact Hlt | reflexivity] | lia].
  - split; [|exact Hlen].
    split; [|lia].
    intros Hnil. specialize (Hlen Hge). specialize (Hnonneg Hge).
    rewrite Hnil in Hlen. simpl in Hlen. lia.
Qed.


(** In a zone without offset the end of today can be replaced by [now]. *)
Lemma chartData_length_utc
  (convert : Converter) (now : Z) (expenses : list Expense) (trip : Trip) :
  startDate trip <= endDate trip ->
  let tripStart := ofDateString (startDate trip) in
  let tripEnd := ofDateString (endDate trip) in
  (chartData convert 0 now expenses trip = [] <-> now < tripStart)
  /\ (tripStart <= now ->
      Z.of_nat (List.length (chartData convert 0 now expenses trip))
      = wholeDaysBetween tripStart (Z.min now tripEnd) + 1).
Proof.
  intros Hle tripStart tripEnd.
  destruct (chartData_buckets convert 0 now expenses trip) as [Hnil Hlen].
  cbv zeta in Hnil, Hlen. fold tripStart tripEnd in Hnil, Hlen.
  rewrite setHours_endOfDay in Hnil, Hlen. rewrite Z.add_0_r, Z.sub_0_r in Hnil, Hlen.
  pose proof (day_split now) as Hsplit.
  pose proof (timeWithinDay_range now) as Hrange.
  assert (Hs : tripStart = startDate trip * msPerDay) by reflexivity.
  assert (He : tripEnd = endDate trip * msPerDay) by reflexivity.
  assert (Hdiv : forall d r, 0 <= r < msPerDay -> (d * msPerDay + r) / msPerDay = d).
  { intros d r Hr. rewrite Z.add_comm, Z.div_add by discriminate.
    rewrite Z.div_small by assumption. reflexivity. }
  split.
  - rewrite Hnil. rewrite msPerDay_value in *. lia.
  - intros Hstart. rewrite Hlen by (rewrite msPerDay_value in *; lia).
    unfold wholeDaysBetween.
    destruct (Z.le_gt_cases tripEnd now) as [Hen|Hen].
    + rewrite !Z.min_r by (rewrite msPerDay_value in *; lia). reflexivity.
    + rewrite !Z.min_l by (rewrite msPerDay_value in *; lia).
      f_equal.
      replace ((Day now + 1) * msPerDay - 1 - tripStart)
        with ((Day now - startDate trip) * msPerDay + (msPerDay - 1)) by lia.
      replace (now - tripStart)
        with ((Day now - startDate trip) * msPerDay + TimeWithinDay now) by lia.
      rewrite !Hdiv; [reflexivity | assumption | rewrite msPerDay_value; lia].
Qed.

End BucketCount.

Section BucketCountExamples.

Import JSDate AdvancedBudgetChart.

Local Open Scope Z_scope.



End BucketCountExamples.

(** ** C2: the ideal cumulative budget *)

Section IdealBudget.

Import JSDate AdvancedBudgetChart.

Local Open Scope Q_scope.

(** The duration computed from the two instants is the number of calendar
    days of the trip, both ends counted, and at least one. *)
Lemma totalTripDuration_days (trip : Trip) :
  totalTripDuration trip
  == inject_Z (Z.max 1 (wholeDaysBetween (ofDateString (startDate trip))
                          (ofDateString (endDate trip)) + 1)).
Proof.
  unfold totalTripDuration, wholeDaysBetween, ofDateString.
  replace (endDate trip * msPerDay - startDate trip * msPerDay)%Z
    with ((endDate trip - startDate trip) * msPerDay)%Z by ring.
  rewrite Z.div_mul by discriminate.
  set (n := (endDate trip - startDate trip)%Z).
  assert (E : inject_Z (n * msPerDay) / inject_Z (1000 * 3600 * 24) + 1 == inject_Z (n + 1)).
  { rewrite inject_Z_mult, inject_Z_plus. change (1000 * 3600 * 24)%Z with msPerDay.
    field. discriminate. }
  destruct (Q.max_spec 1 (inject_Z (n * msPerDay) / inject_Z (1000 * 3600 * 24) + 1))
    as [[H1 H2]|[H1 H2]]; rewrite H2.
  - rewrite E in *. rewrite Z.max_r; [reflexivity|].
    change 1 with (inject_Z 1) in H1. rewrite <- Zlt_Qlt in H1. lia.
  - rewrite E in H1. rewrite Z.max_l; [reflexivity|].
    change 1 with (inject_Z 1) in H1. rewrite <- Zle_Qle in H1. lia.
Qed.

Lemma totalTripDuration_pos (trip : Trip) : 0 < totalTripDuration trip.
Proof.
  unfold totalTripDuration. apply Qlt_le_trans with 1; [reflexivity|].
  apply Q.le_max_l.
Qed.

Lemma Qlt_bool_iff (a b : Q) : JS.Qlt_bool a b = true <-> a < b.
Proof.
  unfold JS.Qlt_bool. rewrite negb_true_iff.
  split.
  - intros H. apply Qnot_le_lt. intros Hle. apply Qle_bool_iff in Hle. congruence.
  - intros H. destruct (Qle_bool b a) eqn:E; [|reflexivity].
    apply Qle_bool_iff in E. exfalso. now apply (Qlt_not_le a b).
Qed.

(** C2: the bucket at index [k], whose 1-based position is [k + 1], carries
    [totalBudget / max(1, wholeDays + 1) * (k + 1)], and 0 when the budget
    is 0. *)
Theorem idealCumulativeBudget_at_position
  (convert : Converter) (tz now : Z) (expenses : list Expense) (trip : Trip)
  (k : nat) (p : DataPoint) :
  0 <= Types.totalBudget trip ->
  nth_error (chartData convert tz now expenses trip) k = Some p ->
  BudgetCumulativoIdeale p
  == Types.totalBudget trip
     / inject_Z (Z.max 1 (wholeDaysBetween (ofDateString (startDate trip))
                            (ofDateString (endDate trip)) + 1))
     * inject_Z (Z.of_nat k + 1)
  /\ (Types.totalBudget trip == 0 -> BudgetCumulativoIdeale p == 0).
Proof.
  intros Hbudget Hnth.
  unfold chartData in Hnth.
  match type of Hnth with
  | nth_error (if ?c then _ else _) _ = _ => destruct c
  end; [destruct k; discriminate|].
  apply loop_nth_budget in Hnth. destruct Hnth as [Hb _].
  rewrite Hb. rewrite Z.add_0_l.
  assert (Hburn : idealDailyBurn trip
                  == Types.totalBudget trip
                     / inject_Z (Z.max 1 (wholeDaysBetween (ofDateString (startDate trip))
                                            (ofDateString (endDate trip)) + 1))).
  { unfold idealDailyBurn.
    destruct (JS.Qlt_bool 0 (Types.totalBudget trip)) eqn:E.
    - now rewrite totalTripDuration_days.
    - assert (Hz : Types.totalBudget trip == 0).
      { apply Qle_antisym; [|assumption].
        apply Qnot_lt_le. intros Hlt. apply Qlt_bool_iff in Hlt. congruence. }
      rewrite Hz. unfold Qdiv. now rewrite Qmult_0_l. }
  split.
  - now rewrite Hburn.
  - intros Hz. rewrite Hburn, Hz. unfold Qdiv. now rewrite !Qmult_0_l.
Qed.

(** The fifth bucket of the example trip (budget 1000 over ten days)
    carries 500. *)
Lemma idealCumulativeBudget_witness :
  exists p,
    nth_error (chartData Example.convert 0 (Example.noon (Example.jan1 + 4))
                 Example.expenses Example.trip) 4 = Some p
    /\ BudgetCumulativoIdeale p == 500.
Proof.
  eexists. split; [vm_compute; reflexivity|].
  refine (Qeq_trans _ _ _
            (proj1 (idealCumulativeBudget_at_position Example.convert 0
                      (Example.noon (Example.jan1 + 4)) Example.expenses Example.trip
                      4 _ _ _)) _).
  - vm_compute. discriminate.
  - vm_compute. reflexivity.
  - vm_compute. reflexivity.
Defined.

End IdealBudget.

(** ** Sums, dictionaries and sorting *)

Section SumFacts.

Local Open Scope Q_scope.

Lemma fold_sum (xs : list Q) (a : Q) : fold_left Qplus xs a == a + JS.sum xs.
Proof.
  unfold JS.sum. revert a.
  induction xs as [|x xs IH]; intros a; simpl.
  - ring.
  - rewrite (IH (a + x)), (IH (0 + x)). ring.
Qed.

Lemma sum_nil : JS.sum [] == 0.
Proof. reflexivity. Qed.

Lemma sum_cons (x : Q) (xs : list Q) : JS.sum (x :: xs) == x + JS.sum xs.
Proof. unfold JS.sum at 1. simpl. rewrite fold_sum. ring. Qed.


Lemma sum_perm (xs ys : list Q) : Permutation xs ys -> JS.sum xs == JS.sum ys.
Proof.
  induction 1 as [| x l l' _ IH | x y l | l l' l'' _ IH1 _ IH2].
  - reflexivity.
  - now rewrite !sum_cons, IH.
  - rewrite !sum_cons. ring.
  - now rewrite IH1.
Qed.

Lemma sum_map_scale {A : Type} (f : A -> Q) (c : Q) (l : list A) :
  JS.sum (map (fun x => f x * c) l) == JS.sum (map f l) * c.
Proof.
  induction l as [|x l IH]; simpl.
  - rewrite sum_nil. ring.
  - rewrite !sum_cons, IH. ring.
Qed.

Lemma sum_map_eq {A : Type} (f g : A -> Q) (l : list A) :
  (forall x, In x l -> f x == g x) -> JS.sum (map f l) == JS.sum (map g l).
Proof.
  induction l as [|x l IH]; intros H; simpl.
  - reflexivity.
  - rewrite !sum_cons, (H x) by now left.
    rewrite IH; [reflexivity|]. intros y Hy. apply H. now right.
Qed.

Lemma sum_nonneg (xs : list Q) : Forall (fun x => 0 <= x) xs -> 0 <= JS.sum xs.
Proof.
  induction 1 as [|x xs Hx _ IH].
  - apply Qle_refl.
  - rewrite sum_cons. replace 0 with (0 + 0) by reflexivity.
    now apply Qplus_le_compat.
Qed.

(** A reduction that starts from 0 and adds [f e] per element. *)
Lemma fold_add_sum {A : Type} (f : A -> Q) (l : list A) (a : Q) :
  fold_left (fun sum e => sum + f e) l a == a + JS.sum (map f l).
Proof.
  revert a. induction l as [|x l IH]; intros a; simpl.
  - rewrite sum_nil. ring.
  - rewrite IH, sum_cons. ring.
Qed.

End SumFacts.

Section DictFacts.

Local Open Scope Q_scope.

Context {K : Type}.
Variable eqb : K -> K -> bool.
Hypothesis eqb_eq : forall x y, eqb x y = true <-> x = y.

Lemma eqb_refl (k : K) : eqb k k = true.
Proof. now apply eqb_eq. Qed.

Lemma eqb_neq (x y : K) : x <> y -> eqb x y = false.
Proof.
  intros H. destruct (eqb x y) eqn:E; [|reflexivity].
  apply eqb_eq in E. contradiction.
Qed.

Lemma get_set_same (m : list (K * Q)) (k : K) (v : Q) :
  JS.get eqb (JS.set eqb m k v) k = Some v.
Proof.
  induction m as [|[k1 v1] m IH]; simpl.
  - now rewrite eqb_refl.
  - destruct (eqb k k1) eqn:E; simpl; rewrite E; [reflexivity | exact IH].
Qed.

Lemma get_set_other (m : list (K * Q)) (k k' : K) (v : Q) :
  k' <> k -> JS.get eqb (JS.set eqb m k v) k' = JS.get eqb m k'.
Proof.
  intros Hne. induction m as [|[k1 v1] m IH]; simpl.
  - now rewrite eqb_neq.
  - destruct (eqb k k1) eqn:E; simpl.
    + apply eqb_eq in E. subst k1. now rewrite eqb_neq.
    + now rewrite IH.
Qed.

Lemma in_keys_set (m : list (K * Q)) (k k' : K) (v : Q) :
  In k' (map fst (JS.set eqb m k v)) <-> In k' (map fst m) \/ k' = k.
Proof.
  induction m as [|[k1 v1] m IH]; simpl.
  - intuition.
  - destruct (eqb k k1) eqn:E; simpl.
    + apply eqb_eq in E. subst k1. intuition.
    + rewrite IH. intuition.
Qed.

Lemma NoDup_keys_set (m : list (K * Q)) (k : K) (v : Q) :
  NoDup (map fst m) -> NoDup (map fst (JS.set eqb m k v)).
Proof.
  induction m as [|[k1 v1] m IH]; simpl; intros H.
  - constructor; [intros [] | constructor].
  - destruct (eqb k k1) eqn:E; simpl.
    + exact H.
    + inversion H as [|? ? Hnotin Hnodup]; subst.
      constructor; [|now apply IH].
      rewrite in_keys_set. intros [Hin|Heq]; [contradiction|].
      subst k1. rewrite eqb_refl in E. discriminate.
Qed.

Lemma in_get (m : list (K * Q)) (k : K) (v : Q) :
  NoDup (map fst m) -> In (k, v) m -> JS.get eqb m k = Some v.
Proof.
  induction m as [|[k1 v1] m IH]; simpl; intros Hnd Hin; [contradiction|].
  inversion Hnd as [|? ? Hnotin Hnodup]; subst.
  destruct Hin as [Heq|Hin].
  - injection Heq as -> ->. now rewrite eqb_refl.
  - destruct (eqb k k1) eqn:E.
    + apply eqb_eq in E. subst k1. exfalso. apply Hnotin.
      change k with (fst (k, v)). now apply in_map.
    + now apply IH.
Qed.

Lemma get_in (m : list (K * Q)) (k : K) (v : Q) :
  JS.get eqb m k = Some v -> In (k, v) m.
Proof.
  induction m as [|[k1 v1] m IH]; simpl; intros H; [discriminate|].
  destruct (eqb k k1) eqn:E.
  - apply eqb_eq in E. subst k1. injection H as ->. now left.
  - right. now apply IH.
Qed.

Lemma get_none_keys (m : list (K * Q)) (k : K) :
  JS.get eqb m k = None <-> ~ In k (map fst m).
Proof.
  induction m as [|[k1 v1] m IH]; simpl.
  - intuition.
  - destruct (eqb k k1) eqn:E.
    + apply eqb_eq in E. subst k1. split; [discriminate | intros H; exfalso; auto].
    + rewrite IH. split.
      * intros H [Heq|Hin]; [subst k1; rewrite eqb_refl in E; discriminate | auto].
      * intros H Hin. apply H. now right.
Qed.

(** Adding [a] under a key adds [a] to the sum of the values. *)
Lemma sum_set (m : list (K * Q)) (k : K) (a : Q) :
  JS.sum (map snd (JS.set eqb m k (JS.orZero (JS.get eqb m k) + a)))
  == JS.sum (map snd m) + a.
Proof.
  induction m as [|[k1 v1] m IH]; simpl.
  - rewrite sum_cons, sum_nil. ring.
  - destruct (eqb k k1) eqn:E; simpl.
    + rewrite !sum_cons. ring.
    + rewrite !sum_cons, IH. ring.
Qed.

End DictFacts.

Section SortFacts.

Local Open Scope Q_scope.

Context {A : Type}.

Lemma insert_perm (cmp : A -> A -> Q) (x : A) (l : list A) :
  Permutation (JS.insert cmp x l) (x :: l).
Proof.
  induction l as [|y l IH]; simpl.
  - reflexivity.
  - destruct (Qle_bool (cmp x y) 0).
    + reflexivity.
    + rewrite IH. apply perm_swap.
Qed.

(** Sorting rearranges and neither drops nor adds an element. *)
Lemma sort_perm (cmp : A -> A -> Q) (l : list A) : Permutation (JS.sort cmp l) l.
Proof.
  induction l as [|x l IH]; simpl.
  - reflexivity.
  - rewrite insert_perm. now constructor.
Qed.

Lemma sort_in (cmp : A -> A -> Q) (l : list A) (x : A) :
  In x (JS.sort cmp l) <-> In x l.
Proof.
  split; apply Permutation_in; [| symmetry]; apply sort_perm.
Qed.

Variable key : A -> Q.

(** The comparator [(a, b) => key(b) - key(a)] sorts by descending key. *)
Definition descending (a b : A) : Prop := key b <= key a.

Lemma insert_descending (x : A) (l : list A) :
  StronglySorted descending l ->
  StronglySorted descending (JS.insert (fun a b => key b - key a) x l).
Proof.
  induction 1 as [|y l Hsorted IH Hall]; simpl.
  - repeat constructor.
  - destruct (Qle_bool (key y - key x) 0) eqn:E.
    + apply Qle_bool_iff in E.
      assert (Hyx : key y <= key x).
      { apply Qplus_le_l with (z := - key x). now rewrite Qplus_opp_r. }
      constructor; [now constructor|].
      constructor; [exact Hyx|].
      eapply Forall_impl; [|exact Hall].
      intros z Hz. unfold descending in *. now apply Qle_trans with (key y).
    + assert (Hxy : key x <= key y).
      { apply Qlt_le_weak, Qnot_le_lt. intros Hle.
        assert (Qle_bool (key y - key x) 0 = true); [|congruence].
        apply Qle_bool_iff.
        apply Qplus_le_l with (z := key x). ring_simplify. exact Hle. }
      constructor; [exact IH|].
      eapply Permutation_Forall; [symmetry; apply insert_perm|].
      now constructor.
Qed.

Lemma sort_descending (l : list A) :
  StronglySorted descending (JS.sort (fun a b => key b - key a) l).
Proof.
  induction l as [|x l IH]; simpl.
  - constructor.
  - now apply insert_descending.
Qed.

End SortFacts.

(** ** Grouping: the accumulation every breakdown shares *)

Section GroupFacts.

Local Open Scope Q_scope.

Context {K A : Type}.
Variable eqb : K -> K -> bool.
Hypothesis eqb_eq : forall x y, eqb x y = true <-> x = y.
Variable keyOf : A -> K.
Variable valueOf : A -> Q.

(** [l.forEach(e => { m[key(e)] = (m[key(e)] || 0) + value(e) })]. *)
Definition group (l : list A) (m0 : list (K * Q)) : list (K * Q) :=
  fold_left
    (fun m e =>
       JS.set eqb m (keyOf e) (JS.orZero (JS.get eqb m (keyOf e)) + valueOf e))
    l m0.

(** The part of [l] filed under [k], and its total. *)
Definition groupTotal (l : list A) (k : K) : Q :=
  JS.sum (map valueOf (filter (fun e => eqb (keyOf e) k) l)).

Lemma group_sum (l : list A) (m0 : list (K * Q)) :
  JS.sum (map snd (group l m0)) == JS.sum (map snd m0) + JS.sum (map valueOf l).
Proof.
  revert m0. induction l as [|e l IH]; intros m0; simpl.
  - rewrite sum_nil. ring.
  - unfold group in *. simpl. rewrite IH, sum_set, sum_cons. ring.
Qed.

Lemma group_get (l : list A) (m0 : list (K * Q)) (k : K) :
  JS.orZero (JS.get eqb (group l m0) k)
  == JS.orZero (JS.get eqb m0 k) + groupTotal l k.
Proof.
  revert m0. induction l as [|e l IH]; intros m0.
  - unfold groupTotal. simpl. rewrite sum_nil. ring.
  - unfold group in *. simpl. rewrite IH. unfold groupTotal. simpl.
    destruct (eqb (keyOf e) k) eqn:E.
    + apply eqb_eq in E. subst k.
      rewrite (get_set_same eqb eqb_eq). simpl. rewrite sum_cons. ring.
    + rewrite (get_set_other eqb eqb_eq).
      * reflexivity.
      * intros ->. rewrite (eqb_refl eqb eqb_eq) in E. discriminate.
Qed.

Lemma group_NoDup (l : list A) (m0 : list (K * Q)) :
  NoDup (map fst m0) -> NoDup (map fst (group l m0)).
Proof.
  revert m0. induction l as [|e l IH]; intros m0 H; simpl.
  - exact H.
  - apply IH. now apply NoDup_keys_set.
Qed.

Lemma group_keys (l : list A) (m0 : list (K * Q)) (k : K) :
  In k (map fst (group l m0))
  <-> In k (map fst m0) \/ exists e, In e l /\ keyOf e = k.
Proof.
  revert m0. induction l as [|e l IH]; intros m0; simpl.
  - split; [now left | intros [H|[e [[] _]]]; exact H].
  - unfold group in *. simpl. rewrite IH, (in_keys_set eqb eqb_eq).
    split.
    + intros [[H|H]|[e' [H1 H2]]]; [now left | subst k; eauto | eauto].
    + intros [H|[e' [[H1|H1] H2]]]; [now left; left | subst; now left; right | eauto].
Qed.

(** Every entry of a grouping from scratch holds the total of its key. *)
Lemma group_entry (l : list A) (k : K) (v : Q) :
  In (k, v) (group l []) -> v == groupTotal l k.
Proof.
  intros Hin.
  apply (in_get eqb eqb_eq) in Hin; [|apply group_NoDup; constructor].
  pose proof (group_get l [] k) as H. rewrite Hin in H. simpl in H.
  rewrite H. ring.
Qed.

Lemma groupTotal_nonneg (l : list A) (k : K) :
  Forall (fun e => 0 <= valueOf e) l -> 0 <= groupTotal l k.
Proof.
  intros H. unfold groupTotal. apply sum_nonneg.
  apply Forall_map. apply Forall_forall. intros e He.
  apply filter_In in He. destruct He as [He _].
  rewrite Forall_forall in H. now apply H.
Qed.

End GroupFacts.

(** ** C3: category shares *)

(** An expense's amount in the trip's main currency. *)
Definition converted (convert : Converter) (trip : Trip) (e : Expense) : Q :=
  convert (Types.amount e) (currency e) (mainCurrency trip).

(** The total converted amount of a list of expenses. *)
Definition totalConverted (convert : Converter) (trip : Trip)
  (expenses : list Expense) : Q :=
  JS.sum (map (converted convert trip) expenses).

(** The converted amount of the expenses of one category. *)
Definition categoryTotal (convert : Converter) (trip : Trip)
  (expenses : list Expense) (c : string) : Q :=
  JS.sum (map (converted convert trip)
            (filter (fun e => String.eqb (category e) c) expenses)).

Section CategoryShares.

Import CategoryChart.

Local Open Scope Q_scope.

Variable convert : Converter.
Variable categories : list Category.

Lemma spending_group (expenses : list Expense) (trip : Trip) :
  spending convert expenses trip
  = group String.eqb category (converted convert trip) expenses [].
Proof. reflexivity. Qed.

Lemma totalSpent_total (expenses : list Expense) (trip : Trip) :
  totalSpent convert expenses trip == totalConverted convert trip expenses.
Proof.
  unfold totalSpent, totalConverted. rewrite spending_group, group_sum.
  simpl. rewrite sum_nil. ring.
Qed.

(** The slices are the entries of [spending], each with its share. *)
Lemma dataByCategory_in (expenses : list Expense) (trip : Trip) (s : Slice) :
  In s (dataByCategory convert categories expenses trip)
  <-> exists k a,
        In (k, a) (spending convert expenses trip)
        /\ s = mkSlice k a
                 (if JS.Qlt_bool 0 (totalSpent convert expenses trip)
                  then a / totalSpent convert expenses trip * 100 else 0)
                 (iconOf categories k).
Proof.
  unfold dataByCategory. rewrite sort_in, in_map_iff.
  split.
  - intros [[k a] [H1 H2]]. exists k, a. now split.
  - intros [k [a [H1 H2]]]. exists (k, a). now split.
Qed.

Lemma sum_percentage (expenses : list Expense) (trip : Trip) :
  JS.sum (map percentage (dataByCategory convert categories expenses trip))
  == if JS.Qlt_bool 0 (totalSpent convert expenses trip) then 100 else 0.
Proof.
  unfold dataByCategory.
  rewrite (sum_perm _ _ (Permutation_map percentage (sort_perm _ _))).
  rewrite map_map.
  set (T := totalSpent convert expenses trip).
  destruct (JS.Qlt_bool 0 T) eqn:E.
  - apply Qlt_bool_iff in E.
    rewrite (sum_map_eq _ (fun kv => snd kv * (/ T * 100))).
    + rewrite sum_map_scale. fold (totalSpent convert expenses trip). fold T.
      field. intros H. rewrite H in E. now apply (Qlt_irrefl 0).
    + intros [k a] _. simpl. unfold Qdiv. ring.
  - rewrite (sum_map_eq _ (fun kv => snd kv * 0)).
    + rewrite sum_map_scale. ring.
    + intros [k a] _. simpl. ring.
Qed.

(** C3: every slice holds the converted amount of its category and its share
    of the total in percent; the shares add up to 100 when the total is
    positive, as it is for a non-empty list of positive amounts; and all
    shares are 0 exactly when the total is 0. *)
Theorem percentage_of_total
  (expenses : list Expense) (trip : Trip) :
  expenses <> [] ->
  Forall (fun e => 0 <= converted convert trip e) expenses ->
  let data := dataByCategory convert categories expenses trip in
  let total := totalConverted convert trip expenses in
  (forall s, In s data -> amount s == categoryTotal convert trip expenses (name s))
  /\ (0 < total ->
      (forall s, In s data -> percentage s == amount s / total * 100)
      /\ JS.sum (map percentage data) == 100)
  /\ (Forall (fun e => 0 < converted convert trip e) expenses -> 0 < total)
  /\ (total == 0 <-> (forall s, In s data -> percentage s == 0))
  /\ (total == 0 -> JS.sum (map percentage data) == 0).
Proof.
  intros Hne Hnonneg data total.
  assert (HT : totalSpent convert expenses trip == total) by apply totalSpent_total.
  assert (Htotal : 0 <= total).
  { apply sum_nonneg. now apply Forall_map. }
  assert (Hpos : 0 < total -> JS.Qlt_bool 0 (totalSpent convert expenses trip) = true).
  { intros H. apply Qlt_bool_iff. now rewrite HT. }
  assert (Hzero : total == 0 -> JS.Qlt_bool 0 (totalSpent convert expenses trip) = false).
  { intros H. destruct (JS.Qlt_bool 0 (totalSpent convert expenses trip)) eqn:E; [|reflexivity].
    apply Qlt_bool_iff in E. rewrite HT, H in E. now apply Qlt_irrefl in E. }
  assert (Hamount : forall s, In s data ->
                              amount s == categoryTotal convert trip expenses (name s)).
  { intros s Hs. apply dataByCategory_in in Hs. destruct Hs as [k [a [Hin ->]]].
    simpl. rewrite spending_group in Hin.
    apply (group_entry String.eqb String.eqb_eq) in Hin. exact Hin. }
  assert (Hshare : 0 < total ->
                   forall s, In s data -> percentage s == amount s / total * 100).
  { intros Ht s Hs. apply dataByCategory_in in Hs. destruct Hs as [k [a [Hin ->]]].
    simpl. rewrite (Hpos Ht). now rewrite HT. }
  split; [exact Hamount|].
  split; [|split; [|split]].
  - intros Ht. split; [now apply Hshare|].
    unfold data. rewrite sum_percentage. now rewrite (Hpos Ht).
  - intros Hall. destruct expenses as [|e l]; [congruence|].
    unfold total, totalConverted. simpl. rewrite sum_cons.
    inversion Hall as [|? ? He Hl]; subst. inversion Hnonneg as [|? ? _ Hl']; subst.
    apply Qlt_le_trans with (converted convert trip e + 0).
    + now rewrite Qplus_0_r.
    + apply Qplus_le_r. apply sum_nonneg. now apply Forall_map.
  - split.
    + intros Hz s Hs. apply dataByCategory_in in Hs. destruct Hs as [k [a [Hin ->]]].
      simpl. rewrite (Hzero Hz). reflexivity.
    + intros Hall.
      destruct (Qlt_le_dec 0 total) as [Ht|Ht]; [|now apply Qle_antisym].
      exfalso.
      assert (Hsum : JS.sum (map percentage data) == 0).
      { rewrite (sum_map_eq _ (fun _ => 0 * 0)).
        - rewrite sum_map_scale. ring.
        - intros s Hs. rewrite (Hall s Hs). ring. }
      unfold data in Hsum. rewrite sum_percentage, (Hpos Ht) in Hsum.
      discriminate.
  - intros Hz. unfold data. rewrite sum_percentage. now rewrite (Hzero Hz).
Qed.

End CategoryShares.

Section CategorySharesExamples.

Import CategoryChart.

Local Open Scope Q_scope.

(** In the example (300 of Food, 46 of Taxi) the shares add up to 100. *)
Lemma percentage_of_total_witness :
  JS.sum (map percentage
            (dataByCategory Example.convert [] Example.expenses Example.trip))
  == 100.
Proof.
  refine (proj2 (proj1 (proj2
            (percentage_of_total Example.convert [] Example.expenses Example.trip _ _)) _)).
  - discriminate.
  - repeat constructor; vm_compute; discriminate.
  - vm_compute. reflexivity.
Defined.

End CategorySharesExamples.

(** ** C4: the highlights of an empty list *)

Section Highlights.

Import StatsSummary.

Local Open Scope Q_scope.

Variable convert : Converter.
Variable categories : list Category.





End Highlights.



(** ** C5 and C6: the filter *)

Section FilterFacts.

Import JSDate Dashboard.

Local Open Scope Z_scope.

Variable tz : Z.
Variable now : Z.

(** The date predicate of each filter value. *)
Definition dateOk (dateFilter : DateFilter) (e : Expense) : bool :=
  match dateFilter with
  | all => true
  | today => isoDate (date e) =? isoDate now
  | week => firstDayOfWeek tz now <=? date e
  | month =>
      (getMonth tz (date e) =? getMonth tz now)
      && (getFullYear tz (date e) =? getFullYear tz now)
  end.

(** The category predicate: an empty selection lets everything through. *)
Definition categoryOk (selectedCategories : list string) (e : Expense) : bool :=
  match selectedCategories with
  | [] => true
  | _ => includes selectedCategories (category e)
  end.

Lemma filter_true {A : Type} (l : list A) : filter (fun _ => true) l = l.
Proof. induction l as [|x l IH]; simpl; [reflexivity | now rewrite IH]. Qed.

Lemma filter_filter {A : Type} (p q : A -> bool) (l : list A) :
  filter q (filter p l) = filter (fun x => p x && q x) l.
Proof.
  induction l as [|x l IH]; simpl; [reflexivity|].
  destruct (p x); simpl; [destruct (q x)|]; now rewrite IH.
Qed.

Lemma filter_idem {A : Type} (p : A -> bool) (l : list A) :
  filter p (filter p l) = filter p l.
Proof.
  rewrite filter_filter. apply filter_ext. intros x. now destruct (p x).
Qed.

(** The filter keeps, in their order, the expenses that pass both
    predicates. *)
Lemma filterExpenses_filter (dateFilter : DateFilter)
  (selectedCategories : list string) (l : list Expense) :
  filterExpenses tz now dateFilter selectedCategories l
  = filter (fun e => dateOk dateFilter e && categoryOk selectedCategories e) l.
Proof.
  unfold filterExpenses.
  assert (Hdate : match dateFilter with
                  | all => l
                  | today => filter (fun e => isoDate (date e) =? isoDate now) l
                  | week => filter (fun e => firstDayOfWeek tz now <=? date e) l
                  | month =>
                      filter (fun e =>
                                (getMonth tz (date e) =? getMonth tz now)
                                && (getFullYear tz (date e) =? getFullYear tz now)) l
                  end = filter (dateOk dateFilter) l).
  { destruct dateFilter; simpl; [now rewrite filter_true | reflexivity ..]. }
  cbv zeta. rewrite Hdate.
  destruct selectedCategories as [|c cs]; simpl.
  - apply filter_ext. intros e. now rewrite andb_true_r.
  - now rewrite filter_filter.
Qed.

(** The dashboard's sort puts later dates first. *)
Definition newestFirst (a b : Expense) : Prop := date b <= date a.

Lemma newestFirst_cmp (a b : Expense) :
  Qle_bool (inject_Z (date b - date a)) 0 = true <-> newestFirst a b.
Proof.
  rewrite Qle_bool_iff. change 0%Q with (inject_Z 0). rewrite <- Zle_Qle.
  unfold newestFirst. lia.
Qed.

Lemma insert_newestFirst (x : Expense) (l : list Expense) :
  StronglySorted newestFirst l ->
  StronglySorted newestFirst (JS.insert (fun a b => inject_Z (date b - date a)) x l).
Proof.
  induction 1 as [|y l Hsorted IH Hall]; simpl.
  - repeat constructor.
  - destruct (Qle_bool (inject_Z (date y - date x)) 0) eqn:E.
    + apply newestFirst_cmp in E.
      constructor; [now constructor|].
      constructor; [exact E|].
      eapply Forall_impl; [|exact Hall].
      intros z Hz. unfold newestFirst in *. lia.
    + assert (Hxy : newestFirst y x).
      { destruct (Z.le_gt_cases (date y) (date x)) as [H|H].
        - apply newestFirst_cmp in H. congruence.
        - unfold newestFirst. lia. }
      constructor; [exact IH|].
      eapply Permutation_Forall; [symmetry; apply insert_perm|].
      now constructor.
Qed.

Lemma sortedExpenses_sorted (l : list Expense) :
  StronglySorted newestFirst (sortedExpenses l).
Proof.
  induction l as [|x l IH]; simpl.
  - constructor.
  - now apply insert_newestFirst.
Qed.

(** Sorting a list that is in order leaves it as it is. *)
Lemma sortedExpenses_id (l : list Expense) :
  StronglySorted newestFirst l -> sortedExpenses l = l.
Proof.
  induction 1 as [|x l Hsorted IH Hall]; [reflexivity|].
  unfold sortedExpenses in *. simpl. rewrite IH.
  destruct l as [|y l']; [reflexivity|]. simpl.
  inversion Hall as [|? ? Hxy _]; subst.
  apply newestFirst_cmp in Hxy. now rewrite Hxy.
Qed.

Lemma filter_sorted {A : Type} (R : A -> A -> Prop) (p : A -> bool) (l : list A) :
  StronglySorted R l -> StronglySorted R (filter p l).
Proof.
  induction 1 as [|x l Hsorted IH Hall]; simpl; [constructor|].
  destruct (p x); [|exact IH].
  constructor; [exact IH|].
  apply Forall_forall. intros y Hy. apply filter_In in Hy.
  rewrite Forall_forall in Hall. now apply Hall.
Qed.

(** C5: the filter is idempotent, on the list it is given and as the
    component applies it (after the sort), and with [all] and no selected
    category it returns its input as it is. *)
Theorem filterExpenses_idempotent (dateFilter : DateFilter)
  (selectedCategories : list string) (l : list Expense) :
  filterExpenses tz now dateFilter selectedCategories
    (filterExpenses tz now dateFilter selectedCategories l)
  = filterExpenses tz now dateFilter selectedCategories l
  /\ filteredExpenses tz now dateFilter selectedCategories
       (filteredExpenses tz now dateFilter selectedCategories l)
     = filteredExpenses tz now dateFilter selectedCategories l
  /\ filterExpenses tz now all [] l = l
  /\ filteredExpenses tz now all [] l = sortedExpenses l.
Proof.
  split; [|split; [|split]].
  - rewrite !filterExpenses_filter. apply filter_idem.
  - unfold filteredExpenses.
    rewrite (sortedExpenses_id
               (filterExpenses tz now dateFilter selectedCategories (sortedExpenses l))).
    + rewrite !filterExpenses_filter. apply filter_idem.
    + rewrite filterExpenses_filter. apply filter_sorted, sortedExpenses_sorted.
  - reflexivity.
  - reflexivity.
Qed.

End FilterFacts.

Section WeekFilter.

Import JSDate Dashboard.

Local Open Scope Z_scope.

Variable tz : Z.
Variable now : Z.

(** How many days the week start lies from today: six back on a Sunday,
    otherwise back to the Monday. *)
Definition weekShift : Z :=
  let dayOfWeek := getDay tz now in
  - dayOfWeek + (if dayOfWeek =? 0 then -6 else 1).

Lemma firstDayOfWeek_shift :
  firstDayOfWeek tz now = setHours tz now 0 0 0 0 + weekShift * msPerDay.
Proof.
  unfold firstDayOfWeek, weekShift. cbv zeta.
  replace (getDate tz now - getDay tz now + (if getDay tz now =? 0 then -6 else 1))
    with (getDate tz now + (- getDay tz now + (if getDay tz now =? 0 then -6 else 1)))
    by lia.
  rewrite setDate_shift, !setHours_startOfDay.
  replace (now + (- getDay tz now + (if getDay tz now =? 0 then -6 else 1)) * msPerDay + tz)
    with (now + tz + (- getDay tz now + (if getDay tz now =? 0 then -6 else 1)) * msPerDay)
    by lia.
  rewrite Day_shift. lia.
Qed.

Lemma getDay_range : 0 <= getDay tz now < 7.
Proof. unfold getDay. apply Z.mod_pos_bound. reflexivity. Qed.

Lemma weekShift_range : -6 <= weekShift <= 0.
Proof.
  unfold weekShift. cbv zeta. pose proof getDay_range.
  destruct (Z.eqb_spec (getDay tz now) 0); lia.
Qed.

Lemma getDay_firstDayOfWeek : getDay tz (firstDayOfWeek tz now) = 1.
Proof.
  rewrite firstDayOfWeek_shift, setHours_startOfDay.
  unfold getDay at 1. unfold LocalTime.
  replace (Day (now + tz) * msPerDay - tz + weekShift * msPerDay + tz)
    with ((Day (now + tz) + weekShift) * msPerDay) by lia.
  unfold Day at 1. rewrite Z.div_mul by discriminate.
  unfold weekShift. cbv zeta. unfold getDay, LocalTime.
  set (d := Day (now + tz)).
  destruct (Z.eqb_spec ((d + 4) mod 7) 0) as [E|E];
    Z.div_mod_to_equations; lia.
Qed.

(** C6: on a Sunday the week starts six days back, at the start of that
    day; for every [now] the week start is a Monday at the start of its
    local day, not after [now] and less than a week before the end of today,
    and the week filter keeps exactly the expenses dated at or after it. *)
Theorem week_filter_from_monday :
  (getDay tz now = 0 ->
   firstDayOfWeek tz now = setHours tz now 0 0 0 0 - 6 * msPerDay)
  /\ getDay tz (firstDayOfWeek tz now) = 1
  /\ TimeWithinDay (LocalTime tz (firstDayOfWeek tz now)) = 0
  /\ firstDayOfWeek tz now <= now < firstDayOfWeek tz now + 7 * msPerDay
  /\ (forall l e,
        In e (filterExpenses tz now week [] l)
        <-> In e l /\ firstDayOfWeek tz now <= date e)
  /\ (forall selectedCategories l e,
        In e (filterExpenses tz now week selectedCategories l)
        <-> In e l /\ firstDayOfWeek tz now <= date e
            /\ categoryOk selectedCategories e = true).
Proof.
  split; [|split; [|split; [|split; [|split]]]].
  - intros Hsun. rewrite firstDayOfWeek_shift. unfold weekShift. cbv zeta.
    rewrite Hsun. simpl. lia.
  - apply getDay_firstDayOfWeek.
  - rewrite firstDayOfWeek_shift, setHours_startOfDay. unfold TimeWithinDay, LocalTime.
    replace (Day (now + tz) * msPerDay - tz + weekShift * msPerDay + tz)
      with ((Day (now + tz) + weekShift) * msPerDay) by lia.
    apply Z.mod_mul. discriminate.
  - rewrite firstDayOfWeek_shift, setHours_startOfDay.
    pose proof weekShift_range. pose proof (day_split (now + tz)).
    pose proof (timeWithinDay_range (now + tz)).
    rewrite msPerDay_value in *. lia.
  - intros l e. unfold filterExpenses. simpl.
    rewrite filter_In. rewrite Z.leb_le. reflexivity.
  - intros selectedCategories l e. rewrite filterExpenses_filter.
    rewrite filter_In, andb_true_iff. simpl. rewrite Z.leb_le. tauto.
Qed.

End WeekFilter.

Section WeekFilterExamples.

Import JSDate Dashboard.

Local Open Scope Z_scope.

(** 2024-01-07 was a Sunday: at noon, in Central European Time, the week
    start is local midnight of Monday 2024-01-01. *)
Lemma week_filter_from_monday_witness :
  firstDayOfWeek Example.CET (Example.noon (Example.jan1 + 6))
  = setHours Example.CET (Example.noon (Example.jan1 + 6)) 0 0 0 0 - 6 * msPerDay.
Proof.
  refine (proj1 (week_filter_from_monday Example.CET (Example.noon (Example.jan1 + 6))) _).
  vm_compute. reflexivity.
Defined.

End WeekFilterExamples.

(** ** C7: the colour bands of the heatmap *)

Section HeatmapFacts.

Import ExpenseCalendarHeatmap.

Variable convert : Converter.

Local Open Scope Q_scope.

(** What the [forEach] maintains: [max] is not negative and no day total
    exceeds it. *)
Definition bounded (st : list (Z * Q) * Q) : Prop :=
  0 <= snd st /\ forall dateStr, JS.orZero (JS.get Z.eqb (fst st) dateStr) <= snd st.

Lemma dailyStep_bounded (trip : Trip) (st : list (Z * Q) * Q) (expense : Expense) :
  bounded st -> bounded (dailyStep convert trip st expense).
Proof.
  destruct st as [data max]. unfold bounded, dailyStep. simpl.
  set (key := JSDate.isoDate (date expense)).
  set (newTotal := JS.orZero (JS.get Z.eqb data key)
                   + convert (amount expense) (currency expense) (mainCurrency trip)).
  intros [Hmax Hall].
  assert (Hge : max <= (if JS.Qlt_bool max newTotal then newTotal else max)
                /\ newTotal <= (if JS.Qlt_bool max newTotal then newTotal else max)).
  { destruct (JS.Qlt_bool max newTotal) eqn:E.
    - apply Qlt_bool_iff in E. split; [now apply Qlt_le_weak | apply Qle_refl].
    - split; [apply Qle_refl|].
      apply Qnot_lt_le. intros H. apply Qlt_bool_iff in H. congruence. }
  destruct Hge as [Hge1 Hge2].
  split.
  - now apply Qle_trans with max.
  - intros d. destruct (Z.eq_dec d key) as [->|Hne].
    + rewrite (get_set_same Z.eqb Z.eqb_eq). exact Hge2.
    + rewrite (get_set_other Z.eqb Z.eqb_eq) by assumption.
      now apply Qle_trans with max.
Qed.

Lemma dailyData_maxSpend_bounded (expenses : list Expense) (trip : Trip) :
  bounded (dailyData_maxSpend convert expenses trip).
Proof.
  unfold dailyData_maxSpend.
  assert (H : bounded ([], 0)) by (split; [apply Qle_refl | intros d; apply Qle_refl]).
  revert H. generalize (@nil (Z * Q), 0). 
  induction expenses as [|e l IH]; intros st H; simpl.
  - exact H.
  - apply IH. now apply dailyStep_bounded.
Qed.

Lemma amountOn_le_maxSpend (expenses : list Expense) (trip : Trip) (dateStr : Z) :
  0 <= maxSpend convert expenses trip
  /\ amountOn convert expenses trip dateStr <= maxSpend convert expenses trip.
Proof.
  destruct (dailyData_maxSpend_bounded expenses trip) as [H1 H2].
  split; [exact H1 | apply H2].
Qed.

(** With amounts that are not negative, [max] is 0 or the total of a day. *)
Definition attained (st : list (Z * Q) * Q) : Prop :=
  snd st == 0 \/ exists dateStr, JS.orZero (JS.get Z.eqb (fst st) dateStr) == snd st.

Lemma dailyStep_attained (trip : Trip) (st : list (Z * Q) * Q) (expense : Expense) :
  0 <= converted convert trip expense ->
  attained st -> attained (dailyStep convert trip st expense).
Proof.
  destruct st as [data max]. unfold attained, dailyStep, converted. simpl.
  set (key := JSDate.isoDate (date expense)).
  set (a := convert (amount expense) (currency expense) (mainCurrency trip)).
  intros Ha Hatt.
  destruct (JS.Qlt_bool max (JS.orZero (JS.get Z.eqb data key) + a)) eqn:E.
  - right. exists key. rewrite (get_set_same Z.eqb Z.eqb_eq). reflexivity.
  - assert (Hle : JS.orZero (JS.get Z.eqb data key) + a <= max).
    { apply Qnot_lt_le. intros H. apply Qlt_bool_iff in H. congruence. }
    destruct Hatt as [Hz|[d Hd]]; [now left|].
    right. destruct (Z.eq_dec d key) as [->|Hne].
    + exists key. rewrite (get_set_same Z.eqb Z.eqb_eq). simpl.
      apply Qle_antisym; [exact Hle|].
      rewrite <- Hd at 1. rewrite <- (Qplus_0_r (JS.orZero (JS.get Z.eqb data key))) at 1.
      now apply Qplus_le_r.
    + exists d. now rewrite (get_set_other Z.eqb Z.eqb_eq).
Qed.

Lemma maxSpend_attained (expenses : list Expense) (trip : Trip) :
  Forall (fun e => 0 <= converted convert trip e) expenses ->
  maxSpend convert expenses trip == 0
  \/ exists dateStr,
       amountOn convert expenses trip dateStr == maxSpend convert expenses trip.
Proof.
  intros Hall.
  change (attained (dailyData_maxSpend convert expenses trip)).
  unfold dailyData_maxSpend.
  assert (H : attained ([], 0)) by (left; reflexivity).
  revert H. generalize (@nil (Z * Q), 0).
  induction Hall as [|e l He _ IH]; intros st H; simpl.
  - exact H.
  - apply IH. now apply dailyStep_attained.
Qed.

End HeatmapFacts.

Section ColorBands.

Import ExpenseCalendarHeatmap.

Lemma getColor_no_spend (maxSpend amount : Q) :
  (amount <= 0)%Q -> getColor maxSpend amount = bg_surface_variant_50.
Proof.
  intros H. unfold getColor. apply Qle_bool_iff in H. now rewrite H.
Qed.

Lemma Qle_bool_false (a b : Q) : (b < a)%Q -> Qle_bool a b = false.
Proof.
  intros H. destruct (Qle_bool a b) eqn:E; [|reflexivity].
  apply Qle_bool_iff in E. exfalso. now apply (Qlt_not_le b a).
Qed.

Local Open Scope R_scope.

(** For a day with spend and a positive maximum the band is read off the
    intensity. *)
Lemma getColor_bands (maxSpend amount : Q) :
  (0 < amount)%Q -> (0 < maxSpend)%Q ->
  let i := intensity maxSpend amount in
  (i < 25 / 100 -> getColor maxSpend amount = bg_primary_container_40)
  /\ (25 / 100 <= i < 5 / 10 -> getColor maxSpend amount = bg_primary_container_70)
  /\ (5 / 10 <= i < 75 / 100 -> getColor maxSpend amount = bg_primary_container)
  /\ (75 / 100 <= i -> getColor maxSpend amount = bg_primary).
Proof.
  intros Ha Hm i. unfold getColor.
  rewrite (Qle_bool_false amount 0 Ha), (Qle_bool_false maxSpend 0 Hm).
  cbv zeta. fold i.
  repeat split; intros H;
    destruct (Rlt_dec i (25 / 100)); destruct (Rlt_dec i (5 / 10));
    destruct (Rlt_dec i (75 / 100)); try reflexivity; exfalso; lra.
Qed.

Lemma intensity_range (maxSpend amount : Q) :
  (0 < amount)%Q -> (amount <= maxSpend)%Q ->
  0 < intensity maxSpend amount <= 1.
Proof.
  intros Ha Hle. unfold intensity.
  assert (Ha' : 0 < Q2R amount).
  { replace 0 with (Q2R 0) by apply RMicromega.Q2R_0. now apply Qlt_Rlt. }
  assert (Hle' : Q2R amount <= Q2R maxSpend) by now apply Qle_Rle.
  assert (Hratio : 0 < Q2R amount / Q2R maxSpend <= 1).
  { split.
    - apply Rdiv_lt_0_compat; lra.
    - apply Rmult_le_reg_r with (Q2R maxSpend); [lra|].
      unfold Rdiv. rewrite Rmult_assoc, Rinv_l by lra. lra. }
  split.
  - apply sqrt_lt_R0. lra.
  - rewrite <- sqrt_1. apply sqrt_le_1_alt. lra.
Qed.

Lemma intensity_max (maxSpend amount : Q) :
  (amount == maxSpend)%Q -> (0 < maxSpend)%Q -> intensity maxSpend amount = 1.
Proof.
  intros He Hm. unfold intensity. rewrite (Qeq_eqR _ _ He).
  assert (0 < Q2R maxSpend).
  { replace 0 with (Q2R 0) by apply RMicromega.Q2R_0. now apply Qlt_Rlt. }
  unfold Rdiv. rewrite Rinv_r by lra. apply sqrt_1.
Qed.

End ColorBands.

Section HeatmapBands.

Import ExpenseCalendarHeatmap.

Variable convert : Converter.

(** C7 (as amended): a day without spend gets the no-spend class, and so
    does every day when the maximum is 0; a day with spend has the intensity
    [sqrt(amount / maxSpend)], which lies in (0, 1], and gets one of four
    bands by the thresholds 0.25, 0.5 and 0.75; the day whose total equals
    a positive maximum gets the highest band.  [maxSpend] bounds every day
    total and, for amounts that are not negative, is 0 or the total of a
    day. *)
Theorem heatmap_band_of_day
  (expenses : list Expense) (trip : Trip) (dateStr : Z) :
  let M := maxSpend convert expenses trip in
  let amount := amountOn convert expenses trip dateStr in
  let i := intensity M amount in
  ((amount <= 0)%Q -> getColor M amount = bg_surface_variant_50)
  /\ ((M == 0)%Q -> getColor M amount = bg_surface_variant_50)
  /\ ((0 < amount)%Q ->
      (0 < M)%Q /\ (amount <= M)%Q /\ (0 < i <= 1)%R
      /\ ((i < 25 / 100)%R -> getColor M amount = bg_primary_container_40)
      /\ ((25 / 100 <= i < 5 / 10)%R -> getColor M amount = bg_primary_container_70)
      /\ ((5 / 10 <= i < 75 / 100)%R -> getColor M amount = bg_primary_container)
      /\ ((75 / 100 <= i)%R -> getColor M amount = bg_primary))
  /\ ((amount == M)%Q -> (0 < M)%Q -> getColor M amount = bg_primary)
  /\ (Forall (fun e => (0 <= converted convert trip e)%Q) expenses ->
      (M == 0)%Q \/ exists d, (amountOn convert expenses trip d == M)%Q).
Proof.
  intros M amount i.
  destruct (amountOn_le_maxSpend convert expenses trip dateStr) as [HM Hle].
  fold M in HM, Hle. fold amount in Hle.
  split; [|split; [|split; [|split]]].
  - apply getColor_no_spend.
  - intros Hz. apply getColor_no_spend. now rewrite <- Hz.
  - intros Ha.
    assert (Hpos : (0 < M)%Q) by now apply Qlt_le_trans with amount.
    split; [exact Hpos|]. split; [exact Hle|].
    split; [now apply intensity_range|].
    now apply getColor_bands.
  - intros He Hpos.
    assert (Ha : (0 < amount)%Q) by now rewrite He.
    apply (getColor_bands M amount Ha Hpos).
    unfold i. rewrite (intensity_max M amount He Hpos). lra.
  - apply maxSpend_attained.
Qed.

End HeatmapBands.

Section HeatmapExamples.

Import ExpenseCalendarHeatmap.

(** C7 as stated fails when nothing was spent: every day's total, 0,
    equals the maximum, 0, and the day gets the no-spend class, not the
    highest band. *)
Lemma heatmap_band_counterexample :
  (amountOn Example.convert [] Example.trip Example.jan1
   == maxSpend Example.convert [] Example.trip)%Q
  /\ getColor (maxSpend Example.convert [] Example.trip)
       (amountOn Example.convert [] Example.trip Example.jan1)
     = bg_surface_variant_50
  /\ bg_surface_variant_50 <> bg_primary.
Proof.
  split; [reflexivity | split; [reflexivity | discriminate]].
Qed.

(** In the example the costliest day, 2024-01-05 with 200, gets the highest
    band. *)
Lemma heatmap_band_witness :
  getColor (maxSpend Example.convert Example.expenses Example.trip)
    (amountOn Example.convert Example.expenses Example.trip (Example.jan1 + 4))
  = bg_primary.
Proof.
  refine (proj1 (proj2 (proj2 (proj2
            (heatmap_band_of_day Example.convert Example.expenses Example.trip
               (Example.jan1 + 4))))) _ _).
  - vm_compute. reflexivity.
  - vm_compute. reflexivity.
Defined.

End HeatmapExamples.

(** ** C8 and C10: spending per country *)

Section KeyFacts.

Local Open Scope Q_scope.

Context {K : Type}.
Variable eqb : K -> K -> bool.
Hypothesis eqb_eq : forall x y, eqb x y = true <-> x = y.

Lemma hasOwnProperty_keys (m : list (K * Q)) (k : K) :
  JS.hasOwnProperty eqb m k = true <-> In k (map fst m).
Proof.
  unfold JS.hasOwnProperty.
  destruct (JS.get eqb m k) as [v|] eqn:E.
  - split; [intros _ | reflexivity].
    apply (get_in eqb eqb_eq) in E. change k with (fst (k, v)). now apply in_map.
  - split; [discriminate|]. intros H.
    apply (get_none_keys eqb eqb_eq) in E. contradiction.
Qed.

(** Writing under a key that is there leaves the keys as they are. *)
Lemma keys_set_existing (m : list (K * Q)) (k : K) (v : Q) :
  In k (map fst m) -> map fst (JS.set eqb m k v) = map fst m.
Proof.
  induction m as [|[k1 v1] m IH]; simpl; intros H; [contradiction|].
  destruct (eqb k k1) eqn:E; simpl; [reflexivity|].
  f_equal. apply IH. destruct H as [H|H]; [|exact H].
  subst k1. rewrite (eqb_refl eqb eqb_eq) in E. discriminate.
Qed.

End KeyFacts.

Section CountryFacts.

Import CountrySpendChart.

Local Open Scope Q_scope.

Lemma initial_fold (cs : list string) (m : list (string * Q)) :
  let m' := fold_left (fun m country => JS.set String.eqb m country 0) cs m in
  (forall k, In k (map fst m') <-> In k (map fst m) \/ In k cs)
  /\ (NoDup (map fst m) -> NoDup (map fst m'))
  /\ ((forall k, JS.orZero (JS.get String.eqb m k) == 0) ->
      forall k, JS.orZero (JS.get String.eqb m' k) == 0).
Proof.
  revert m. induction cs as [|c cs IH]; intros m; simpl.
  - split; [|split].
    + intros k. split; [now left | intros [H|[]]; exact H].
    + trivial.
    + trivial.
  - destruct (IH (JS.set String.eqb m c 0)) as [H1 [H2 H3]].
    split; [|split].
    + intros k. rewrite H1, (in_keys_set String.eqb String.eqb_eq). intuition.
    + intros Hnd. apply H2. now apply (NoDup_keys_set String.eqb String.eqb_eq).
    + intros Hz. apply H3. intros k.
      destruct (string_dec k c) as [->|Hne].
      * rewrite (get_set_same String.eqb String.eqb_eq). reflexivity.
      * rewrite (get_set_other String.eqb String.eqb_eq) by assumption. apply Hz.
Qed.

Lemma initial_keys (trip : Trip) (k : string) :
  In k (map fst (initial trip)) <-> In k (countries trip).
Proof.
  destruct (initial_fold (countries trip) []) as [H _].
  unfold initial. rewrite H. simpl. intuition.
Qed.

Lemma initial_NoDup (trip : Trip) : NoDup (map fst (initial trip)).
Proof.
  destruct (initial_fold (countries trip) []) as [_ [H _]].
  apply H. constructor.
Qed.

Lemma initial_zero (trip : Trip) (k : string) :
  JS.orZero (JS.get String.eqb (initial trip) k) == 0.
Proof.
  destruct (initial_fold (countries trip) []) as [_ [_ H]].
  apply H. intros k'. reflexivity.
Qed.

Variable convert : Converter.
Variable CURRENCY_TO_COUNTRY : string -> option string.

(** The expense counts for country [c]: its country resolves, to [c]. *)
Definition filedUnder (e : Expense) (c : string) : bool :=
  match countryOf CURRENCY_TO_COUNTRY e with
  | Some c' => JS.truthy c' && String.eqb c' c
  | None => false
  end.

(** The converted amount of the expenses that count for [c]. *)
Definition countryTotal (trip : Trip) (expenses : list Expense) (c : string) : Q :=
  JS.sum (map (converted convert trip) (filter (fun e => filedUnder e c) expenses)).

Lemma spendStep_keys (trip : Trip) (m : list (string * Q)) (e : Expense) :
  map fst (spendStep convert CURRENCY_TO_COUNTRY trip m e) = map fst m.
Proof.
  unfold CountrySpendChart.spendStep.
  destruct (countryOf CURRENCY_TO_COUNTRY e) as [c|]; [|reflexivity].
  destruct (JS.truthy c); simpl; [|reflexivity].
  destruct (JS.hasOwnProperty String.eqb m c) eqn:E; [|reflexivity].
  apply (keys_set_existing String.eqb String.eqb_eq).
  now apply (hasOwnProperty_keys String.eqb String.eqb_eq).
Qed.

Lemma spend_keys (trip : Trip) (l : list Expense) (m : list (string * Q)) :
  map fst (fold_left (spendStep convert CURRENCY_TO_COUNTRY trip) l m) = map fst m.
Proof.
  revert m. induction l as [|e l IH]; intros m; simpl; [reflexivity|].
  now rewrite IH, spendStep_keys.
Qed.


Lemma spend_get (trip : Trip) (l : list Expense) (m : list (string * Q)) (c : string) :
  In c (map fst m) ->
  JS.orZero (JS.get String.eqb (fold_left (spendStep convert CURRENCY_TO_COUNTRY trip) l m) c)
  == JS.orZero (JS.get String.eqb m c) + countryTotal trip l c.
Proof.
  revert m. induction l as [|e l IH]; intros m Hin.
  - unfold countryTotal. simpl. rewrite sum_nil. ring.
  - simpl. rewrite IH by now rewrite spendStep_keys.
    unfold countryTotal. simpl. unfold filedUnder at 2.
    unfold CountrySpendChart.spendStep.
    destruct (countryOf CURRENCY_TO_COUNTRY e) as [c'|]; [|ring].
    destruct (JS.truthy c'); simpl; [|ring].
    destruct (String.eqb_spec c' c) as [->|Hne].
    + apply (hasOwnProperty_keys String.eqb String.eqb_eq) in Hin. rewrite Hin.
      rewrite (get_set_same String.eqb String.eqb_eq). simpl. rewrite sum_cons.
      unfold converted. ring.
    + destruct (JS.hasOwnProperty String.eqb m c'); [|ring].
      rewrite (get_set_other String.eqb String.eqb_eq) by congruence. ring.
Qed.

(** The dictionary has one entry per declared country, holding the
    converted amount of the expenses that count for it. *)
Lemma spendingByCountry_entry (expenses : list Expense) (trip : Trip)
  (c : string) (a : Q) :
  In (c, a) (spendingByCountry convert CURRENCY_TO_COUNTRY expenses trip) ->
  In c (countries trip) /\ a == countryTotal trip expenses c.
Proof.
  intros Hin. unfold CountrySpendChart.spendingByCountry in Hin.
  assert (Hkey : In c (map fst (initial trip))).
  { rewrite <- (spend_keys trip expenses). change c with (fst (c, a)). now apply in_map. }
  split; [now apply initial_keys|].
  apply (in_get String.eqb String.eqb_eq) in Hin.
  - pose proof (spend_get trip expenses (initial trip) c Hkey) as H.
    rewrite Hin, initial_zero in H. simpl in H. rewrite H. ring.
  - rewrite spend_keys. apply initial_NoDup.
Qed.

Lemma spendingByCountry_declared (expenses : list Expense) (trip : Trip) (c : string) :
  In c (countries trip) ->
  exists a, In (c, a) (spendingByCountry convert CURRENCY_TO_COUNTRY expenses trip)
            /\ a == countryTotal trip expenses c.
Proof.
  intros Hin. apply initial_keys in Hin.
  assert (Hkey : In c (map fst (spendingByCountry convert CURRENCY_TO_COUNTRY expenses trip))).
  { unfold CountrySpendChart.spendingByCountry. now rewrite spend_keys. }
  apply in_map_iff in Hkey. destruct Hkey as [[c' a] [Hc Ha]]. simpl in Hc. subst c'.
  exists a. split; [exact Ha|]. now apply spendingByCountry_entry in Ha.
Qed.

(** The bars of the chart, when it is not suppressed. *)
Lemma chartData_in (expenses : list Expense) (trip : Trip) (b : Bar) :
  In b (chartData convert CURRENCY_TO_COUNTRY expenses trip)
  <-> (1 < List.length (countries trip))%nat
      /\ In (country b, amount b) (spendingByCountry convert CURRENCY_TO_COUNTRY expenses trip)
      /\ 0 < amount b.
Proof.
  unfold CountrySpendChart.chartData.
  destruct (Nat.leb_spec (List.length (countries trip)) 1) as [Hle|Hgt].
  - split; [intros [] | intros [H _]; lia].
  - rewrite sort_in, filter_In, in_map_iff, Qlt_bool_iff.
    split.
    + intros [[[c a] [<- Hin]] Hpos]. simpl in *. auto.
    + intros [_ [Hin Hpos]]. split; [|exact Hpos].
      exists (country b, amount b). split; [now destruct b | exact Hin].
Qed.

End CountryFacts.

Section CountryChart.

Import CountrySpendChart.

Local Open Scope Q_scope.

Variable convert : Converter.
Variable CURRENCY_TO_COUNTRY : string -> option string.


(** C10: with at most one declared country there are no bars; otherwise a
    declared country has a bar exactly when the converted amount of its
    expenses is positive. *)
Theorem country_series_suppressed (expenses : list Expense) (trip : Trip) :
  let data := chartData convert CURRENCY_TO_COUNTRY expenses trip in
  ((List.length (countries trip) <= 1)%nat -> data = [])
  /\ (forall b, In b data ->
                (2 <= List.length (countries trip))%nat
                /\ In (country b) (countries trip)
                /\ 0 < amount b
                /\ 0 < countryTotal convert CURRENCY_TO_COUNTRY trip expenses (country b))
  /\ ((2 <= List.length (countries trip))%nat ->
      forall c, In c (countries trip) ->
                0 < countryTotal convert CURRENCY_TO_COUNTRY trip expenses c ->
                exists b, In b data /\ country b = c
                          /\ amount b
                             == countryTotal convert CURRENCY_TO_COUNTRY trip expenses c).
Proof.
  intros data. split; [|split].
  - intros Hle. unfold data, chartData.
    destruct (Nat.leb_spec (List.length (countries trip)) 1); [reflexivity | lia].
  - intros b Hb. apply chartData_in in Hb. destruct Hb as [Hlen [Hin Hpos]].
    apply spendingByCountry_entry in Hin. destruct Hin as [Hc Ha].
    repeat split; [lia | exact Hc | exact Hpos | now rewrite <- Ha].
  - intros Hlen c Hc Hpos.
    destruct (spendingByCountry_declared convert CURRENCY_TO_COUNTRY expenses trip c Hc)
      as [a [Hin Ha]].
    exists (mkBar c a). split; [|split; [reflexivity | exact Ha]].
    apply chartData_in. simpl. split; [lia|]. split; [exact Hin | now rewrite Ha].
Qed.

End CountryChart.

Section CountryChartExamples.

Import CountrySpendChart.

Local Open Scope string_scope.


(** A trip that declares one country has no bars, whatever was spent. *)
Lemma country_series_suppressed_witness :
  chartData Example.convert Example.CURRENCY_TO_COUNTRY Example.expenses
    (mkTrip Example.jan1 (Example.jan1 + 9) "EUR" 1000 ["Italy"])
  = [].
Proof.
  refine (proj1 (country_series_suppressed Example.convert Example.CURRENCY_TO_COUNTRY
                   Example.expenses
                   (mkTrip Example.jan1 (Example.jan1 + 9) "EUR" 1000 ["Italy"])) _).
  simpl. lia.
Defined.

End CountryChartExamples.

(** ** C9: when no payload is built *)

Section Payloads.

Variable convert : Converter.
Variable today : Z.

(** C9: with fewer than three expenses neither builder yields a payload,
    and the forecast builder yields none once the trip end is in the past,
    however many expenses there are; in every other case a payload is
    built. *)
Theorem payload_not_applicable (expenses : list Expense) (trip : Trip) :
  ((List.length expenses < 3)%nat ->
   AIInsights.dataSummary convert expenses trip = None
   /\ AIForecast.analysisData convert today expenses trip = None)
  /\ ((JSDate.ofDateString (endDate trip) < today)%Z ->
      AIForecast.analysisData convert today expenses trip = None)
  /\ ((3 <= List.length expenses)%nat ->
      AIInsights.dataSummary convert expenses trip <> None
      /\ ((today <= JSDate.ofDateString (endDate trip))%Z ->
          AIForecast.analysisData convert today expenses trip <> None)).
Proof.
  unfold AIInsights.dataSummary, AIForecast.analysisData.
  split; [|split].
  - intros Hlt. apply Nat.ltb_lt in Hlt. now rewrite Hlt.
  - intros Hpast. destruct (List.length expenses <? 3)%nat; [reflexivity|].
    apply Z.ltb_lt in Hpast. now rewrite Hpast.
  - intros Hge. apply Nat.ltb_ge in Hge. rewrite Hge. split.
    + destruct expenses as [|first rest]; [simpl in Hge; discriminate | discriminate].
    + intros Hnot. apply Z.ltb_ge in Hnot. rewrite Hnot. discriminate.
Qed.

End Payloads.

(** Two expenses are not enough for either payload. *)
Lemma payload_not_applicable_witness :
  AIInsights.dataSummary Example.convert (firstn 2 Example.expenses) Example.trip = None
  /\ AIForecast.analysisData Example.convert (Example.noon (Example.jan1 + 4))
       (firstn 2 Example.expenses) Example.trip = None.
Proof.
  refine (proj1 (payload_not_applicable Example.convert (Example.noon (Example.jan1 + 4))
                   (firstn 2 Example.expenses) Example.trip) _).
  simpl. lia.
Defined.

(* ================================================================== *)
(** * Further properties of the components *)

(** ** Category tiles and category slices *)

Section SortMap.

Context {A B : Type}.
Variable cmpA : A -> A -> Q.
Variable cmpB : B -> B -> Q.
Variable f : A -> B.
Hypothesis cmp_f : forall a b, cmpB (f a) (f b) = cmpA a b.

Lemma insert_map (x : A) (l : list A) :
  map f (JS.insert cmpA x l) = JS.insert cmpB (f x) (map f l).
Proof.
  induction l as [|y l IH]; simpl; [reflexivity|].
  rewrite cmp_f. destruct (Qle_bool (cmpA x y) 0); simpl; [reflexivity|].
  now rewrite IH.
Qed.

(** Sorting commutes with a map that the comparators agree on. *)
Lemma sort_map (l : list A) : map f (JS.sort cmpA l) = JS.sort cmpB (map f l).
Proof.
  induction l as [|x l IH]; simpl; [reflexivity|].
  now rewrite insert_map, IH.
Qed.

End SortMap.

Section CategoryTiles.

Import ExpenseTreemap.

Local Open Scope Q_scope.

Variable convert : Converter.

Lemma spending_total_fold (trip : Trip) (l : list Expense) (m : list (string * Q)) (t : Q) :
  fold_left (step convert trip) l (m, t)
  = (group String.eqb category (converted convert trip) l m,
     fold_left (fun sum e => sum + converted convert trip e) l t).
Proof.
  revert m t. induction l as [|e l IH]; intros m t; simpl; [reflexivity|].
  now rewrite IH.
Qed.

Lemma treemap_spending (expenses : list Expense) (trip : Trip) :
  fst (spending_total convert expenses trip)
  = CategoryChart.spending convert expenses trip.
Proof. unfold spending_total. now rewrite spending_total_fold. Qed.

Lemma treemap_total (expenses : list Expense) (trip : Trip) :
  totalAmount convert expenses trip == totalConverted convert trip expenses.
Proof.
  unfold totalAmount, spending_total. rewrite spending_total_fold. simpl.
  rewrite fold_add_sum. unfold totalConverted. ring.
Qed.

(** X1: the treemap and the pie chart show the same categories with the
    same amounts in the same order, and the treemap's running total is the
    total the pie chart's shares are taken of. *)
Theorem treemap_agrees_with_category_chart
  (categories : list Category) (expenses : list Expense) (trip : Trip) :
  map (fun n => (name n, size n)) (treemapData convert expenses trip)
  = map (fun s => (CategoryChart.name s, CategoryChart.amount s))
      (CategoryChart.dataByCategory convert categories expenses trip)
  /\ totalAmount convert expenses trip
     == CategoryChart.totalSpent convert expenses trip.
Proof.
  split.
  - unfold treemapData, CategoryChart.dataByCategory.
    rewrite treemap_spending.
    rewrite (sort_map _ (fun a b : string * Q => snd b - snd a)
               (fun n => (name n, size n))) by reflexivity.
    rewrite (sort_map _ (fun a b : string * Q => snd b - snd a)
               (fun s => (CategoryChart.name s, CategoryChart.amount s)))
      by reflexivity.
    rewrite !map_map. f_equal.
    apply map_ext. intros [k a]. reflexivity.
  - now rewrite treemap_total, totalSpent_total.
Qed.

(** X2: the tiles split the total: there is one tile per category that
    occurs, it holds the converted amount of that category, the tiles are
    in descending order of size and their sizes add up to [totalAmount];
    there is no tile exactly when there is no expense. *)
Theorem treemap_tiles (expenses : list Expense) (trip : Trip) :
  let data := treemapData convert expenses trip in
  NoDup (map name data)
  /\ (forall c, In c (map name data) <-> exists e, In e expenses /\ category e = c)
  /\ (forall n, In n data -> size n == categoryTotal convert trip expenses (name n))
  /\ StronglySorted (descending size) data
  /\ JS.sum (map size data) == totalAmount convert expenses trip
  /\ (data = [] <-> expenses = []).
Proof.
  intros data.
  assert (Hperm : Permutation data
                    (map (fun '(k, a) => mkNode k a)
                       (CategoryChart.spending convert expenses trip))).
  { unfold data, treemapData. rewrite treemap_spending. apply sort_perm. }
  assert (Hnames : Permutation (map name data)
                     (map fst (CategoryChart.spending convert expenses trip))).
  { rewrite (Permutation_map name Hperm), map_map.
    erewrite map_ext; [reflexivity|]. now intros [k a]. }
  assert (Hkeys : forall c, In c (map fst (CategoryChart.spending convert expenses trip))
                            <-> exists e, In e expenses /\ category e = c).
  { intros c. rewrite spending_group, (group_keys String.eqb String.eqb_eq).
    simpl. intuition. }
  split; [|split; [|split; [|split; [|split]]]].
  - eapply Permutation_NoDup; [symmetry; exact Hnames|].
    rewrite spending_group. apply (group_NoDup String.eqb String.eqb_eq). constructor.
  - intros c. rewrite <- Hkeys. split; apply Permutation_in; [|symmetry]; exact Hnames.
  - intros n Hn. apply (Permutation_in _ Hperm) in Hn.
    apply in_map_iff in Hn. destruct Hn as [[k a] [<- Hin]]. simpl.
    rewrite spending_group in Hin.
    now apply (group_entry String.eqb String.eqb_eq) in Hin.
  - apply sort_descending.
  - rewrite (sum_perm _ _ (Permutation_map size Hperm)), map_map.
    rewrite treemap_total, <- totalSpent_total. unfold CategoryChart.totalSpent.
    apply sum_map_eq. now intros [k a].
  - split.
    + intros Hnil. destruct expenses as [|e l]; [reflexivity|]. exfalso.
      assert (H : In (category e) (map name data)).
      { apply Permutation_in with (1 := Permutation_sym Hnames).
        apply Hkeys. exists e. split; [now left | reflexivity]. }
      rewrite Hnil in H. exact H.
    + intros ->. reflexivity.
Qed.

End CategoryTiles.

Section CategorySlices.

Import CategoryChart.

Local Open Scope Q_scope.

Variable convert : Converter.
Variable categories : list Category.

Lemma dataByCategory_names (expenses : list Expense) (trip : Trip) :
  Permutation (map name (dataByCategory convert categories expenses trip))
    (map fst (spending convert expenses trip)).
Proof.
  unfold dataByCategory.
  rewrite (Permutation_map name (sort_perm _ _)), map_map.
  erewrite map_ext; [reflexivity|]. now intros [k a].
Qed.

Lemma dataByCategory_name_iff (expenses : list Expense) (trip : Trip) (c : string) :
  In c (map name (dataByCategory convert categories expenses trip))
  <-> exists e, In e expenses /\ category e = c.
Proof.
  transitivity (In c (map fst (spending convert expenses trip))).
  - split; apply Permutation_in; [|symmetry]; apply dataByCategory_names.
  - rewrite spending_group, (group_keys String.eqb String.eqb_eq). simpl. intuition.
Qed.

(** X3: the pie chart has exactly one slice per category that occurs among
    the expenses, and the slices are in descending order of amount. *)
Theorem dataByCategory_slices (expenses : list Expense) (trip : Trip) :
  let data := dataByCategory convert categories expenses trip in
  NoDup (map name data)
  /\ (forall c, In c (map name data) <-> exists e, In e expenses /\ category e = c)
  /\ StronglySorted (descending amount) data.
Proof.
  intros data. split; [|split].
  - eapply Permutation_NoDup; [symmetry; apply dataByCategory_names|].
    rewrite spending_group. apply (group_NoDup String.eqb String.eqb_eq). constructor.
  - intros c. apply dataByCategory_name_iff.
  - apply sort_descending.
Qed.

End CategorySlices.

(** ** Category buttons *)

Section CategoryButtons.

Import DashboardSelection.

Lemma includes_In (l : list string) (c : string) :
  Dashboard.includes l c = true <-> In c l.
Proof.
  unfold Dashboard.includes. rewrite existsb_exists. split.
  - intros [x [Hin Heq]]. apply String.eqb_eq in Heq. now subst.
  - intros Hin. exists c. split; [exact Hin | apply String.eqb_refl].
Qed.

Lemma includes_false (l : list string) (c : string) :
  Dashboard.includes l c = false <-> ~ In c l.
Proof.
  rewrite <- includes_In. destruct (Dashboard.includes l c); split; congruence.
Qed.





End CategoryButtons.

Section CategoryToggle.

Import DashboardSelection.

Lemma in_remove_category (prev : list string) (category c : string) :
  In c (filter (fun x => negb (String.eqb x category)) prev)
  <-> In c prev /\ c <> category.
Proof.
  rewrite filter_In, negb_true_iff. split; intros [H1 H2]; split; trivial.
  - intros ->. rewrite String.eqb_refl in H2. discriminate.
  - now apply String.eqb_neq.
Qed.

Lemma handleCategoryToggle_In (prev : list string) (category c : string) :
  In c (handleCategoryToggle prev category)
  <-> (c = category /\ ~ In category prev) \/ (c <> category /\ In c prev).
Proof.
  unfold handleCategoryToggle.
  destruct (Dashboard.includes prev category) eqn:E.
  - apply includes_In in E. rewrite in_remove_category. tauto.
  - apply includes_false in E. rewrite in_app_iff. simpl.
    destruct (string_dec c category) as [->|Hne]; [tauto|].
    split; [intros [H|[H|[]]]; [tauto | congruence] | tauto].
Qed.

(** X5: a click on a category button flips that category in the selection
    and leaves every other category as it was; a selection without
    repetitions stays without repetitions. *)
Theorem handleCategoryToggle_flips (prev : list string) (category : string) :
  (In category (handleCategoryToggle prev category) <-> ~ In category prev)
  /\ (forall c, c <> category ->
                (In c (handleCategoryToggle prev category) <-> In c prev))
  /\ (NoDup prev -> NoDup (handleCategoryToggle prev category)).
Proof.
  split; [|split].
  - rewrite handleCategoryToggle_In. tauto.
  - intros c Hne. rewrite handleCategoryToggle_In. tauto.
  - intros Hnd. unfold handleCategoryToggle.
    destruct (Dashboard.includes prev category) eqn:E.
    + now apply NoDup_filter.
    + apply includes_false in E.
      apply NoDup_app; [exact Hnd | repeat constructor; intros [] |].
      intros a Ha [Hb|[]]. now subst.
Qed.

Lemma categoryOk_ext (s1 s2 : list string) (e : Expense) :
  (s1 = [] <-> s2 = []) ->
  (forall c, In c s1 <-> In c s2) ->
  categoryOk s1 e = categoryOk s2 e.
Proof.
  intros Hnil Hin. unfold categoryOk.
  destruct s1 as [|a s1], s2 as [|b s2]; try reflexivity.
  - destruct Hnil as [H _]. specialize (H eq_refl). discriminate.
  - destruct Hnil as [_ H]. specialize (H eq_refl). discriminate.
  - apply eq_true_iff_eq. rewrite !includes_In. apply Hin.
Qed.

(** X6: two clicks on the same category button leave the filtered list as
    it was, whatever the selection and the date filter. *)
Theorem handleCategoryToggle_twice
  (tz now : Z) (dateFilter : Dashboard.DateFilter)
  (prev : list string) (category : string) (l : list Expense) :
  Dashboard.filterExpenses tz now dateFilter
    (handleCategoryToggle (handleCategoryToggle prev category) category) l
  = Dashboard.filterExpenses tz now dateFilter prev l.
Proof.
  rewrite !filterExpenses_filter. apply filter_ext. intros e. f_equal.
  apply categoryOk_ext.
  - destruct (in_dec string_dec category prev) as [Hin|Hnot].
    + split.
      * intros H.
        assert (Hc : In category
                       (handleCategoryToggle (handleCategoryToggle prev category) category)).
        { rewrite !handleCategoryToggle_In. tauto. }
        rewrite H in Hc. destruct Hc.
      * intros ->. destruct Hin.
    + assert (E : handleCategoryToggle (handleCategoryToggle prev category) category = prev).
      { unfold handleCategoryToggle at 2.
        apply includes_false in Hnot. rewrite Hnot. unfold handleCategoryToggle.
        assert (Hinc : Dashboard.includes (prev ++ [category]) category = true).
        { apply includes_In, in_app_iff. right. now left. }
        rewrite Hinc, filter_app. simpl. rewrite String.eqb_refl. simpl.
        rewrite app_nil_r. apply includes_false in Hnot.
        clear Hinc. induction prev as [|a prev IH]; simpl; [reflexivity|].
        destruct (String.eqb_spec a category) as [->|Hne]; simpl.
        - exfalso. apply Hnot. now left.
        - f_equal. apply IH. intros H. apply Hnot. now right. }
      now rewrite E.
  - intros c. rewrite !handleCategoryToggle_In.
    destruct (string_dec c category) as [->|Hne]; tauto.
Qed.

End CategoryToggle.

(** ** Per-day totals *)

(** The converted amount of the expenses dated on UTC day [d]. *)
Definition dayTotal (convert : Converter) (trip : Trip) (expenses : list Expense)
  (d : Z) : Q :=
  JS.sum (map (converted convert trip)
            (filter (fun e => (JSDate.isoDate (date e) =? d)%Z) expenses)).

Section DayTables.

Local Open Scope Q_scope.

Variable convert : Converter.

Lemma dailySpending_group (expenses : list Expense) (trip : Trip) :
  AdvancedBudgetChart.dailySpending convert expenses trip
  = group Z.eqb (fun e => JSDate.isoDate (date e)) (converted convert trip) expenses [].
Proof. reflexivity. Qed.

Lemma dailyData_fold (trip : Trip) (l : list Expense) (st : list (Z * Q) * Q) :
  fst (fold_left (ExpenseCalendarHeatmap.dailyStep convert trip) l st)
  = group Z.eqb (fun e => JSDate.isoDate (date e)) (converted convert trip) l (fst st).
Proof.
  revert st. induction l as [|e l IH]; intros [data max]; simpl; [reflexivity|].
  now rewrite IH.
Qed.

Lemma fold_left_map {A B C : Type} (f : C -> B -> C) (g : A -> B) (l : list A) (c : C) :
  fold_left f (map g l) c = fold_left (fun c a => f c (g a)) l c.
Proof.
  revert c. induction l as [|a l IH]; intros c; simpl; [reflexivity|]. apply IH.
Qed.


(** X7: every component that groups by day builds the same table: the
    two budget charts, the daily bar chart, the heatmap and the statistics
    agree on the days that occur, on their order and on every day's total,
    which is the converted amount of the expenses of that UTC day. *)
Theorem day_tables_agree (expenses : list Expense) (trip : Trip) :
  let table := AdvancedBudgetChart.dailySpending convert expenses trip in
  BudgetTrendChart.dailySpending convert expenses trip = table
  /\ DailySpendChart.spendingByDay convert expenses trip = table
  /\ ExpenseCalendarHeatmap.dailyData convert expenses trip = table
  /\ StatsSummary.spendingByDay convert expenses trip = table
  /\ NoDup (map fst table)
  /\ (forall d a, In (d, a) table -> a == dayTotal convert trip expenses d)
  /\ (forall d, In d (map fst table)
                <-> exists e, In e expenses /\ JSDate.isoDate (date e) = d).
Proof.
  intros table. unfold table.
  split; [reflexivity|]. split; [reflexivity|].
  split; [|split; [|split; [|split]]].
  - unfold ExpenseCalendarHeatmap.dailyData, ExpenseCalendarHeatmap.dailyData_maxSpend.
    now rewrite dailyData_fold.
  - unfold StatsSummary.spendingByDay, StatsSummary.expensesInMainCurrency.
    now rewrite fold_left_map.
  - rewrite dailySpending_group. apply (group_NoDup Z.eqb Z.eqb_eq). constructor.
  - intros d a Hin. rewrite dailySpending_group in Hin.
    apply (group_entry Z.eqb Z.eqb_eq) in Hin. exact Hin.
  - intros d. rewrite dailySpending_group, (group_keys Z.eqb Z.eqb_eq). simpl. intuition.
Qed.

End DayTables.

(** ** The cumulative line *)

(** [f s + f (s + 1) + ... + f (s + n - 1)]. *)
Definition sumDays (f : Z -> Q) (s : Z) (n : nat) : Q :=
  JS.sum (map (fun i => f (s + Z.of_nat i)%Z) (seq 0 n)).

Section Cumulative.

Import JSDate AdvancedBudgetChart.

Local Open Scope Q_scope.




Lemma sumDays_nonneg (f : Z -> Q) (s : Z) (n : nat) :
  (forall d, 0 <= f d) -> 0 <= sumDays f s n.
Proof.
  intros H. unfold sumDays. apply sum_nonneg, Forall_map, Forall_forall.
  intros i _. apply H.
Qed.


Variable tz : Z.


End Cumulative.


Section CumulativeLine.

Import JSDate AdvancedBudgetChart.

Local Open Scope Q_scope.

Variable convert : Converter.









End CumulativeLine.

Section TrendChart.

Import JSDate.

Variable convert : Converter.
Variable tz : Z.

(** The fields the two budget charts share. *)
Definition trendFields (p : BudgetTrendChart.DataPoint) : Z * Q * Q :=
  (BudgetTrendChart.fullDate p, BudgetTrendChart.SpesaReale p,
   BudgetTrendChart.SpesaIdeale p).

Definition budgetFields (p : AdvancedBudgetChart.DataPoint) : Z * Q * Q :=
  (AdvancedBudgetChart.fullDate p, AdvancedBudgetChart.SpesaCumulativa p,
   AdvancedBudgetChart.BudgetCumulativoIdeale p).

Lemma trend_loop_agrees :
  forall fuel burn sp last cur de cum,
    map trendFields (BudgetTrendChart.loop tz fuel burn sp last cur de cum)
    = map budgetFields (AdvancedBudgetChart.loop tz fuel burn sp last cur de cum).
Proof.
  induction fuel as [|fuel IH]; intros burn sp last cur de cum; simpl; [reflexivity|].
  destruct (cur <=? last)%Z; simpl; [|reflexivity].
  now rewrite IH.
Qed.

(** X10: the trend chart and the detailed budget chart draw the same
    line: the same days, the same cumulative spending and the same ideal
    budget, point by point. *)
Theorem trend_agrees_with_budget_chart
  (now : Z) (expenses : list Expense) (trip : Trip) :
  map trendFields (BudgetTrendChart.chartData convert tz now expenses trip)
  = map budgetFields (AdvancedBudgetChart.chartData convert tz now expenses trip).
Proof.
  unfold BudgetTrendChart.chartData, AdvancedBudgetChart.chartData.
  cbv zeta.
  match goal with
  | |- context [if ?c then [] else _] => destruct c
  end; [reflexivity|].
  apply trend_loop_agrees.
Qed.

End TrendChart.

(** ** The daily bars *)

Lemma JSDate_msPerDay_le (a b : Z) :
  (a * JSDate.msPerDay - b * JSDate.msPerDay <= 0 <-> a <= b)%Z.
Proof. rewrite msPerDay_value. lia. Qed.

Section SortedBy.

Context {A : Type}.
Variable cmp : A -> A -> Q.
Variable R : A -> A -> Prop.
Hypothesis cmp_R : forall a b, Qle_bool (cmp a b) 0 = true <-> R a b.
Hypothesis R_total : forall a b, R a b \/ R b a.
Hypothesis R_trans : forall a b c, R a b -> R b c -> R a c.

Lemma insert_sorted_by (x : A) (l : list A) :
  StronglySorted R l -> StronglySorted R (JS.insert cmp x l).
Proof.
  induction 1 as [|y l Hsorted IH Hall]; simpl.
  - repeat constructor.
  - destruct (Qle_bool (cmp x y) 0) eqn:E.
    + apply cmp_R in E.
      constructor; [now constructor|].
      constructor; [exact E|].
      eapply Forall_impl; [|exact Hall]. intros z Hz. now apply R_trans with y.
    + assert (Hyx : R y x).
      { destruct (R_total x y) as [H|H]; [|exact H].
        apply cmp_R in H. congruence. }
      constructor; [exact IH|].
      eapply Permutation_Forall; [symmetry; apply insert_perm|].
      now constructor.
Qed.

(** A comparator that decides a total preorder sorts by it. *)
Lemma sort_sorted_by (l : list A) : StronglySorted R (JS.sort cmp l).
Proof.
  induction l as [|x l IH]; simpl; [constructor | now apply insert_sorted_by].
Qed.

End SortedBy.

Lemma sorted_strict {A : Type} (key : A -> Z) (l : list A) :
  StronglySorted (fun a b => (key a <= key b)%Z) l ->
  NoDup (map key l) ->
  StronglySorted (fun a b => (key a < key b)%Z) l.
Proof.
  induction 1 as [|x l Hsorted IH Hall]; intros Hnd; [constructor|].
  simpl in Hnd. inversion Hnd as [|? ? Hnotin Hnd']; subst.
  constructor; [now apply IH|].
  rewrite Forall_forall in *. intros y Hy.
  specialize (Hall y Hy).
  assert (key x <> key y); [|lia].
  intros Heq. apply Hnotin. rewrite Heq. now apply in_map.
Qed.

Section DailyBars.

Import DailySpendChart.

Local Open Scope Q_scope.

Variable convert : Converter.

Lemma dailyBars_perm (expenses : list Expense) (trip : Trip) :
  Permutation (chartData convert expenses trip)
    (map (fun '(d, a) => mkBar d a) (spendingByDay convert expenses trip)).
Proof.
  unfold chartData. destruct expenses as [|e l]; [reflexivity|].
  cbn [List.length Nat.eqb]. apply sort_perm.
Qed.

(** X11: the daily chart has one bar per UTC day on which something was
    spent, in strictly ascending order of date; a bar holds the converted
    amount of its day, the bars add up to the converted total, and there is
    no bar exactly when there is no expense. *)
Theorem dailyBars_by_day (expenses : list Expense) (trip : Trip) :
  let data := chartData convert expenses trip in
  StronglySorted (fun a b => (date a < date b)%Z) data
  /\ (forall d, In d (map date data)
                <-> exists e, In e expenses /\ JSDate.isoDate (Types.date e) = d)
  /\ (forall b, In b data -> amount b == dayTotal convert trip expenses (date b))
  /\ JS.sum (map amount data) == totalConverted convert trip expenses
  /\ (data = [] <-> expenses = []).
Proof.
  intros data.
  pose proof (dailyBars_perm expenses trip) as Hperm. fold data in Hperm.
  assert (Htable : spendingByDay convert expenses trip
                   = group Z.eqb (fun e => JSDate.isoDate (Types.date e))
                       (converted convert trip) expenses []) by reflexivity.
  assert (Hdates : Permutation (map date data)
                     (map fst (spendingByDay convert expenses trip))).
  { rewrite (Permutation_map date Hperm), map_map.
    erewrite map_ext; [reflexivity|]. now intros [d a]. }
  assert (Hkeys : forall d, In d (map date data)
                            <-> exists e, In e expenses /\ JSDate.isoDate (Types.date e) = d).
  { intros d. transitivity (In d (map fst (spendingByDay convert expenses trip))).
    - split; apply Permutation_in; [|symmetry]; exact Hdates.
    - rewrite Htable, (group_keys Z.eqb Z.eqb_eq). simpl. intuition. }
  split; [|split; [|split; [|split]]].
  - apply sorted_strict.
    + unfold data, chartData.
      destruct (List.length expenses =? 0)%nat; [constructor|].
      apply sort_sorted_by.
      * intros a b. rewrite Qle_bool_iff. change 0 with (inject_Z 0).
        rewrite <- Zle_Qle. unfold JSDate.ofDateString.
        rewrite JSDate_msPerDay_le. reflexivity.
      * intros a b. lia.
      * intros a b c. lia.
    + eapply Permutation_NoDup; [symmetry; exact Hdates|].
      rewrite Htable. apply (group_NoDup Z.eqb Z.eqb_eq). constructor.
  - exact Hkeys.
  - intros b Hb. apply (Permutation_in _ Hperm) in Hb.
    apply in_map_iff in Hb. destruct Hb as [[d a] [<- Hin]]. simpl.
    rewrite Htable in Hin. now apply (group_entry Z.eqb Z.eqb_eq) in Hin.
  - rewrite (sum_perm _ _ (Permutation_map amount Hperm)), map_map.
    rewrite (sum_map_eq _ snd) by now intros [d a].
    rewrite Htable, group_sum. simpl. rewrite sum_nil. unfold totalConverted. ring.
  - split.
    + intros Hnil. destruct expenses as [|e l]; [reflexivity|]. exfalso.
      assert (H : In (JSDate.isoDate (Types.date e)) (map date data)).
      { apply Hkeys. exists e. split; [now left | reflexivity]. }
      rewrite Hnil in H. exact H.
    + intros ->. reflexivity.
Qed.

End DailyBars.

(** ** The day detail and the category detail *)

Section DayDetail.

Import JSDate DashboardSelection.

Local Open Scope Q_scope.

Variable convert : Converter.


End DayDetail.

Section CategoryDrillDown.

Import CategoryDetail.

Local Open Scope Q_scope.

Variable convert : Converter.
Variable categories : list Category.

Lemma newestFirst_total (a b : Expense) : newestFirst a b \/ newestFirst b a.
Proof. unfold newestFirst. lia. Qed.

Lemma newestFirst_trans (a b c : Expense) :
  newestFirst a b -> newestFirst b c -> newestFirst a c.
Proof. unfold newestFirst. lia. Qed.

(** X13: a click on a slice lists exactly the expenses of its category,
    newest first, and their converted amounts add up to the amount of the
    slice; without a selection, and for a slice whose name is empty, the
    list is empty. *)
Theorem detailedExpenses_of_slice
  (expenses : list Expense) (trip : Trip) (s : CategoryChart.Slice) :
  In s (CategoryChart.dataByCategory convert categories expenses trip) ->
  CategoryChart.name s <> EmptyString ->
  let detail := detailedExpenses (Some (CategoryChart.name s)) expenses in
  Permutation detail
    (filter (fun e => String.eqb (category e) (CategoryChart.name s)) expenses)
  /\ StronglySorted newestFirst detail
  /\ totalConverted convert trip detail == CategoryChart.amount s
  /\ detail <> []
  /\ detailedExpenses None expenses = []
  /\ detailedExpenses (Some EmptyString) expenses = [].
Proof.
  intros Hs Hname detail.
  assert (E : detail
              = JS.sort (fun a b => inject_Z (date b - date a))
                  (filter (fun e => String.eqb (category e) (CategoryChart.name s))
                     expenses)).
  { unfold detail, detailedExpenses.
    destruct (CategoryChart.name s); [congruence | reflexivity]. }
  assert (Hperm : Permutation detail
                    (filter (fun e => String.eqb (category e) (CategoryChart.name s))
                       expenses)).
  { rewrite E. apply sort_perm. }
  split; [exact Hperm|]. split; [|split; [|split; [|split]]].
  - rewrite E. apply sort_sorted_by.
    + apply newestFirst_cmp.
    + apply newestFirst_total.
    + apply newestFirst_trans.
  - unfold totalConverted.
    rewrite (sum_perm _ _ (Permutation_map (converted convert trip) Hperm)).
    apply dataByCategory_in in Hs. destruct Hs as [c [a [Hin ->]]]. simpl.
    rewrite spending_group in Hin.
    apply (group_entry String.eqb String.eqb_eq) in Hin. now rewrite Hin.
  - intros Hnil. rewrite Hnil in Hperm. apply Permutation_nil in Hperm.
    assert (Hc : In (CategoryChart.name s)
                   (map CategoryChart.name
                      (CategoryChart.dataByCategory convert categories expenses trip)))
      by now apply in_map.
    apply dataByCategory_name_iff in Hc. destruct Hc as [e [He Hc]].
    assert (Hin : In e (filter (fun e => String.eqb (category e) (CategoryChart.name s))
                          expenses)).
    { apply filter_In. split; [exact He | now apply String.eqb_eq]. }
    rewrite Hperm in Hin. exact Hin.
  - reflexivity.
  - reflexivity.
Qed.

End CategoryDrillDown.

(** ** The calendar grid *)

Section GridFacts.

Import JSDate CalendarGrid.

Local Open Scope Z_scope.

Variable tz : Z.

Lemma grid_loop_stop fuel dd last cur :
  last < cur -> loop tz fuel dd last cur = [].
Proof.
  intros H. destruct fuel as [|fuel]; simpl; [reflexivity|].
  destruct (Z.leb_spec cur last); [lia | reflexivity].
Qed.

Lemma grid_loop_step fuel dd last cur :
  cur <= last ->
  loop tz (S fuel) dd last cur
  = day cur (JS.orZero (JS.get Z.eqb dd (isoDate cur)))
    :: loop tz fuel dd last (cur + msPerDay).
Proof.
  intros H. simpl. destruct (Z.leb_spec cur last); [|lia].
  now rewrite setDate_next.
Qed.

Lemma grid_loop_length :
  forall fuel dd last cur,
    enough fuel last cur ->
    Z.of_nat (List.length (loop tz fuel dd last cur))
    = if cur <=? last then (last - cur) / msPerDay + 1 else 0.
Proof.
  induction fuel as [|fuel IH]; intros dd last cur He.
  - destruct (Z.leb_spec cur last) as [Hc|Hc]; [|reflexivity].
    specialize (He Hc).
    assert (0 <= (last - cur) / msPerDay) by (apply Z.div_pos; [lia | reflexivity]).
    simpl in He. lia.
  - destruct (Z.leb_spec cur last) as [Hc|Hc].
    + rewrite grid_loop_step by assumption.
      cbn [List.length]. rewrite Nat2Z.inj_succ, IH by now apply enough_next.
      destruct (Z.leb_spec (cur + msPerDay) last) as [Hn|Hn].
      * rewrite days_left_next. lia.
      * rewrite (Z.div_small (last - cur)) by lia. reflexivity.
    + now rewrite grid_loop_stop.
Qed.

Lemma grid_loop_nth :
  forall fuel dd last cur k c,
    nth_error (loop tz fuel dd last cur) k = Some c ->
    c = day (cur + Z.of_nat k * msPerDay)
          (JS.orZero (JS.get Z.eqb dd (isoDate (cur + Z.of_nat k * msPerDay)))).
Proof.
  induction fuel as [|fuel IH]; intros dd last cur k c H.
  - destruct k; discriminate.
  - destruct (Z.le_gt_cases cur last) as [Hc|Hc].
    + rewrite grid_loop_step in H by assumption.
      destruct k as [|k].
      * injection H as <-. simpl. now rewrite Z.add_0_r.
      * cbn [nth_error] in H. apply IH in H. rewrite H.
        replace (cur + msPerDay + Z.of_nat k * msPerDay)
          with (cur + Z.of_nat (S k) * msPerDay) by lia.
        reflexivity.
    + rewrite grid_loop_stop in H by assumption. destruct k; discriminate.
Qed.

Lemma firstDayOfWeek_range (trip : Trip) : 0 <= firstDayOfWeek tz trip < 7.
Proof. unfold firstDayOfWeek. apply Z.mod_pos_bound. reflexivity. Qed.

(** The cells of the grid: the blanks of the first week, then the days. *)
Lemma calendarGrid_nth (dd : list (Z * Q)) (trip : Trip) (i : nat) (c : Cell) :
  nth_error (calendarGrid tz dd trip) i = Some c ->
  (Z.of_nat i < firstDayOfWeek tz trip /\ c = empty)
  \/ (exists k,
        Z.of_nat i = firstDayOfWeek tz trip + Z.of_nat k
        /\ c = day (setHours tz (ofDateString (startDate trip)) 0 0 0 0
                    + Z.of_nat k * msPerDay)
                 (JS.orZero
                    (JS.get Z.eqb dd
                       (isoDate (setHours tz (ofDateString (startDate trip)) 0 0 0 0
                                 + Z.of_nat k * msPerDay))))).
Proof.
  intros H. unfold calendarGrid in H.
  pose proof (firstDayOfWeek_range trip) as Hr.
  destruct (Nat.lt_ge_cases i (Z.to_nat (firstDayOfWeek tz trip))) as [Hlt|Hge].
  - left. split; [lia|].
    rewrite nth_error_app1 in H by now rewrite repeat_length.
    apply nth_error_In, repeat_spec in H. exact H.
  - right. rewrite nth_error_app2 in H by now rewrite repeat_length.
    rewrite repeat_length in H.
    exists (i - Z.to_nat (firstDayOfWeek tz trip))%nat. split; [lia|].
    now apply grid_loop_nth in H.
Qed.

(** X14: the grid opens with between zero and six blank cells, none when
    the trip starts on a Monday of the local zone, and after them every
    cell is a day cell that sits in the column of its own local weekday,
    Monday being column 0. *)
Theorem calendarGrid_columns (dd : list (Z * Q)) (trip : Trip) (i : nat) (c : Cell) :
  nth_error (calendarGrid tz dd trip) i = Some c ->
  0 <= firstDayOfWeek tz trip < 7
  /\ (firstDayOfWeek tz trip = 0 <-> getDay tz (ofDateString (startDate trip)) = 1)
  /\ (c = empty <-> Z.of_nat i < firstDayOfWeek tz trip)
  /\ (forall t a, c = day t a -> Z.of_nat i mod 7 = (getDay tz t + 6) mod 7).
Proof.
  intros H. pose proof (firstDayOfWeek_range trip) as Hr.
  split; [exact Hr|]. split; [|split].
  - unfold firstDayOfWeek, getDay.
    set (d := Day (LocalTime tz (ofDateString (startDate trip)))).
    split; intros E; Z.div_mod_to_equations; lia.
  - apply calendarGrid_nth in H. destruct H as [[Hlt ->]|[k [Hi ->]]].
    + tauto.
    + split; [discriminate | lia].
  - intros t a ->. apply calendarGrid_nth in H.
    destruct H as [[_ H]|[k [Hi H]]]; [discriminate|].
    injection H as -> _. rewrite Hi.
    unfold firstDayOfWeek, getDay, LocalTime. rewrite setHours_startOfDay.
    replace (Day (ofDateString (startDate trip) + tz) * msPerDay - tz
             + Z.of_nat k * msPerDay + tz)
      with ((Day (ofDateString (startDate trip) + tz) + Z.of_nat k) * msPerDay) by lia.
    unfold Day at 2. rewrite Z.div_mul by discriminate.
    set (d := Day (ofDateString (startDate trip) + tz)).
    Z.div_mod_to_equations. lia.
Qed.

End GridFacts.

Section GridDays.

Import JSDate CalendarGrid.

Local Open Scope Z_scope.

Variable convert : Converter.

(** X15: for a trip with [startDate <= endDate], in a zone less than a
    day from UTC, the grid has one day cell per day of the trip after its
    blanks.  In UTC the [k]-th day cell is day [k] of the trip and shows
    the spending of that day.  Away from UTC it shows the spending of UTC
    day [k - 1] of the trip; its own local date is day [k] of the trip
    east of UTC and day [k - 1] west of it. *)
Theorem calendarGrid_days (tz : Z) (expenses : list Expense) (trip : Trip) :
  startDate trip <= endDate trip ->
  - msPerDay < tz < msPerDay ->
  let grid :=
    calendarGrid tz (ExpenseCalendarHeatmap.dailyData convert expenses trip) trip in
  let blanks := Z.to_nat (firstDayOfWeek tz trip) in
  Z.of_nat (List.length grid)
  = firstDayOfWeek tz trip + (endDate trip - startDate trip + 1)
  /\ (forall k c,
        nth_error grid (blanks + k) = Some c ->
        exists t,
          c = day t (ExpenseCalendarHeatmap.amountOn convert expenses trip
                       (startDate trip + Z.of_nat k - (if tz =? 0 then 0 else 1)))
          /\ Day (LocalTime tz t)
             = startDate trip + Z.of_nat k - (if tz <? 0 then 1 else 0)).
Proof.
  intros Hle Htz grid blanks.
  pose proof (firstDayOfWeek_range tz trip) as Hr.
  rewrite msPerDay_value in Htz.
  split.
  - unfold grid, calendarGrid.
    rewrite length_app, repeat_length, Nat2Z.inj_add, Z2Nat.id by lia.
    rewrite grid_loop_length by apply enough_fuelFor.
    rewrite setHours_startOfDay.
    unfold Day, ofDateString. rewrite msPerDay_value.
    destruct (Z.leb_spec
                ((startDate trip * 86400000 + tz) / 86400000 * 86400000 - tz)
                (endDate trip * 86400000)) as [H|H];
      Z.div_mod_to_equations; lia.
  - intros k c Hc. apply calendarGrid_nth in Hc.
    destruct Hc as [[Hlt _]|[k' [Hi ->]]]; [unfold blanks in Hlt; lia|].
    assert (k' = k) by (unfold blanks in Hi; lia). subst k'.
    eexists. split.
    + f_equal. unfold ExpenseCalendarHeatmap.amountOn. do 2 f_equal.
      rewrite setHours_startOfDay.
      unfold isoDate, Day, ofDateString. rewrite msPerDay_value.
      destruct (Z.eqb_spec tz 0); Z.div_mod_to_equations; lia.
    + unfold LocalTime. rewrite setHours_startOfDay.
      unfold Day, ofDateString. rewrite msPerDay_value.
      destruct (Z.ltb_spec tz 0); Z.div_mod_to_equations; lia.
Qed.

End GridDays.

(** ** The summary cards and the budget bar *)

From Stdlib Require Import Lqa.

Section SummaryCards.

Import JSDate DashboardStats.

Local Open Scope Q_scope.

Variable convert : Converter.
Variable now : Z.

Lemma Qceiling_le_Z (x : Q) (n : Z) : x <= inject_Z n -> (Qceiling x <= n)%Z.
Proof. intros H. rewrite <- (Qceiling_Z n). now apply Qceiling_resp_le. Qed.

Lemma days_quotient (a b : Z) :
  inject_Z (a * msPerDay - b * msPerDay) / inject_Z (1000 * 3600 * 24)
  == inject_Z (a - b).
Proof.
  replace (a * msPerDay - b * msPerDay)%Z with ((a - b) * msPerDay)%Z by ring.
  rewrite inject_Z_mult. change (1000 * 3600 * 24)%Z with msPerDay.
  field. discriminate.
Qed.

Lemma daysElapsed_min (trip : Trip) : (1 <= daysElapsed now trip)%Z.
Proof. unfold daysElapsed. cbv zeta. apply Z.le_max_l. Qed.

(** X16: the cards show the converted total, a remaining amount that adds
    up with it to the budget, and a daily average that is the total divided
    by a number of days that is at least 1: the days stay at 1 up to the
    start of the trip, never exceed the length of the trip in days (or 1),
    and stay at that length once the trip is over. *)
Theorem stats_cards (trip : Trip) (expenses : list Expense) :
  let st := stats convert now (Some (trip, expenses)) in
  let days := daysElapsed now trip in
  totalSpent st == totalConverted convert trip expenses
  /\ totalSpent st + remaining st == totalBudget trip
  /\ (1 <= days)%Z
  /\ dailyAvg st * inject_Z days == totalSpent st
  /\ ((startDate trip <= endDate trip)%Z ->
      (days <= Z.max 1 (endDate trip - startDate trip))%Z)
  /\ ((startDate trip <= endDate trip)%Z ->
      (now <= ofDateString (startDate trip))%Z ->
      days = 1%Z /\ dailyAvg st == totalSpent st)
  /\ ((ofDateString (endDate trip) < now)%Z ->
      days = Z.max 1 (endDate trip - startDate trip)).
Proof.
  intros st days.
  pose proof (daysElapsed_min trip) as Hmin. fold days in Hmin.
  assert (Hdays : ~ inject_Z days == 0).
  { intros H. apply (proj1 (inject_Z_injective _ 0)) in H. lia. }
  assert (Hafter : (ofDateString (endDate trip) < now ->
                    days = Z.max 1 (endDate trip - startDate trip))%Z).
  { intros H. unfold days, daysElapsed. cbv zeta.
    apply Z.ltb_lt in H. rewrite H. unfold ofDateString.
    now rewrite days_quotient, Qceiling_Z. }
  assert (Hbefore : (startDate trip <= endDate trip ->
                     now <= ofDateString (startDate trip) -> days = 1)%Z).
  { intros Hle H. unfold days, daysElapsed. cbv zeta.
    assert (Hend : (ofDateString (endDate trip) <? now)%Z = false).
    { apply Z.ltb_ge. unfold ofDateString in *. rewrite msPerDay_value in *. lia. }
    rewrite Hend.
    destruct (Z.ltb_spec now (ofDateString (startDate trip))) as [Hlt|Hge].
    - reflexivity.
    - replace now with (ofDateString (startDate trip)) by lia.
      now rewrite Z.sub_diag. }
  split; [|split; [|split; [|split; [|split; [|split]]]]].
  - change (totalSpent st)
      with (fold_left (fun sum e => sum + converted convert trip e) expenses 0).
    rewrite fold_add_sum. unfold totalConverted. ring.
  - unfold st. simpl. ring.
  - exact Hmin.
  - unfold st. simpl. fold days. field. exact Hdays.
  - intros Hle.
    destruct (Z.lt_ge_cases (ofDateString (endDate trip)) now) as [H|H].
    + rewrite (Hafter H). lia.
    + destruct (Z.le_gt_cases now (ofDateString (startDate trip))) as [H1|H1].
      * rewrite (Hbefore Hle H1). lia.
      * unfold days, daysElapsed. cbv zeta.
        apply Z.ltb_ge in H. rewrite H.
        assert (H2 : (now <? ofDateString (startDate trip))%Z = false)
          by (apply Z.ltb_ge; lia).
        rewrite H2. apply Z.max_lub; [lia|].
        apply Z.le_trans with (endDate trip - startDate trip)%Z; [|lia].
        apply Qceiling_le_Z. apply Z.ltb_ge in H.
        rewrite <- (days_quotient (endDate trip) (startDate trip)).
        unfold Qdiv. apply Qmult_le_compat_r; [|discriminate].
        rewrite <- Zle_Qle. unfold ofDateString in *. lia.
  - intros Hle H. split; [now apply Hbefore|].
    unfold st. simpl. fold days. rewrite (Hbefore Hle H). field.
  - exact Hafter.
Qed.

Lemma percent_le_0 (r B : Q) : 0 < B -> (r / B * 100 <= 0 <-> r <= 0).
Proof.
  intros HB.
  assert (E : r == (r / B) * B) by (field; intros H; rewrite H in HB; discriminate).
  set (q := r / B) in *. split; intros H.
  - rewrite E. nra.
  - assert (q * B <= 0) by (rewrite <- E; exact H). nra.
Qed.

Lemma percent_lt_25 (r B : Q) : 0 < B -> (r / B * 100 < 25 <-> r * 4 < B).
Proof.
  intros HB.
  assert (E : r == (r / B) * B) by (field; intros H; rewrite H in HB; discriminate).
  set (q := r / B) in *. split; intros H.
  - rewrite E. nra.
  - assert (q * B * 4 < B) by (rewrite <- E; exact H). nra.
Qed.

(** X17: the budget bar is red exactly when there is no budget or the
    spending has reached it, amber exactly when less than a quarter of a
    positive budget is left, and blue otherwise; its width is always
    between 0 and 100 percent and is the remaining percentage whenever that
    lies in this range. *)
Theorem budget_bar (trip : Trip) (expenses : list Expense) :
  let st := stats convert now (Some (trip, expenses)) in
  let pct := remainingBudgetPercentage trip st in
  (progressBarColor pct = bg_error
   <-> totalBudget trip <= 0 \/ totalBudget trip <= totalSpent st)
  /\ (progressBarColor pct = bg_tertiary
      <-> 0 < totalBudget trip /\ 0 < remaining st
          /\ remaining st * 4 < totalBudget trip)
  /\ (progressBarColor pct = bg_primary
      <-> 0 < totalBudget trip /\ totalBudget trip <= remaining st * 4)
  /\ 0 <= progressBarWidth pct <= 100
  /\ (0 <= pct <= 100 -> progressBarWidth pct == pct).
Proof.
  intros st pct.
  assert (Hrem : remaining st == totalBudget trip - totalSpent st) by reflexivity.
  assert (Hcol : (progressBarColor pct = bg_error <-> pct <= 0)
                 /\ (progressBarColor pct = bg_tertiary <-> 0 < pct /\ pct < 25)
                 /\ (progressBarColor pct = bg_primary <-> 25 <= pct)).
  { unfold progressBarColor. cbv zeta.
    destruct (Qle_bool pct 0) eqn:E0; destruct (JS.Qlt_bool pct 25) eqn:E25.
    - apply Qle_bool_iff in E0. apply Qlt_bool_iff in E25.
      repeat split; try discriminate; try tauto; intros; exfalso; lra.
    - apply Qle_bool_iff in E0.
      repeat split; try discriminate; try tauto; intros; exfalso; lra.
    - apply Qlt_bool_iff in E25.
      assert (0 < pct).
      { apply Qnot_le_lt. intros H. apply Qle_bool_iff in H. congruence. }
      repeat split; try discriminate; try tauto; intros; exfalso; lra.
    - assert (0 < pct).
      { apply Qnot_le_lt. intros H. apply Qle_bool_iff in H. congruence. }
      assert (25 <= pct).
      { apply Qnot_lt_le. intros H'. apply Qlt_bool_iff in H'. congruence. }
      repeat split; try discriminate; try tauto; intros; exfalso; lra. }
  destruct Hcol as [Herr [Hter Hpri]].
  assert (Hpct : (0 < totalBudget trip /\ pct == remaining st / totalBudget trip * 100)
                 \/ (totalBudget trip <= 0 /\ pct == 0)).
  { unfold pct, remainingBudgetPercentage.
    destruct (JS.Qlt_bool 0 (totalBudget trip)) eqn:E.
    - apply Qlt_bool_iff in E. left. split; [exact E | reflexivity].
    - right. split; [|reflexivity].
      apply Qnot_lt_le. intros H. apply Qlt_bool_iff in H. congruence. }
  split; [|split; [|split; [|split]]].
  - rewrite Herr. destruct Hpct as [[HB E]|[HB E]]; rewrite E.
    + rewrite (percent_le_0 _ _ HB), Hrem. split; intros H; [right|]; lra.
    + split; intros H; [now left | lra].
  - rewrite Hter. destruct Hpct as [[HB E]|[HB E]]; rewrite E.
    + rewrite (percent_lt_25 _ _ HB).
      assert (H0 : 0 < remaining st / totalBudget trip * 100 <-> 0 < remaining st).
      { pose proof (percent_le_0 (remaining st) _ HB) as H.
        split; intros H'.
        - apply Qnot_le_lt. intros Hn. apply H in Hn. lra.
        - apply Qnot_le_lt. intros Hn. apply H in Hn. lra. }
      rewrite H0. tauto.
    + split; intros H; exfalso; lra.
  - rewrite Hpri. destruct Hpct as [[HB E]|[HB E]]; rewrite E.
    + pose proof (percent_lt_25 (remaining st) _ HB) as H.
      split.
      * intros H'. split; [exact HB|]. apply Qnot_lt_le. intros Hn.
        apply H in Hn. lra.
      * intros [_ H']. apply Qnot_lt_le. intros Hn. apply H in Hn. lra.
    + split; intros H; exfalso; lra.
  - unfold progressBarWidth. split.
    + apply Q.le_max_l.
    + apply Q.max_lub; [discriminate | apply Q.le_min_r].
  - intros [H0 H100]. unfold progressBarWidth.
    rewrite (Q.min_l pct 100) by exact H100. now apply Q.max_r.
Qed.

End SummaryCards.

(** ** The reply of the narrative service *)

Section TrimFacts.

Import JSString.

Lemma trimStart_idem (s : jsstring) : trimStart (trimStart s) = trimStart s.
Proof.
  induction s as [|c s IH]; simpl; [reflexivity|].
  destruct (isWhiteSpace c) eqn:E; [exact IH|]. simpl. now rewrite E.
Qed.

Lemma trimStart_app (l m : jsstring) (c : N) :
  isWhiteSpace c = false -> trimStart (l ++ c :: m) = trimStart l ++ c :: m.
Proof.
  intros Hc. induction l as [|a l IH]; simpl.
  - now rewrite Hc.
  - destruct (isWhiteSpace a); [exact IH | reflexivity].
Qed.

Lemma trimEnd_cons (c : N) (s : jsstring) :
  isWhiteSpace c = false -> trimEnd (c :: s) = c :: trimEnd s.
Proof.
  intros Hc. unfold trimEnd. simpl.
  rewrite trimStart_app by assumption.
  rewrite rev_app_distr. reflexivity.
Qed.

Lemma trimEnd_idem (s : jsstring) : trimEnd (trimEnd s) = trimEnd s.
Proof. unfold trimEnd. now rewrite rev_involutive, trimStart_idem. Qed.

Lemma trimStart_head (s : jsstring) :
  trimStart s = [] \/ exists c s', trimStart s = c :: s' /\ isWhiteSpace c = false.
Proof.
  induction s as [|c s IH]; simpl; [now left|].
  destruct (isWhiteSpace c) eqn:E; [exact IH|].
  right. exists c, s. now split.
Qed.

(** Trimming twice is trimming once. *)
Lemma trim_idem (s : jsstring) : trim (trim s) = trim s.
Proof.
  unfold trim.
  destruct (trimStart_head s) as [E|[c [s' [E Hc]]]]; rewrite E.
  - reflexivity.
  - rewrite trimEnd_cons by assumption. simpl. rewrite Hc.
    rewrite <- trimEnd_cons by assumption. apply trimEnd_idem.
Qed.

Lemma startsWith_app (p r : jsstring) : startsWith (p ++ r) p = true.
Proof.
  induction p as [|a p IH]; simpl; [now destruct r|].
  now rewrite N.eqb_refl, IH.
Qed.

Lemma startsWith_prefix (s p : jsstring) :
  startsWith s p = true <-> exists r, s = p ++ r.
Proof.
  split.
  - revert s. induction p as [|a p IH]; intros s H.
    + now exists s.
    + destruct s as [|b s]; [discriminate|]. simpl in H.
      apply andb_true_iff in H. destruct H as [H1 H2].
      apply N.eqb_eq in H1. subst b.
      destruct (IH s H2) as [r ->]. now exists r.
  - intros [r ->]. apply startsWith_app.
Qed.

End TrimFacts.

Section FencedReply.

Import JSString AIResponse.

Lemma substring_fenced (rest : jsstring) :
  (3 <= List.length rest)%nat ->
  substring (fenceOpen ++ rest) 7
    (Z.of_nat (List.length (fenceOpen ++ rest)) - 3)
  = firstn (List.length rest - 3) rest.
Proof.
  intros Hlen. unfold substring. cbv zeta. rewrite length_app.
  change (List.length fenceOpen) with 7%nat.
  set (len := Z.of_nat (7 + List.length rest)).
  assert (Hl : len = (7 + Z.of_nat (List.length rest))%Z) by (unfold len; lia).
  replace (Z.min (Z.max 7 0) len) with 7%Z by lia.
  replace (Z.min (Z.max (len - 3) 0) len) with (len - 3)%Z by lia.
  replace (Z.min 7 (len - 3)) with 7%Z by lia.
  replace (Z.max 7 (len - 3)) with (len - 3)%Z by lia.
  replace (Z.to_nat (len - 3 - 7)) with (List.length rest - 3)%nat by lia.
  reflexivity.
Qed.

(** X18: the text handed to [JSON.parse] never has white space at either
    end.  A reply that does not open with the fence passes through
    trimmed.  A reply that opens with it loses the seven code units of
    the fence and its last three code units, whatever they are, so a
    reply wrapped in a fence is reduced to its trimmed body; when fewer
    than three code units follow the opening fence, what is left is the
    tail of the fence itself. *)
Theorem jsonString_fence :
  (forall text, trim (jsonString text) = jsonString text)
  /\ (forall text,
        startsWith (trim text) fenceOpen = false -> jsonString text = trim text)
  /\ (forall text rest,
        trim text = fenceOpen ++ rest -> (3 <= List.length rest)%nat ->
        jsonString text = trim (firstn (List.length rest - 3) rest))
  /\ (forall text body,
        trim text = fenceOpen ++ body ++ fenceClose -> jsonString text = trim body)
  /\ (forall text rest,
        trim text = fenceOpen ++ rest -> (List.length rest < 3)%nat ->
        jsonString text = skipn (4 + List.length rest) fenceOpen).
Proof.
  assert (Hfenced : forall text rest,
            trim text = fenceOpen ++ rest -> (3 <= List.length rest)%nat ->
            jsonString text = trim (firstn (List.length rest - 3) rest)).
  { intros text rest E Hlen. unfold jsonString. cbv zeta.
    rewrite E, startsWith_app. now rewrite substring_fenced. }
  split; [|split; [|split; [|split]]].
  - intros text. unfold jsonString. cbv zeta.
    destruct (startsWith (trim text) fenceOpen); apply trim_idem.
  - intros text H. unfold jsonString. cbv zeta. now rewrite H.
  - exact Hfenced.
  - intros text body E.
    rewrite (Hfenced text (body ++ fenceClose) E).
    + rewrite length_app. change (List.length fenceClose) with 3%nat.
      replace (List.length body + 3 - 3)%nat with (List.length body + 0)%nat by lia.
      now rewrite firstn_app_2, app_nil_r.
    + rewrite length_app. simpl. lia.
  - intros text rest E Hlen. unfold jsonString. cbv zeta.
    rewrite E, startsWith_app.
    destruct rest as [|a [|b [|c rest]]]; [reflexivity .. | simpl in Hlen; lia].
Qed.

End FencedReply.

(** ** The numbers of the payloads *)

Section Rounding.

Import Payload.

Local Open Scope Q_scope.

Lemma round_cents (y : Q) :
  y - (1 # 200) <= inject_Z (Qfloor (y * 100 + (1 # 2))) / 100 <= y + (1 # 200).
Proof.
  pose proof (Qfloor_le (y * 100 + (1 # 2))) as H1.
  pose proof (Qlt_floor (y * 100 + (1 # 2))) as H2.
  rewrite inject_Z_plus in H2.
  set (f := inject_Z (Qfloor (y * 100 + (1 # 2)))) in *.
  assert (E : f / 100 == f * (1 # 100)) by (field; discriminate).
  rewrite E. change (inject_Z 1) with 1 in H2. split; lra.
Qed.

Lemma toFixed2_cases (x : Q) :
  (x < 0 /\ toFixed2 x = - (inject_Z (Qfloor (- x * 100 + (1 # 2))) / 100))
  \/ (0 <= x /\ toFixed2 x = inject_Z (Qfloor (x * 100 + (1 # 2))) / 100).
Proof.
  unfold toFixed2. destruct (JS.Qlt_bool x 0) eqn:E.
  - left. split; [now apply Qlt_bool_iff | reflexivity].
  - right. split; [|reflexivity].
    apply Qnot_lt_le. intros H. apply Qlt_bool_iff in H. congruence.
Qed.

Lemma toFixed2_close (x : Q) : x - (1 # 200) <= toFixed2 x <= x + (1 # 200).
Proof.
  destruct (toFixed2_cases x) as [[_ E]|[_ E]]; rewrite E.
  - pose proof (round_cents (- x)). split; lra.
  - apply round_cents.
Qed.

(** X19: [parseFloat(x.toFixed(2))] is a whole number of hundredths within
    half a hundredth of [x], has the sign of [x] or is 0, and leaves a
    whole number of hundredths as it is. *)
Theorem toFixed2_rounds (x : Q) :
  (exists n : Z, toFixed2 x == inject_Z n / 100)
  /\ Qabs (toFixed2 x - x) <= 1 # 200
  /\ (0 <= x -> 0 <= toFixed2 x)
  /\ (x <= 0 -> toFixed2 x <= 0)
  /\ (forall n : Z, toFixed2 (inject_Z n / 100) == inject_Z n / 100).
Proof.
  assert (Hpos : forall y, 0 <= y -> 0 <= inject_Z (Qfloor (y * 100 + (1 # 2))) / 100).
  { intros y Hy.
    assert (H : (0 <= Qfloor (y * 100 + (1 # 2)))%Z).
    { change 0%Z with (Qfloor 0). apply Qfloor_resp_le. lra. }
    rewrite Zle_Qle in H.
    set (f := inject_Z (Qfloor (y * 100 + (1 # 2)))) in *.
    assert (E : f / 100 == f * (1 # 100)) by (field; discriminate).
    rewrite E. change (inject_Z 0) with 0 in H. lra. }
  assert (Hwhole : forall n : Z,
            inject_Z (Qfloor (inject_Z n / 100 * 100 + (1 # 2))) / 100
            == inject_Z n / 100).
  { intros n.
    assert (E : Qfloor (inject_Z n / 100 * 100 + (1 # 2)) = n).
    { assert (E1 : inject_Z n / 100 * 100 + (1 # 2) == inject_Z n + (1 # 2))
        by (field; discriminate).
      rewrite E1.
      pose proof (Qfloor_le (inject_Z n + (1 # 2))) as H1.
      pose proof (Qlt_floor (inject_Z n + (1 # 2))) as H2.
      assert (Hlo : (n <= Qfloor (inject_Z n + (1 # 2)))%Z).
      { rewrite <- (Qfloor_Z n) at 1. apply Qfloor_resp_le. lra. }
      assert (Hhi : (Qfloor (inject_Z n + (1 # 2)) < n + 1)%Z).
      { rewrite Zlt_Qlt, inject_Z_plus. change (inject_Z 1) with 1. lra. }
      lia. }
    now rewrite E. }
  split; [|split; [|split; [|split]]].
  - destruct (toFixed2_cases x) as [[_ E]|[_ E]]; rewrite E.
    + exists (- Qfloor (- x * 100 + (1 # 2)))%Z. rewrite inject_Z_opp.
      field.
    + eexists. reflexivity.
  - apply Qabs_Qle_condition. pose proof (toFixed2_close x). split; lra.
  - intros Hx. destruct (toFixed2_cases x) as [[Hneg _]|[_ E]]; [lra|].
    rewrite E. now apply Hpos.
  - intros Hx. destruct (toFixed2_cases x) as [[Hneg E]|[Hge E]]; rewrite E.
    + assert (0 <= - x) by lra. pose proof (Hpos (- x) H). lra.
    + assert (Hz : x == 0) by lra.
      assert (E0 : Qfloor (x * 100 + (1 # 2)) = 0%Z).
      { rewrite Hz. reflexivity. }
      rewrite E0. discriminate.
  - intros n. destruct (toFixed2_cases (inject_Z n / 100)) as [[Hneg E]|[_ E]]; rewrite E.
    + assert (E1 : - (inject_Z n / 100) == inject_Z (- n) / 100).
      { rewrite inject_Z_opp. field. }
      assert (E2 : Qfloor (- (inject_Z n / 100) * 100 + (1 # 2))
                   = Qfloor (inject_Z (- n) / 100 * 100 + (1 # 2))).
      { apply Qfloor_comp. now rewrite E1. }
      rewrite E2, Hwhole, inject_Z_opp. field.
    + apply Hwhole.
Qed.

End Rounding.

Section InsightPayload.

Import AIInsights.

Local Open Scope Q_scope.

Variable convert : Converter.




End InsightPayload.

Section ForecastPayload.

Import JSDate AIForecast.

Local Open Scope Q_scope.

Variable convert : Converter.
Variable today : Z.

(** X21: whenever a forecast payload is built, the trip is not over and
    there are at least three expenses; the days elapsed are at least 1 and
    the days remaining are not negative; for a trip with
    [startDate <= endDate] the total is the number of calendar days of the
    trip and splits into a whole number of elapsed days and the remaining
    ones; the excerpt holds the first fifteen expenses or all of them, and
    the daily average is the converted total over the days elapsed, to
    within half a hundredth. *)
Theorem analysisData_payload (expenses : list Expense) (trip : Trip) (a : AnalysisData) :
  analysisData convert today expenses trip = Some a ->
  (3 <= List.length expenses)%nat
  /\ (today <= ofDateString (endDate trip))%Z
  /\ (1 <= daysElapsed a)%Z
  /\ 0 <= daysRemaining a
  /\ ((startDate trip <= endDate trip)%Z ->
      totalDays a == inject_Z (endDate trip - startDate trip + 1)
      /\ (daysElapsed a <= endDate trip - startDate trip + 1)%Z
      /\ inject_Z (daysElapsed a) + daysRemaining a == totalDays a)
  /\ List.length (recentExpenses a) = Nat.min 15 (List.length expenses)
  /\ Qabs (currentDailyAvg a
           - totalConverted convert trip expenses / inject_Z (daysElapsed a))
     <= 1 # 200.
Proof.
  intros H. unfold analysisData in H.
  destruct (Nat.ltb_spec (List.length expenses) 3) as [Hlt|Hge]; [discriminate|].
  destruct (Z.ltb_spec (ofDateString (endDate trip)) today) as [Hp|Hp]; [discriminate|].
  injection H as <-.
  cbn [daysElapsed daysRemaining totalDays recentExpenses currentDailyAvg].
  set (x := inject_Z (today - ofDateString (startDate trip))
            / inject_Z (1000 * 3600 * 24) + 1).
  set (T := Qmax 1 (inject_Z (ofDateString (endDate trip) - ofDateString (startDate trip))
                    / inject_Z (1000 * 3600 * 24) + 1)).
  assert (Hel : (1 <= Z.max 1 (Qceiling x))%Z) by apply Z.le_max_l.
  split; [exact Hge|]. split; [exact Hp|]. split; [exact Hel|].
  split; [apply Q.le_max_l|]. split; [|split].
  - intros Hle.
    assert (HT : T == inject_Z (endDate trip - startDate trip + 1)).
    { unfold T, ofDateString. rewrite days_quotient.
      rewrite Q.max_r.
      - rewrite inject_Z_plus. reflexivity.
      - change 1 with (inject_Z 1). rewrite <- inject_Z_plus, <- Zle_Qle. lia. }
    assert (Hx : x <= inject_Z (endDate trip - startDate trip + 1)).
    { unfold x. rewrite inject_Z_plus. change (inject_Z 1) with 1.
      apply Qplus_le_l.
      rewrite <- (days_quotient (endDate trip) (startDate trip)).
      unfold Qdiv. apply Qmult_le_compat_r; [|discriminate].
      rewrite <- Zle_Qle. unfold ofDateString in *. lia. }
    assert (Hd : (Z.max 1 (Qceiling x) <= endDate trip - startDate trip + 1)%Z).
    { apply Z.max_lub; [lia|]. now apply Qceiling_le_Z. }
    split; [exact HT|]. split; [exact Hd|].
    rewrite Zle_Qle in Hd.
    rewrite Q.max_r; [ring|].
    change (0 <= T - inject_Z (Z.max 1 (Qceiling x))). lra.
  - rewrite length_map. exact (length_firstn 15 expenses).
  - apply Qabs_Qle_condition.
    match goal with
    | |- context [Payload.toFixed2 (?s / _)] => set (S := s)
    end.
    assert (Hs : S == 0 + JS.sum (map (converted convert trip) expenses))
      by exact (fold_add_sum (converted convert trip) expenses 0).
    assert (Hs' : S == totalConverted convert trip expenses).
    { rewrite Hs. unfold totalConverted. ring. }
    rewrite <- Hs'.
    change (- (1 # 200)
            <= Payload.toFixed2 (S / inject_Z (Z.max 1 (Qceiling x)))
               - S / inject_Z (Z.max 1 (Qceiling x))
            <= 1 # 200).
    pose proof (toFixed2_close (S / inject_Z (Z.max 1 (Qceiling x)))) as Hc.
    split; lra.
Qed.

End ForecastPayload.

(** ** The highlights of a list that is not empty *)

Section FirstMaximum.

Local Open Scope Q_scope.

Context {A : Type}.
Variable key : A -> Q.

(** [x] is the first element of [l] with the largest key. *)
Definition firstMax (l : list A) (x : A) : Prop :=
  exists l1 l2,
    l = l1 ++ x :: l2
    /\ (forall y, In y l1 -> key y < key x)
    /\ (forall y, In y l2 -> key y <= key x).

(** Element [0] of the array sorted by descending key is the first maximum:
    the sort is stable. *)
Lemma sort_head_firstMax (l : list A) (x : A) :
  hd_error (JS.sort (fun a b => key b - key a) l) = Some x -> firstMax l x.
Proof.
  revert x. induction l as [|a l IH]; intros x H; [discriminate|].
  simpl in H.
  destruct (JS.sort (fun a b => key b - key a) l) as [|y s] eqn:E.
  - simpl in H. injection H as <-.
    assert (l = []).
    { apply Permutation_nil. rewrite <- E. apply sort_perm. }
    subst l. exists [], []. repeat split; intros y [].
  - specialize (IH y eq_refl). destruct IH as [l1 [l2 [El [H1 H2]]]].
    simpl in H. destruct (Qle_bool (key y - key a) 0) eqn:Ec.
    + injection H as <-. apply Qle_bool_iff in Ec.
      assert (Hya : key y <= key a) by lra.
      exists [], l. split; [reflexivity|]. split; [intros z []|].
      intros z Hz. rewrite El in Hz. apply in_app_iff in Hz.
      destruct Hz as [Hz|[<-|Hz]].
      * specialize (H1 z Hz). lra.
      * exact Hya.
      * specialize (H2 z Hz). lra.
    + injection H as <-.
      assert (Hay : key a < key y).
      { apply Qnot_le_lt. intros Hle.
        assert (Qle_bool (key y - key a) 0 = true); [|congruence].
        apply Qle_bool_iff. lra. }
      exists (a :: l1), l2. split; [now rewrite El|]. split; [|exact H2].
      intros z [<-|Hz]; [exact Hay | now apply H1].
Qed.

Lemma firstMax_max (l : list A) (x : A) :
  firstMax l x -> In x l /\ forall y, In y l -> key y <= key x.
Proof.
  intros [l1 [l2 [-> [H1 H2]]]]. split.
  - apply in_app_iff. right. now left.
  - intros y Hy. apply in_app_iff in Hy. destruct Hy as [Hy|[<-|Hy]].
    + apply Qlt_le_weak. now apply H1.
    + apply Qle_refl.
    + now apply H2.
Qed.

End FirstMaximum.

Section LargestExpense.

Import StatsSummary.

Local Open Scope Q_scope.

Variable convert : Converter.
Variable categories : list Category.

Lemma sum_le_max (f : Expense -> Q) (l : list Expense) (m : Q) :
  (forall e, In e l -> f e <= m) ->
  JS.sum (map f l) <= inject_Z (Z.of_nat (List.length l)) * m.
Proof.
  induction l as [|a l IH]; intros H.
  - cbn [map List.length]. rewrite sum_nil. change (0 <= 0 * m). lra.
  - cbn [map List.length]. rewrite sum_cons, Nat2Z.inj_succ.
    unfold Z.succ. rewrite inject_Z_plus. change (inject_Z 1) with 1.
    assert (f a <= m) by (apply H; now left).
    assert (JS.sum (map f l) <= inject_Z (Z.of_nat (List.length l)) * m).
    { apply IH. intros e He. apply H. now right. }
    lra.
Qed.

(** X22: the largest expense is an expense of the list with its converted
    amount; no expense has a larger converted amount, and among those with
    the same amount it is the one that comes first; the mean never exceeds
    it. *)
Theorem largestExpense_first_maximum
  (expenses : list Expense) (trip : Trip) (top : ExpenseInMain) :
  largestExpense (summary convert categories expenses trip) = Some top ->
  mainAmount top = converted convert trip (expense top)
  /\ firstMax (converted convert trip) expenses (expense top)
  /\ (forall e, In e expenses -> converted convert trip e <= mainAmount top)
  /\ (forall avg, avgTransaction (summary convert categories expenses trip) = Some avg ->
                  avg <= mainAmount top).
Proof.
  intros H. unfold summary in H.
  destruct expenses as [|e0 l0] eqn:El; [discriminate|]. rewrite <- El in *.
  assert (Hlen : (List.length expenses =? 0)%nat = false) by now rewrite El.
  rewrite Hlen in H. cbn [largestExpense] in H.
  apply sort_head_firstMax in H. destruct H as [m1 [m2 [Em [H1 H2]]]].
  unfold expensesInMainCurrency in Em.
  apply map_eq_app in Em. destruct Em as [l1 [l2' [E1 [Em1 Em2]]]].
  apply map_eq_cons in Em2. destruct Em2 as [e [l2 [E2 [Etop Em2]]]].
  subst l2' m1 m2 top. cbn [mainAmount expense] in *.
  assert (Hfirst : firstMax (converted convert trip) expenses e).
  { exists l1, l2. split; [exact E1|]. split.
    - intros y Hy.
      apply (H1 (mkExpenseInMain y (convert (amount y) (currency y) (mainCurrency trip)))).
      apply in_map_iff. now exists y.
    - intros y Hy.
      apply (H2 (mkExpenseInMain y (convert (amount y) (currency y) (mainCurrency trip)))).
      apply in_map_iff. now exists y. }
  split; [reflexivity|]. split; [exact Hfirst|].
  destruct (firstMax_max _ _ _ Hfirst) as [_ Hmax].
  split; [exact Hmax|].
  intros avg Havg. unfold summary in Havg. rewrite Hlen in Havg.
  cbn [avgTransaction] in Havg. injection Havg as <-.
  pose proof (sum_le_max (converted convert trip) expenses
                (converted convert trip e) Hmax) as Hsum.
  assert (Hfold : fold_left (fun sum e => sum + mainAmount e)
                    (expensesInMainCurrency convert expenses trip) 0
                  == JS.sum (map (converted convert trip) expenses)).
  { rewrite fold_add_sum. unfold expensesInMainCurrency. rewrite map_map.
    unfold converted. simpl. ring. }
  rewrite Hfold.
  assert (Hn : 0 < inject_Z (Z.of_nat (List.length expenses))).
  { change 0 with (inject_Z 0). rewrite <- Zlt_Qlt. rewrite El. simpl. lia. }
  apply Qle_shift_div_r; [exact Hn|]. rewrite Qmult_comm. exact Hsum.
Qed.

End LargestExpense.

Section FirstSeen.

Local Open Scope Q_scope.

Context {K A : Type}.
Variable eqb : K -> K -> bool.
Hypothesis eqb_eq : forall x y, eqb x y = true <-> x = y.
Variable keyOf : A -> K.
Variable valueOf : A -> Q.

Lemma keys_set (m : list (K * Q)) (k : K) (v : Q) :
  map fst (JS.set eqb m k v) = map fst m
  \/ map fst (JS.set eqb m k v) = map fst m ++ [k].
Proof.
  induction m as [|[k1 v1] m IH]; simpl; [now right|].
  destruct (eqb k k1); simpl; [now left|].
  destruct IH as [-> | ->]; [now left | now right].
Qed.

(** A grouping only appends keys to the table it starts from. *)
Lemma group_keys_prefix (l : list A) (m : list (K * Q)) :
  exists s, map fst (group eqb keyOf valueOf l m) = map fst m ++ s.
Proof.
  revert m. induction l as [|a l IH]; intros m.
  - exists []. simpl. now rewrite app_nil_r.
  - unfold group in *. simpl.
    destruct (IH (JS.set eqb m (keyOf a)
                    (JS.orZero (JS.get eqb m (keyOf a)) + valueOf a))) as [s Hs].
    rewrite Hs.
    destruct (keys_set m (keyOf a) (JS.orZero (JS.get eqb m (keyOf a)) + valueOf a))
      as [-> | ->].
    + now exists s.
    + exists ([keyOf a] ++ s). now rewrite app_assoc.
Qed.

Lemma prefix_before (a b c s : list K) (k : K) :
  a ++ k :: b = c ++ s -> ~ In k c -> exists t, a = c ++ t.
Proof.
  revert a. induction c as [|x c IH]; intros a H Hk.
  - now exists a.
  - destruct a as [|y a]; simpl in H.
    + injection H as -> _. exfalso. apply Hk. now left.
    + injection H as -> H. destruct (IH a H) as [t ->].
      * intros Hin. apply Hk. now right.
      * now exists t.
Qed.

(** The keys of a grouping stand in the order in which the list first
    shows them: before the first element filed under the key of an entry
    there are only elements of the entries before it. *)
Lemma group_first_seen (l : list A) (m0 g1 g2 : list (K * Q)) (k : K) (v : Q) :
  group eqb keyOf valueOf l m0 = g1 ++ (k, v) :: g2 ->
  ~ In k (map fst m0) ->
  exists l1 e l2,
    l = l1 ++ e :: l2 /\ keyOf e = k
    /\ forall y, In y l1 -> In (keyOf y) (map fst g1).
Proof.
  revert m0. induction l as [|a l IH]; intros m0 H Hk.
  - simpl in H. exfalso. apply Hk. rewrite H, map_app, in_app_iff.
    right. now left.
  - set (m1 := JS.set eqb m0 (keyOf a)
                 (JS.orZero (JS.get eqb m0 (keyOf a)) + valueOf a)).
    change (group eqb keyOf valueOf l m1 = g1 ++ (k, v) :: g2) in H.
    assert (dec : forall x y : K, {x = y} + {x <> y}).
    { intros x y. destruct (eqb x y) eqn:E.
      - left. now apply eqb_eq.
      - right. intros ->. rewrite (eqb_refl eqb eqb_eq) in E. discriminate. }
    destruct (in_dec dec k (map fst m1)) as [Hin|Hnin].
    + unfold m1 in Hin. apply (in_keys_set eqb eqb_eq) in Hin.
      destruct Hin as [Hin|Hin]; [contradiction|].
      exists [], a, l. split; [reflexivity|]. split; [now symmetry|].
      intros y [].
    + destruct (IH m1 H Hnin) as [l1 [e [l2 [El [Ek Hl1]]]]].
      exists (a :: l1), e, l2. split; [now rewrite El|]. split; [exact Ek|].
      intros y [<-|Hy]; [|now apply Hl1].
      destruct (group_keys_prefix l m1) as [s Hs].
      rewrite H, map_app in Hs. simpl in Hs.
      destruct (prefix_before _ _ _ _ _ Hs Hnin) as [t Ht].
      rewrite Ht. apply in_app_iff. left.
      unfold m1. apply (in_keys_set eqb eqb_eq). now right.
Qed.

(** Element [0] of the entries sorted by descending value. *)
Lemma group_sort_head (l : list A) (k : K) (v : Q) :
  hd_error (JS.sort (fun a b => snd b - snd a) (group eqb keyOf valueOf l []))
  = Some (k, v) ->
  v == groupTotal eqb keyOf valueOf l k
  /\ (forall e, In e l -> groupTotal eqb keyOf valueOf l (keyOf e) <= v)
  /\ exists l1 e l2,
       l = l1 ++ e :: l2 /\ keyOf e = k
       /\ forall y, In y l1 -> groupTotal eqb keyOf valueOf l (keyOf y) < v.
Proof.
  intros H. apply sort_head_firstMax in H.
  destruct (firstMax_max _ _ _ H) as [Hin Hmax].
  destruct H as [g1 [g2 [Eg [H1 H2]]]].
  split; [now apply (group_entry eqb eqb_eq)|]. split.
  - intros e He.
    assert (Hk : In (keyOf e) (map fst (group eqb keyOf valueOf l []))).
    { apply (group_keys eqb eqb_eq). right. now exists e. }
    apply in_map_iff in Hk. destruct Hk as [[k' v'] [Ek Hk]]. simpl in Ek. subst k'.
    rewrite <- (group_entry eqb eqb_eq _ _ _ _ _ Hk).
    exact (Hmax _ Hk).
  - destruct (group_first_seen l [] g1 g2 k v Eg) as [l1 [e [l2 [El [Ek Hl1]]]]];
      [intros []|].
    exists l1, e, l2. split; [exact El|]. split; [exact Ek|].
    intros y Hy. specialize (Hl1 y Hy).
    apply in_map_iff in Hl1. destruct Hl1 as [[k' v'] [Ek' Hk']]. simpl in Ek'. subst k'.
    assert (Hing : In (keyOf y, v') (group eqb keyOf valueOf l [])).
    { rewrite Eg. apply in_app_iff. now left. }
    rewrite <- (group_entry eqb eqb_eq _ _ _ _ _ Hing).
    exact (H1 _ Hk').
Qed.

End FirstSeen.

(** The number of expenses of a category. *)
Definition categoryCount (expenses : list Expense) (c : string) : Q :=
  inject_Z (Z.of_nat
    (List.length (filter (fun e => String.eqb (category e) c) expenses))).

Section DayAndCategoryHighlights.

Import StatsSummary.

Local Open Scope Q_scope.

Variable convert : Converter.
Variable categories : list Category.

Lemma spendingByDay_group (expenses : list Expense) (trip : Trip) :
  spendingByDay convert expenses trip
  = group Z.eqb (fun e => JSDate.isoDate (date (expense e))) mainAmount
      (expensesInMainCurrency convert expenses trip) [].
Proof. reflexivity. Qed.

Lemma inMain_dayTotal (expenses : list Expense) (trip : Trip) (d : Z) :
  groupTotal Z.eqb (fun e => JSDate.isoDate (date (expense e))) mainAmount
    (expensesInMainCurrency convert expenses trip) d
  == dayTotal convert trip expenses d.
Proof.
  unfold groupTotal, dayTotal, expensesInMainCurrency.
  induction expenses as [|e l IH]; simpl; [reflexivity|].
  destruct (JSDate.isoDate (date e) =? d)%Z; simpl.
  - rewrite !sum_cons, IH. reflexivity.
  - exact IH.
Qed.

Lemma categoryCounts_group (expenses : list Expense) :
  categoryCounts expenses = group String.eqb category (fun _ => 1) expenses [].
Proof. reflexivity. Qed.

Lemma count_groupTotal (expenses : list Expense) (c : string) :
  groupTotal String.eqb category (fun _ => 1) expenses c
  == categoryCount expenses c.
Proof.
  unfold groupTotal, categoryCount.
  induction (filter (fun e => String.eqb (category e) c) expenses) as [|e l IH].
  - reflexivity.
  - cbn [map List.length]. rewrite sum_cons, IH, Nat2Z.inj_succ.
    unfold Z.succ. rewrite inject_Z_plus. change (inject_Z 1) with 1. ring.
Qed.

(** X23: the highest-spending day is a day on which the list has an
    expense; its amount is the converted total of the expenses of that UTC
    day, no day of the list has a larger total, and among the days with
    that total it is the one whose first expense comes first in the list. *)
Theorem highestSpendingDay_first_maximum
  (expenses : list Expense) (trip : Trip) (top : Day) :
  highestSpendingDay (summary convert categories expenses trip) = Some top ->
  dayAmount top == dayTotal convert trip expenses (dayDate top)
  /\ (forall e, In e expenses ->
        dayTotal convert trip expenses (JSDate.isoDate (date e)) <= dayAmount top)
  /\ exists l1 e l2,
       expenses = l1 ++ e :: l2
       /\ JSDate.isoDate (date e) = dayDate top
       /\ forall y, In y l1 ->
            dayTotal convert trip expenses (JSDate.isoDate (date y)) < dayAmount top.
Proof.
  intros H. unfold summary in H.
  destruct (List.length expenses =? 0)%nat; [discriminate|].
  cbn [highestSpendingDay] in H.
  destruct (hd_error (JS.sort (fun a b => snd b - snd a)
                        (spendingByDay convert expenses trip)))
    as [[k v]|] eqn:E; [|discriminate].
  simpl in H. injection H as <-. cbn [dayDate dayAmount].
  rewrite spendingByDay_group in E.
  apply (group_sort_head Z.eqb Z.eqb_eq) in E.
  destruct E as [Hv [Hmax [m1 [x [m2 [Em [Ek Hm1]]]]]]].
  split; [now rewrite Hv, inMain_dayTotal|]. split.
  - intros e He. rewrite <- inMain_dayTotal.
    apply (Hmax (mkExpenseInMain e (convert (amount e) (currency e) (mainCurrency trip)))).
    unfold expensesInMainCurrency. apply in_map_iff. now exists e.
  - unfold expensesInMainCurrency in Em.
    apply map_eq_app in Em. destruct Em as [l1 [l2' [E1 [Em1 Em2]]]].
    apply map_eq_cons in Em2. destruct Em2 as [e [l2 [E2 [Ex Em2]]]].
    subst l2' m1 x. cbn [expense] in Ek.
    exists l1, e, l2. split; [exact E1|]. split; [exact Ek|].
    intros y Hy. rewrite <- inMain_dayTotal.
    apply (Hm1 (mkExpenseInMain y (convert (amount y) (currency y) (mainCurrency trip)))).
    apply in_map_iff. now exists y.
Qed.

(** X24: the most frequent category is a category of the list; its count is
    the number of expenses of that category, no category has more, and
    among the categories with that count it is the one the list shows
    first.  Its icon is the icon of the first registered category of that
    name, if there is one. *)
Theorem mostFrequentCategory_first_maximum
  (expenses : list Expense) (top : Frequent) (trip : Trip) :
  mostFrequentCategory (summary convert categories expenses trip) = Some top ->
  count top == categoryCount expenses (name top)
  /\ (forall e, In e expenses -> categoryCount expenses (category e) <= count top)
  /\ (exists l1 e l2,
        expenses = l1 ++ e :: l2
        /\ category e = name top
        /\ forall y, In y l1 -> categoryCount expenses (category y) < count top)
  /\ icon top
     = option_map Types.icon
         (find (fun c => String.eqb (Types.name c) (name top)) categories).
Proof.
  intros H. unfold summary in H.
  destruct (List.length expenses =? 0)%nat; [discriminate|].
  cbn [mostFrequentCategory] in H.
  destruct (hd_error (JS.sort (fun a b => snd b - snd a) (categoryCounts expenses)))
    as [[k v]|] eqn:E; [|discriminate].
  simpl in H. injection H as <-. cbn [name count icon].
  rewrite categoryCounts_group in E.
  apply (group_sort_head String.eqb String.eqb_eq) in E.
  destruct E as [Hv [Hmax [l1 [e [l2 [El [Ek Hl1]]]]]]].
  split; [now rewrite Hv, count_groupTotal|]. split; [|split; [|reflexivity]].
  - intros x Hx. rewrite <- count_groupTotal. now apply Hmax.
  - exists l1, e, l2. split; [exact El|]. split; [exact Ek|].
    intros y Hy. rewrite <- count_groupTotal. now apply Hl1.
Qed.

End DayAndCategoryHighlights.

(** ** The colour theme *)

Section ThemeFacts.

Import ThemeContext.

Local Open Scope string_scope.

Lemma in_classList_remove (l : list string) (token c : string) :
  In c (classList_remove l token) <-> In c l /\ c <> token.
Proof.
  unfold classList_remove. rewrite filter_In. split.
  - intros [H1 H2]. split; [exact H1|]. intros ->.
    rewrite String.eqb_refl in H2. discriminate.
  - intros [H1 H2]. split; [exact H1|].
    apply String.eqb_neq in H2. now rewrite H2.
Qed.

Lemma in_classList_add (l : list string) (token c : string) :
  In c (classList_add l token) <-> In c l \/ c = token.
Proof.
  unfold classList_add. destruct (existsb (String.eqb token) l) eqn:E.
  - split; [now left|]. intros [H|H]; [exact H|]. subst c.
    apply existsb_exists in E. destruct E as [x [Hx Ex]].
    apply String.eqb_eq in Ex. now subst.
  - rewrite in_app_iff. simpl. split.
    + intros [H|[H|[]]]; [now left | now right].
    + intros [H|H]; [now left | right; left; now symmetry].
Qed.

Lemma classList_add_present (l : list string) (token : string) :
  In token l -> classList_add l token = l.
Proof.
  intros H. unfold classList_add.
  assert (E : existsb (String.eqb token) l = true).
  { apply existsb_exists. exists token. split; [exact H | apply String.eqb_refl]. }
  now rewrite E.
Qed.

Lemma classList_remove_absent (l : list string) (token : string) :
  ~ In token l -> classList_remove l token = l.
Proof.
  intros H. unfold classList_remove. induction l as [|x l IH]; [reflexivity|].
  simpl. destruct (String.eqb x token) eqn:E.
  - apply String.eqb_eq in E. subst. exfalso. apply H. now left.
  - simpl. f_equal. apply IH. intros Hin. apply H. now right.
Qed.

(** X25: once the effect has run for a theme, the root element carries the
    class of that theme and not the class of the other one, every other
    class is as it was, and a reload starts with that theme whatever the
    system prefers; running the effect again changes nothing. *)
Theorem applyTheme_persists (theme : Theme) (env : Env) :
  let env' := applyTheme theme env in
  In (themeName theme) (classList env')
  /\ ~ In (themeName (toggleTheme theme)) (classList env')
  /\ (forall c, c <> "light" -> c <> "dark" ->
                (In c (classList env') <-> In c (classList env)))
  /\ (forall prefersDark, getInitialTheme true (vsc_theme env') prefersDark = theme)
  /\ applyTheme theme env' = env'.
Proof.
  intros env'.
  assert (Hin : In (themeName theme) (classList env')).
  { unfold env', applyTheme. cbn [classList].
    apply in_classList_add. now right. }
  assert (Hout : ~ In (themeName (toggleTheme theme)) (classList env')).
  { unfold env', applyTheme. cbn [classList]. intros H.
    apply in_classList_add in H. destruct H as [H|H].
    - apply in_classList_remove in H. destruct H as [_ H]. apply H.
      now destruct theme.
    - now destruct theme. }
  split; [exact Hin|]. split; [exact Hout|]. split; [|split].
  - intros c Hl Hd. unfold env', applyTheme. cbn [classList].
    rewrite in_classList_add, in_classList_remove.
    destruct theme; simpl; split.
    + intros [[H _]|H]; [exact H | contradiction].
    + intros H. left. now split.
    + intros [[H _]|H]; [exact H | contradiction].
    + intros H. left. now split.
  - intros prefersDark. unfold env', applyTheme. cbn [vsc_theme].
    now destruct theme.
  - unfold applyTheme at 1. rewrite classList_remove_absent.
    + rewrite (classList_add_present _ _ Hin). reflexivity.
    + destruct theme; exact Hout.
Qed.

End ThemeFacts.

(** ** The list behind every view *)

Section FilterPermutation.

Context {A : Type}.
Variable p : A -> bool.

Lemma filter_perm (l l' : list A) :
  Permutation l l' -> Permutation (filter p l) (filter p l').
Proof.
  induction 1 as [|x l l' H IH|x y l|l l' l'' H1 IH1 H2 IH2]; simpl.
  - constructor.
  - destruct (p x); [now constructor | exact IH].
  - destruct (p x), (p y); try reflexivity. apply perm_swap.
  - now transitivity (filter p l').
Qed.

Lemma filter_split_perm (l : list A) :
  Permutation (filter p l ++ filter (fun x => negb (p x)) l) l.
Proof.
  induction l as [|x l IH]; simpl; [constructor|].
  destruct (p x); simpl.
  - now constructor.
  - rewrite <- Permutation_middle. now constructor.
Qed.

End FilterPermutation.

Section FilteredView.

Import JSDate Dashboard.

Local Open Scope Z_scope.

Variable tz : Z.
Variable now : Z.

(** X26: whatever the filter, the expenses handed to the views stand with
    the later date first; they are the expenses of the trip that pass the
    date filter and, when a category is selected, are of a selected
    category, and together with the expenses that do not pass they make up
    the expenses of the trip, none lost and none doubled. *)
Theorem filteredExpenses_view (dateFilter : DateFilter)
  (selectedCategories : list string) (tripExpenses : list Expense) :
  let keep := fun e => dateOk tz now dateFilter e && categoryOk selectedCategories e in
  let shown := filteredExpenses tz now dateFilter selectedCategories tripExpenses in
  StronglySorted newestFirst shown
  /\ (forall e, In e shown <-> In e tripExpenses /\ keep e = true)
  /\ Permutation (shown ++ filter (fun e => negb (keep e)) tripExpenses) tripExpenses.
Proof.
  intros keep shown.
  assert (Hshown : shown = filter keep (sortedExpenses tripExpenses)).
  { unfold shown, filteredExpenses. now rewrite filterExpenses_filter. }
  assert (Hperm : Permutation shown (filter keep tripExpenses)).
  { rewrite Hshown. apply filter_perm. unfold sortedExpenses. apply sort_perm. }
  split; [|split].
  - rewrite Hshown. apply filter_sorted, sortedExpenses_sorted.
  - intros e. rewrite <- filter_In. split.
    + apply Permutation_in. exact Hperm.
    + apply Permutation_in. now symmetry.
  - rewrite Hperm. apply filter_split_perm.
Qed.

(** X27: where the local zone is UTC, every expense listed under [today]
    is listed under [week] and under [month] as well. *)
Theorem today_within_week_and_month_utc
  (selectedCategories : list string) (tripExpenses : list Expense) (e : Expense) :
  In e (filteredExpenses 0 now today selectedCategories tripExpenses) ->
  In e (filteredExpenses 0 now week selectedCategories tripExpenses)
  /\ In e (filteredExpenses 0 now month selectedCategories tripExpenses).
Proof.
  unfold filteredExpenses. rewrite !filterExpenses_filter, !filter_In.
  intros [Hin Hkeep]. apply andb_true_iff in Hkeep. destruct Hkeep as [Hday Hcat].
  simpl in Hday. apply Z.eqb_eq in Hday. unfold isoDate in Hday.
  split; (split; [exact Hin|]); apply andb_true_iff; (split; [|exact Hcat]); simpl.
  - apply Z.leb_le. rewrite firstDayOfWeek_shift, setHours_startOfDay.
    pose proof (weekShift_range 0 now) as Hw.
    pose proof (day_split (date e)) as Hs.
    pose proof (timeWithinDay_range (date e)) as Hr.
    pose proof msPerDay_pos as Hpos.
    rewrite Z.add_0_r, <- Hday.
    assert (weekShift 0 now * msPerDay <= 0) by nia.
    lia.
  - unfold getMonth, getFullYear, LocalTime. rewrite !Z.add_0_r, Hday.
    now rewrite !Z.eqb_refl.
Qed.

End FilteredView.

(** ** The further properties on the example trip

    The example trip runs from 2024-01-01 to 2024-01-10; its expenses are
    200 EUR of Food on the fifth day, and 100 EUR of Food and 50 USD (46 EUR)
    of Taxi on the first. *)

Section FurtherExamples.

Import JSDate.

Local Open Scope Q_scope.




(** The expenses behind the Food slice add up to the slice. *)
Lemma detailedExpenses_of_slice_witness :
  exists s,
    In s (CategoryChart.dataByCategory Example.convert [] Example.expenses Example.trip)
    /\ totalConverted Example.convert Example.trip
         (CategoryDetail.detailedExpenses (Some (CategoryChart.name s)) Example.expenses)
       == CategoryChart.amount s.
Proof.
  eexists. split; [vm_compute; left; reflexivity|].
  refine (proj1 (proj2 (proj2
            (detailedExpenses_of_slice Example.convert [] Example.expenses Example.trip
               _ _ _)))).
  - vm_compute. left. reflexivity.
  - vm_compute. discriminate.
Defined.

(** 2024-01-01 was a Monday: in Central European Time the grid of the
    example trip opens with a day cell. *)
Lemma calendarGrid_columns_witness :
  exists c,
    nth_error (CalendarGrid.calendarGrid Example.CET [] Example.trip) 0 = Some c
    /\ (c = CalendarGrid.empty
        <-> (Z.of_nat 0 < CalendarGrid.firstDayOfWeek Example.CET Example.trip)%Z).
Proof.
  eexists. split; [vm_compute; reflexivity|].
  refine (proj1 (proj2 (proj2
            (calendarGrid_columns Example.CET [] Example.trip 0 _ _)))).
  vm_compute. reflexivity.
Defined.

(** The grid of the ten-day trip. *)
Lemma calendarGrid_days_witness :
  Z.of_nat (List.length
    (CalendarGrid.calendarGrid Example.CET
       (ExpenseCalendarHeatmap.dailyData Example.convert Example.expenses Example.trip)
       Example.trip))
  = (CalendarGrid.firstDayOfWeek Example.CET Example.trip
     + (endDate Example.trip - startDate Example.trip + 1))%Z.
Proof.
  refine (proj1 (calendarGrid_days Example.convert Example.CET
                   Example.expenses Example.trip _ _)).
  - vm_compute. discriminate.
  - vm_compute. split; reflexivity.
Defined.


(** The forecast payload at noon of the fifth day. *)
Lemma analysisData_payload_witness :
  exists a,
    AIForecast.analysisData Example.convert (Example.noon (Example.jan1 + 4))
      Example.expenses Example.trip = Some a
    /\ (1 <= AIForecast.daysElapsed a)%Z.
Proof.
  eexists. split; [vm_compute; reflexivity|].
  refine (proj1 (proj2 (proj2
            (analysisData_payload Example.convert (Example.noon (Example.jan1 + 4))
               Example.expenses Example.trip _ _)))).
  vm_compute. reflexivity.
Defined.

(** The largest expense of the example. *)
Lemma largestExpense_first_maximum_witness :
  exists top,
    StatsSummary.largestExpense
      (StatsSummary.summary Example.convert [] Example.expenses Example.trip)
    = Some top
    /\ StatsSummary.mainAmount top
       = converted Example.convert Example.trip (StatsSummary.expense top).
Proof.
  eexists. split; [vm_compute; reflexivity|].
  refine (proj1 (largestExpense_first_maximum Example.convert []
                   Example.expenses Example.trip _ _)).
  vm_compute. reflexivity.
Defined.

(** The highest-spending day of the example. *)
Lemma highestSpendingDay_first_maximum_witness :
  exists top,
    StatsSummary.highestSpendingDay
      (StatsSummary.summary Example.convert [] Example.expenses Example.trip)
    = Some top
    /\ StatsSummary.dayAmount top
       == dayTotal Example.convert Example.trip Example.expenses
            (StatsSummary.dayDate top).
Proof.
  eexists. split; [vm_compute; reflexivity|].
  refine (proj1 (highestSpendingDay_first_maximum Example.convert []
                   Example.expenses Example.trip _ _)).
  vm_compute. reflexivity.
Defined.

(** The most frequent category of the example. *)
Lemma mostFrequentCategory_first_maximum_witness :
  exists top,
    StatsSummary.mostFrequentCategory
      (StatsSummary.summary Example.convert [] Example.expenses Example.trip)
    = Some top
    /\ StatsSummary.count top
       == categoryCount Example.expenses (StatsSummary.name top).
Proof.
  eexists. split; [vm_compute; reflexivity|].
  refine (proj1 (mostFrequentCategory_first_maximum Example.convert []
                   Example.expenses _ Example.trip _)).
  vm_compute. reflexivity.
Defined.

(** At noon UTC of the fifth day, a Friday, the expense of that day is
    listed under [week] too. *)
Lemma today_within_week_and_month_utc_witness :
  In (Example.expenseAt 200 "EUR" "Food" (Example.noon (Example.jan1 + 4)))
     (Dashboard.filteredExpenses 0 (Example.noon (Example.jan1 + 4))
        Dashboard.week [] Example.expenses).
Proof.
  refine (proj1 (today_within_week_and_month_utc (Example.noon (Example.jan1 + 4))
                   [] Example.expenses _ _)).
  vm_compute. left. reflexivity.
Defined.

End FurtherExamples.
